(** * Remote-work analysis: the cleaning pipelines and the stress cross-tabulation

    A shallow embedding of [py_files/functions.py] (the two cleaning
    functions and the two stress cross-tabulations) together with the
    fragment of pandas they rely on.

    Conventions of the embedding:
    - a float64 is a [num]: a finite value, kept as an exact rational, or
      one of the IEEE specials [PInf], [NInf], [NaN].  Arithmetic on finite
      values is exact; the special values follow IEEE 754.  pandas' missing
      value is [NaN].  Where the program rounds in binary64 the exact value
      and the computed one differ by a rounding error, so what is stated of
      a computed percentage or score is stated up to a tolerance that holds
      of both ([near], [approximates], [two_decimals]);
    - labels are byte strings and [str_lower] is ASCII lower-casing: what is
      stated of the labels themselves is stated for ASCII labels;
    - a Python exception is an [Err] result;
    - a DataFrame is the ordered list of its labelled columns; the row index
      of a frame read from a CSV file is positional and is not modelled;
    - the objects a function mutates live in a [heap], variables hold
      references into it. *)

From Stdlib Require Import QArith Qround Qabs Lqa.
From stdpp Require Import base list strings.

(** ** Exceptions *)

Inductive error :=
  | KeyError (label : string)
  | TypeError
  | ValueError.

Inductive result (A : Type) :=
  | Ok (a : A)
  | Err (e : error).
Arguments Ok {A} a.
Arguments Err {A} e.

#[global] Instance result_ret : MRet result := λ A a, Ok a.
#[global] Instance result_bind : MBind result := λ A B f m,
  match m with Ok a => f a | Err e => Err e end.
#[global] Instance result_fmap : FMap result := λ A B f m,
  match m with Ok a => Ok (f a) | Err e => Err e end.

(** [mapM] on results, left to right: the first failing element aborts. *)
Fixpoint traverse {A B} (f : A → result B) (l : list A) : result (list B) :=
  match l with
  | [] => Ok []
  | x :: l => y ← f x; ys ← traverse f l; Ok (y :: ys)
  end.

(** ** Numbers *)

Inductive num :=
  | Fin (q : Q)
  | PInf
  | NInf
  | NaN.

Definition is_finite (x : num) : bool :=
  match x with Fin _ => true | _ => false end.

Definition num_leb (x y : num) : bool :=
  match x, y with
  | NaN, _ | _, NaN => false
  | Fin a, Fin b => Qle_bool a b
  | NInf, _ => true
  | _, PInf => true
  | _, _ => false
  end.

Definition num_eqb (x y : num) : bool :=
  match x, y with
  | Fin a, Fin b => Qeq_bool a b
  | PInf, PInf | NInf, NInf => true
  | _, _ => false
  end.

Definition num_opp (x : num) : num :=
  match x with
  | Fin a => Fin (- a)
  | PInf => NInf
  | NInf => PInf
  | NaN => NaN
  end.

Definition num_add (x y : num) : num :=
  match x, y with
  | NaN, _ | _, NaN => NaN
  | Fin a, Fin b => Fin (a + b)
  | PInf, NInf | NInf, PInf => NaN
  | PInf, _ | _, PInf => PInf
  | NInf, _ | _, NInf => NInf
  end.

(** The sign of a finite value: [Gt] positive, [Lt] negative, [Eq] zero. *)
Definition sgn (a : Q) : comparison := (a ?= 0)%Q.

(** The infinity of a given sign; [NaN] for the sign of zero. *)
Definition inf_of (s : comparison) : num :=
  match s with Gt => PInf | Lt => NInf | Eq => NaN end.

Definition num_mul (x y : num) : num :=
  match x, y with
  | NaN, _ | _, NaN => NaN
  | Fin a, Fin b => Fin (a * b)
  | Fin a, PInf | PInf, Fin a => inf_of (sgn a)
  | Fin a, NInf | NInf, Fin a => num_opp (inf_of (sgn a))
  | PInf, PInf | NInf, NInf => PInf
  | PInf, NInf | NInf, PInf => NInf
  end.

(** True division.  A finite value over zero is an infinity of its sign,
    zero over zero is [NaN]; nothing raises. *)
Definition num_div (x y : num) : num :=
  match x, y with
  | NaN, _ | _, NaN => NaN
  | Fin a, Fin b => if Qeq_bool b 0 then inf_of (sgn a) else Fin (a / b)
  | Fin _, _ => Fin 0
  | PInf, Fin b => match sgn b with Lt => NInf | _ => PInf end
  | NInf, Fin b => match sgn b with Lt => PInf | _ => NInf end
  | _, _ => NaN
  end.

(** Round half to even, as [rint]. *)
Definition rint (q : Q) : Z :=
  let f := Qfloor q in
  match (q - inject_Z f ?= 1 # 2)%Q with
  | Lt => f
  | Gt => (f + 1)%Z
  | Eq => if Z.even f then f else (f + 1)%Z
  end.

(** [round(2)]: scale by 100, round to the nearest integer, scale back. *)
Definition round2 (q : Q) : Q := (inject_Z (rint (q * 100)) / 100)%Q.

Definition num_round2 (x : num) : num :=
  match x with Fin a => Fin (round2 a) | _ => x end.

(** ** Cells *)

(** A cell holds a number (a missing value is [NaN]) or a string. *)
Inductive cell :=
  | CNum (x : num)
  | CStr (s : string).

Definition is_str (c : cell) : bool :=
  match c with CStr _ => true | _ => false end.

Definition is_num (c : cell) : bool :=
  match c with CNum _ => true | _ => false end.

(** Python's [==]: values of different kinds are different. *)
Definition cell_eqb (c d : cell) : bool :=
  match c, d with
  | CNum x, CNum y => num_eqb x y
  | CStr s, CStr t => bool_decide (s = t)
  | _, _ => false
  end.

(** Python's [<=]: ordering a string against a number raises. *)
Definition cell_le (c d : cell) : result bool :=
  match c, d with
  | CNum x, CNum y => Ok (num_leb x y)
  | CStr s, CStr t => Ok (String.leb s t)
  | _, _ => Err TypeError
  end.

Definition int (z : Z) : cell := CNum (Fin (inject_Z z)).

(** ** The three bucketing functions of [df_mentalhealth_cleaning] *)

Definition support_remote_grade (grade : cell) : result string :=
  c ← cell_le grade (int 2);
  if c : bool then Ok "Low"
  else if cell_eqb grade (int 3) then Ok "Medium"
  else Ok "High".

Definition social_isolation (rating : cell) : result string :=
  c ← cell_le rating (int 2);
  if c : bool then Ok "Low"
  else if cell_eqb rating (int 3) then Ok "Medium"
  else Ok "High".

Definition degree_work_life_balance (grade : cell) : result string :=
  c ← cell_le grade (int 2);
  if c : bool then Ok "Low"
  else if cell_eqb grade (int 3) then Ok "Medium"
  else Ok "High".

Definition bucketing_functions : list (cell → result string) :=
  [support_remote_grade; social_isolation; degree_work_life_balance].

(** ** Series *)

Inductive dtype :=
  | Plain
  | Categorical (categories : list string) (ordered : bool).

Record series := Series { dtype_of : dtype; values : list cell }.

Definition plain (vs : list cell) : series := Series Plain vs.

(** [s == c] and [s != c], element by element. *)
Definition series_eq (s : series) (c : cell) : list bool :=
  (λ v, cell_eqb v c) <$> values s.

Definition series_ne (s : series) (c : cell) : list bool :=
  (λ v, negb (cell_eqb v c)) <$> values s.

(** [m1 & m2] on boolean masks. *)
Definition mask_and (m1 m2 : list bool) : list bool := zip_with andb m1 m2.

(** The entries of [xs] whose mask bit is set. *)
Fixpoint select {A} (mask : list bool) (xs : list A) : list A :=
  match mask, xs with
  | b :: mask, x :: xs => if b then x :: select mask xs else select mask xs
  | _, _ => []
  end.

(** [s.replace({k1: v1, ...})]: a value equal to a key becomes its image. *)
Fixpoint replace_cell (mapping : list (cell * cell)) (v : cell) : cell :=
  match mapping with
  | [] => v
  | (k, w) :: mapping => if cell_eqb v k then w else replace_cell mapping v
  end.

Definition series_replace (mapping : list (cell * cell)) (s : series) : series :=
  plain (replace_cell mapping <$> values s).

(** Arithmetic needs numbers: a string operand raises [TypeError]. *)
Definition to_num (c : cell) : result num :=
  match c with CNum x => Ok x | CStr _ => Err TypeError end.

Definition cell_arith (op : num → num → num) (c d : cell) : result cell :=
  x ← to_num c; y ← to_num d; Ok (CNum (op x y)).

(** [s op c] for a scalar [c]. *)
Definition series_scalar (op : num → num → num) (s : series) (c : cell) : result series :=
  plain <$> traverse (λ v, cell_arith op v c) (values s).

(** [s + t], element by element (both come from the same frame).  Two
    strings would concatenate, and the numeric column added next in the same
    statement would then raise; the model raises at the first string. *)
Fixpoint cells_add (xs ys : list cell) : result (list cell) :=
  match xs, ys with
  | x :: xs, y :: ys => z ← cell_arith num_add x y; zs ← cells_add xs ys; Ok (z :: zs)
  | _, _ => Ok []
  end.

Definition series_add (s t : series) : result series :=
  plain <$> cells_add (values s) (values t).

(** The larger of two numbers, a missing one being skipped. *)
Definition nanmax (x y : num) : num :=
  match x, y with
  | NaN, _ => y
  | _, NaN => x
  | _, _ => if num_leb x y then y else x
  end.

(** [s.max()]: the largest value that is not missing, [NaN] when there is
    none.  On a column that holds a string either [max] itself raises
    [TypeError] (mixed column) or the division that consumes its result
    does (all strings); the model raises it here, in the same statement. *)
Definition series_max (s : series) : result cell :=
  xs ← traverse to_num (values s); Ok (CNum (foldr nanmax NaN xs)).

(** [s.round(2)]; the column is numeric when this is called. *)
Definition series_round2 (s : series) : result series :=
  plain <$> traverse (λ v, x ← to_num v; Ok (CNum (num_round2 x))) (values s).

(** [s.apply(f)] for a function returning a string. *)
Definition series_apply (f : cell → result string) (s : series) : result series :=
  plain <$> traverse (λ v, CStr <$> f v) (values s).

(** [s.isin(labels)]. *)
Definition series_isin (s : series) (labels : list string) : list bool :=
  (λ v, match v with CStr t => bool_decide (t ∈ labels) | CNum _ => false end) <$> values s.

(** [pd.Categorical(s, categories, ordered)]: a value outside the
    categories becomes missing. *)
Definition to_category (categories : list string) (v : cell) : cell :=
  match v with
  | CStr t => if bool_decide (t ∈ categories) then v else CNum NaN
  | CNum _ => CNum NaN
  end.

Definition categorical (s : series) (categories : list string) (ordered : bool) : series :=
  Series (Categorical categories ordered) (to_category categories <$> values s).

(** ** Frames *)

Abbreviation frame := (list (string * series)).

Definition columns (df : frame) : list string := df.*1.

(** [df[label]] *)
Fixpoint getitem (df : frame) (label : string) : result series :=
  match df with
  | [] => Err (KeyError label)
  | (k, s) :: df => if decide (k = label) then Ok s else getitem df label
  end.

(** [df[label] = s]: overwrites the column, or appends a new last one. *)
Fixpoint setitem (df : frame) (label : string) (s : series) : frame :=
  match df with
  | [] => [(label, s)]
  | (k, c) :: df =>
      if decide (k = label) then (k, s) :: df else (k, c) :: setitem df label s
  end.

(** [df.drop(columns=labels, errors='ignore')] *)
Definition drop_ignore (labels : list string) (df : frame) : frame :=
  filter (λ kc, kc.1 ∉ labels) df.

(** [df.drop(columns=labels)]: an absent label raises.  pandas names all
    the absent labels in the error, the model names the first. *)
Definition drop (labels : list string) (df : frame) : result frame :=
  match filter (λ l, l ∉ columns df) labels with
  | [] => Ok (drop_ignore labels df)
  | l :: _ => Err (KeyError l)
  end.

(** [df[mask]]: the rows whose mask bit is set, in every column. *)
Definition boolean_index (mask : list bool) (df : frame) : frame :=
  (λ kc, (kc.1, Series (dtype_of kc.2) (select mask (values kc.2)))) <$> df.

(** [df.columns = labels] *)
Definition set_columns (df : frame) (labels : list string) : result frame :=
  if decide (length labels = length df) then Ok (zip labels (df.*2))
  else Err ValueError.

(** [df.rename(columns={old: new})]; an absent [old] is ignored. *)
Definition rename (old new : string) (df : frame) : frame :=
  (λ kc, (if decide (kc.1 = old) then new else kc.1, kc.2)) <$> df.

(** [str.lower] on ASCII labels. *)
Definition lower_ascii (a : Ascii.ascii) : Ascii.ascii :=
  let n := Ascii.N_of_ascii a in
  if ((65 <=? n) && (n <=? 90))%N then Ascii.ascii_of_N (n + 32) else a.

Fixpoint str_lower (s : string) : string :=
  match s with
  | EmptyString => EmptyString
  | String a s => String (lower_ascii a) (str_lower s)
  end.

(** ** The productivity cleaner *)

Definition work_type_labels : list (cell * cell) :=
  [(int 100, CStr "Remote"); (int 50, CStr "Hybrid"); (int 0, CStr "Onsite")].

(** The rows the cleaner keeps: IT department, frequency neither 75 nor 25. *)
Definition keep_mask (department frequency : series) : list bool :=
  mask_and (mask_and (series_eq department (CStr "IT"))
                     (series_ne frequency (int 75)))
           (series_ne frequency (int 25)).

(** [(s / s.max()) * 4 + 1] *)
Definition normalize_1_5 (s : series) : result series :=
  m ← series_max s;
  r ← series_scalar num_div s m;
  r ← series_scalar num_mul r (int 4);
  series_scalar num_add r (int 1).

Definition cleaning_productivity_data (df : frame) : result frame :=
  let df_cleaned := drop_ignore ["Employee_ID"; "Hire_Date"; "Team_Size"] df in
  department ← getitem df_cleaned "Department";
  frequency ← getitem df_cleaned "Remote_Work_Frequency";
  let df_cleaned := boolean_index (keep_mask department frequency) df_cleaned in
  frequency ← getitem df_cleaned "Remote_Work_Frequency";
  let df_cleaned :=
    setitem df_cleaned "Remote_Work_Frequency" (series_replace work_type_labels frequency) in
  promotions ← getitem df_cleaned "Promotions";
  promotions_normalized ← normalize_1_5 promotions;
  let df_cleaned := setitem df_cleaned "Promotions_Normalized" promotions_normalized in
  training_hours ← getitem df_cleaned "Training_Hours";
  training_hours_normalized ← normalize_1_5 training_hours;
  let df_cleaned := setitem df_cleaned "Training_Hours_Normalized" training_hours_normalized in
  satisfaction ← getitem df_cleaned "Employee_Satisfaction_Score";
  performance ← getitem df_cleaned "Performance_Score";
  total ← series_add satisfaction performance;
  promotions_normalized ← getitem df_cleaned "Promotions_Normalized";
  total ← series_add total promotions_normalized;
  training_hours_normalized ← getitem df_cleaned "Training_Hours_Normalized";
  total ← series_add total training_hours_normalized;
  motivation ← series_scalar num_div total (int 4);
  let df_cleaned := setitem df_cleaned "Motivation_Score" motivation in
  motivation ← getitem df_cleaned "Motivation_Score";
  motivation ← series_round2 motivation;
  let df_cleaned := setitem df_cleaned "Motivation_Score" motivation in
  df_cleaned ← drop ["Promotions_Normalized"; "Training_Hours_Normalized"] df_cleaned;
  df_cleaned ← set_columns df_cleaned (str_lower <$> columns df_cleaned);
  let df_cleaned := rename "remote_work_frequency" "work_type" df_cleaned in
  work_type ← getitem df_cleaned "work_type";
  Ok (setitem df_cleaned "work_type"
        (categorical work_type ["Remote"; "Hybrid"; "Onsite"] true)).

(** ** Mutable frames *)

(** The store of frame objects; a variable holds a reference. *)
Abbreviation ref := nat.
Abbreviation heap := (list frame).

(** A computation may raise and may update the store; what it did to the
    store before raising stays done. *)
Definition M (A : Type) : Type := heap → result A * heap.

#[global] Instance M_ret : MRet M := λ A a h, (Ok a, h).
#[global] Instance M_bind : MBind M := λ A B f m h,
  match m h with
  | (Ok a, h') => f a h'
  | (Err e, h') => (Err e, h')
  end.

Definition lift {A} (r : result A) : M A := λ h, (r, h).

Definition load (r : ref) : M frame := λ h, (Ok (h !!! r), h).

Definition store (r : ref) (df : frame) : M unit := λ h, (Ok (), <[r := df]> h).

(** A new object, at a fresh reference. *)
Definition alloc (df : frame) : M ref := λ h, (Ok (length h), h ++ [df]).

Module InPlace.
(** [df[label]] through a reference. *)
Definition getitem (df : ref) (label : string) : M series :=
  f ← load df; lift (getitem f label).

(** [df[label] = s] updates the object [df] refers to. *)
Definition setitem (df : ref) (label : string) (s : series) : M unit :=
  f ← load df; store df (setitem f label s).

(** [df.columns = labels] *)
Definition set_columns (df : ref) (labels : list string) : M unit :=
  f ← load df; f ← lift (set_columns f labels); store df f.

(** [df.rename(columns={old: new}, inplace=True)] *)
Definition rename (df : ref) (old new : string) : M unit :=
  f ← load df; store df (rename old new f).

(** [df.drop(columns=labels)] builds a new object. *)
Definition drop (df : ref) (labels : list string) : M ref :=
  f ← load df; f ← lift (drop labels f); alloc f.

(** [df[mask]] builds a new object. *)
Definition boolean_index (df : ref) (mask : list bool) : M ref :=
  f ← load df; alloc (boolean_index mask f).
End InPlace.

(** ** The mental-health cleaner *)

Definition tech_roles : list string :=
  ["Data Scientist"; "Software Engineer"; "Project Manager"].

Definition dropped_columns : list string :=
  ["employee_id"; "industry"; "mental_health_condition";
   "access_to_mental_health_resources"; "physical_activity"; "sleep_quality";
   "region"].

Definition df_mentalhealth_cleaning (df2 : ref) : M ref :=
  f ← load df2;
  InPlace.set_columns df2 (str_lower <$> columns f);;
  rating ← InPlace.getitem df2 "company_support_for_remote_work";
  degree ← lift (series_apply support_remote_grade rating);
  InPlace.setitem df2 "degree_of_remote_support" degree;;
  rating ← InPlace.getitem df2 "social_isolation_rating";
  degree ← lift (series_apply social_isolation rating);
  InPlace.setitem df2 "degree_of_social_isolation" degree;;
  rating ← InPlace.getitem df2 "work_life_balance_rating";
  degree ← lift (series_apply degree_work_life_balance rating);
  InPlace.setitem df2 "degree_of_work-life_balance" degree;;
  (* from here on the local name [df2] is bound to the new object *)
  df2 ← InPlace.drop df2 dropped_columns;
  InPlace.rename df2 "work_location" "work_type";;
  job_role ← InPlace.getitem df2 "job_role";
  df2_cleaned ← InPlace.boolean_index df2 (series_isin job_role tech_roles);
  mret df2_cleaned.

(** ** Grouping, counting and pivoting *)

(** The labels of a column of strings; a missing entry has none.  Group
    keys and counted values are strings in the tables of this program: a
    numeric label is outside the model and is reported as [TypeError]. *)
Definition label_of (c : cell) : result (option string) :=
  match c with
  | CStr s => Ok (Some s)
  | CNum NaN => Ok None
  | CNum _ => Err TypeError
  end.

(** The distinct labels, in order of first appearance. *)
Fixpoint unique (l : list string) : list string :=
  match l with
  | [] => []
  | x :: l => x :: filter (λ y, y ≠ x) (unique l)
  end.

Fixpoint insert_sorted (s : string) (l : list string) : list string :=
  match l with
  | [] => [s]
  | t :: l' => if String.leb s t then s :: l else t :: insert_sorted s l'
  end.

(** Labels in ascending (lexicographic) order. *)
Definition sort_labels (l : list string) : list string := foldr insert_sorted [] l.

Fixpoint insert_desc (e : string * nat) (l : list (string * nat)) : list (string * nat) :=
  match l with
  | [] => [e]
  | e' :: l' => if (e'.2 <=? e.2)%nat then e :: l else e' :: insert_desc e l'
  end.

(** Largest count first; equal counts keep their order. *)
Definition sort_desc (l : list (string * nat)) : list (string * nat) :=
  foldr insert_desc [] l.

Definition count_of (x : string) (l : list string) : nat :=
  length (filter (λ y, y = x) l).

(** [x.value_counts()]: missing entries are not counted. *)
Definition value_counts (x : list (option string)) : list (string * nat) :=
  let present := omap id x in
  sort_desc ((λ l, (l, count_of l present)) <$> unique present).

Definition Qnat (n : nat) : Q := inject_Z (Z.of_nat n).

(** [x.value_counts(normalize=True) * 100] *)
Definition value_counts_pct (x : list (option string)) : list (string * num) :=
  let counts := value_counts x in
  let total := sum_list (counts.*2) in
  (λ lc, (lc.1, num_mul (num_div (Fin (Qnat lc.2)) (Fin (Qnat total))) (Fin 100)))
    <$> counts.

(** A series over a two-level index, as [groupby(...)[...].apply(f)] builds
    it from the series [f] returns for each group: the pieces in the order
    of the sorted group keys, and the labels of the inner level. *)
Record series2 := Series2 {
  pieces : list (string * list (string * num));
  inner_level : list string
}.

(** The inner level of the concatenation.  When every piece carries the
    same index, that index is taken as it stands; otherwise the labels of
    all pieces are collected and sorted. *)
Definition concat_level (indexes : list (list string)) : list string :=
  match indexes with
  | [] => []
  | first :: rest =>
      if forallb (λ i, bool_decide (i = first)) rest then first
      else sort_labels (unique (concat indexes))
  end.

Definition groupby_apply (keys values : list (option string))
    (f : list (option string) → list (string * num)) : series2 :=
  let group_keys := sort_labels (unique (omap id keys)) in
  let ps := (λ k, (k, f (select ((λ x, bool_decide (x = Some k)) <$> keys) values)))
              <$> group_keys in
  Series2 ps (concat_level ((λ p, p.2.*1) <$> ps)).

(** A frame with a labelled row index. *)
Record table := Table { index : list string; body : frame }.

Fixpoint assoc {A} (k : string) (l : list (string * A)) : option A :=
  match l with
  | [] => None
  | (k', v) :: l => if decide (k' = k) then Some v else assoc k l
  end.

(** [s.unstack()]: the inner level becomes the columns, in the order of
    that level; the outer labels that occur become the rows; a pair that
    does not occur is missing. *)
Definition unstack (s : series2) : table :=
  let rows := filter (λ p, p.2 ≠ []) (pieces s) in
  Table (rows.*1)
    ((λ l, (l, plain ((λ p, CNum (default NaN (assoc l p.2))) <$> rows)))
       <$> inner_level s).

Fixpoint position (k : string) (l : list string) : option nat :=
  match l with
  | [] => None
  | k' :: l => if decide (k' = k) then Some 0%nat else S <$> position k l
  end.

(** [t.loc[labels]]: the rows with these labels, in this order. *)
Definition loc (labels : list string) (t : table) : result table :=
  ps ← traverse (λ k, match position k (index t) with
                      | Some i => Ok i
                      | None => Err (KeyError k)
                      end) labels;
  Ok (Table labels
        ((λ kc, (kc.1, Series (dtype_of kc.2) (omap (λ i, values kc.2 !! i) ps)))
           <$> body t)).

Definition skipna (x : num) : num :=
  match x with NaN => Fin 0 | _ => x end.

(** The sum of a row, missing entries skipped. *)
Definition nansum (xs : list num) : num := foldl num_add (Fin 0) (skipna <$> xs).

(** [t.sum(axis=1)] *)
Definition sum_axis1 (t : table) : result series :=
  plain <$> traverse (λ i : nat,
      xs ← traverse (λ kc : string * series,
                       match values kc.2 !! i with
                       | Some c => to_num c
                       | None => Ok NaN
                       end) (body t);
      Ok (CNum (nansum xs)))
    (seq 0 (length (index t))).

(** [df.round({l: 2 for l in labels})] *)
Definition round_columns (labels : list string) (df : frame) : result frame :=
  traverse (λ kc : string * series,
              if bool_decide (kc.1 ∈ labels) then s ← series_round2 kc.2; Ok (kc.1, s)
              else Ok kc) df.

(** ** The stress level by work type cross-tabulation *)

Definition stress_worktype_rel (df2_cleaned : frame) : result table :=
  stress_level ← getitem df2_cleaned "stress_level";
  work_type ← getitem df2_cleaned "work_type";
  keys ← traverse label_of (values stress_level);
  vals ← traverse label_of (values work_type);
  let df_stress := groupby_apply keys vals value_counts_pct in
  let df_stress := unstack df_stress in
  cols ← set_columns (body df_stress) ["Remote"; "Hybrid"; "Onsite"];
  let df_stress := Table (index df_stress) cols in
  let row_order := ["Low"; "Medium"; "High"] in
  df_stress ← loc row_order df_stress;
  total ← sum_axis1 df_stress;
  let df_stress := Table (index df_stress) (setitem (body df_stress) "Total" total) in
  cols ← round_columns ["Remote"; "Hybrid"; "Onsite"] (body df_stress);
  Ok (Table (index df_stress) cols).

(** ** The bucketing rule as the specification words it *)

(** "Any rating at most 2 is Low, exactly 3 is Medium, anything else,
    including values above 5 or below 1, is High." *)
Definition spec_bucketing_rule (q : Q) (b : string) : Prop :=
  ((q <= 2)%Q → b = "Low") ∧
  ((q == 3)%Q → b = "Medium") ∧
  ((¬ (q <= 2)%Q ∧ ¬ (q == 3)%Q) ∨ (5 < q)%Q ∨ (q < 1)%Q → b = "High").

(** ** The productivity cleaner, step by step *)

(** The rows of a column kept by a mask. *)
Definition kept (mask : list bool) (s : series) : series :=
  Series (dtype_of s) (select mask (values s)).

(** The score column, computed from the kept rows of the raw columns. *)
Definition motivation_column (mask : list bool) (df : frame) : result series :=
  promotions ← getitem df "Promotions";
  promotions_normalized ← normalize_1_5 (kept mask promotions);
  training_hours ← getitem df "Training_Hours";
  training_hours_normalized ← normalize_1_5 (kept mask training_hours);
  satisfaction ← getitem df "Employee_Satisfaction_Score";
  performance ← getitem df "Performance_Score";
  total ← series_add (kept mask satisfaction) (kept mask performance);
  total ← series_add total promotions_normalized;
  total ← series_add total training_hours_normalized;
  motivation ← series_scalar num_div total (int 4);
  series_round2 motivation.

(** The frame the cleaner holds once the score is in place and the two
    temporary columns are gone. *)
Definition scored (mask : list bool) (frequency motivation : series) (df : frame) : frame :=
  setitem
    (drop_ignore ["Promotions_Normalized"; "Training_Hours_Normalized"]
       (setitem
          (boolean_index mask (drop_ignore ["Employee_ID"; "Hire_Date"; "Team_Size"] df))
          "Remote_Work_Frequency" (series_replace work_type_labels (kept mask frequency))))
    "Motivation_Score" motivation.

(** The last steps: lower-case labels, the rename, the categorical. *)
Definition finish (df_cleaned : frame) : result frame :=
  df_cleaned ← set_columns df_cleaned (str_lower <$> columns df_cleaned);
  let df_cleaned := rename "remote_work_frequency" "work_type" df_cleaned in
  work_type ← getitem df_cleaned "work_type";
  Ok (setitem df_cleaned "work_type"
        (categorical work_type ["Remote"; "Hybrid"; "Onsite"] true)).

Definition lower_columns (df : frame) : frame :=
  (λ kc, (str_lower kc.1, kc.2)) <$> df.

(** Lower-casing keeps the labels of a frame apart. *)
Definition lower_injective (df : frame) : Prop :=
  ∀ k k', k ∈ columns df → k' ∈ columns df → str_lower k = str_lower k' → k = k'.

(** The labels of a raw productivity table stay distinct when lower-cased,
    and none of them lower-cases to a label the cleaner introduces.  A frame
    with a repeated label is outside the model. *)
Definition productivity_labels_ok (df : frame) : Prop :=
  NoDup (str_lower <$> columns df) ∧
  ("work_type" ∉ (str_lower <$> columns df)) ∧
  ("motivation_score" ∉ (str_lower <$> columns df)).

Definition work_type_categories : list string := ["Remote"; "Hybrid"; "Onsite"].

(** The documented domain of the remote-work frequency. *)
Definition in_frequency_domain (c : cell) : bool :=
  existsb (cell_eqb c) [int 0; int 25; int 50; int 75; int 100].

(** The mapping from a raw frequency to its label. *)
Definition labelled (raw label : cell) : Prop :=
  (cell_eqb raw (int 100) = true ∧ label = CStr "Remote") ∨
  (cell_eqb raw (int 50) = true ∧ label = CStr "Hybrid") ∨
  (cell_eqb raw (int 0) = true ∧ label = CStr "Onsite").

(** ** Sample tables *)

Definition ints (l : list Z) : series := plain (int <$> l).
Definition strs (l : list string) : series := plain (CStr <$> l).

(** Five IT rows, one per frequency of the domain. *)
Definition productivity_sample : frame :=
  [("Employee_ID", ints [1; 2; 3; 4; 5]%Z);
   ("Department", strs ["IT"; "IT"; "IT"; "IT"; "IT"]);
   ("Remote_Work_Frequency", ints [100; 50; 0; 75; 25]%Z);
   ("Promotions", ints [0; 2; 4; 1; 3]%Z);
   ("Training_Hours", ints [0; 50; 100; 25; 75]%Z);
   ("Employee_Satisfaction_Score", ints [5; 5; 5; 5; 5]%Z);
   ("Performance_Score", ints [5; 5; 5; 5; 5]%Z)].

Definition productivity_sample_cleaned : frame :=
  [("department", strs ["IT"; "IT"; "IT"]);
   ("work_type",
    Series (Categorical ["Remote"; "Hybrid"; "Onsite"] true)
      [CStr "Remote"; CStr "Hybrid"; CStr "Onsite"]);
   ("promotions", ints [0; 2; 4]%Z);
   ("training_hours", ints [0; 50; 100]%Z);
   ("employee_satisfaction_score", ints [5; 5; 5]%Z);
   ("performance_score", ints [5; 5; 5]%Z);
   ("motivation_score",
    plain [CNum (Fin (300 # 100)); CNum (Fin (400 # 100)); CNum (Fin (500 # 100))])].

(** ** The score on numeric columns *)

Definition fin (q : Q) : cell := CNum (Fin q).

(** [(v / max) * 4 + 1] *)
Definition rescale (max : num) (v : Q) : num :=
  num_add (num_mul (num_div (Fin v) max) (Fin 4)) (Fin 1).

(** The average of the four factors, rounded to two decimals. *)
Definition motivation_of (max_promotions max_training : num) (s f p t : Q) : num :=
  num_round2
    (num_div
       (num_add (num_add (num_add (Fin s) (Fin f)) (rescale max_promotions p))
                (rescale max_training t))
       (Fin 4)).

(** The largest value of a column of finite numbers. *)
Definition column_max (qs : list Q) : num := foldr nanmax NaN (Fin <$> qs).

Definition motivation_values (S F P T : list Q) : list num :=
  (λ x, num_round2 (num_div x (Fin 4))) <$>
    zip_with num_add
      (zip_with num_add (zip_with num_add (Fin <$> S) (Fin <$> F))
                (rescale (column_max P) <$> P))
      (rescale (column_max T) <$> T).

(** Two IT rows without any promotion: the kept maximum is zero. *)
Definition productivity_zero_sample : frame :=
  [("Department", strs ["IT"; "IT"]);
   ("Remote_Work_Frequency", ints [100; 0]%Z);
   ("Promotions", ints [0; 0]%Z);
   ("Training_Hours", ints [10; 20]%Z);
   ("Employee_Satisfaction_Score", ints [3; 4]%Z);
   ("Performance_Score", ints [4; 4]%Z)].

(** ** Required and optional columns of the productivity table *)

Definition optional_fields : list string :=
  ["Employee_ID"; "Hire_Date"; "Team_Size"].

Definition required_fields : list string :=
  ["Department"; "Remote_Work_Frequency"; "Promotions"; "Training_Hours";
   "Employee_Satisfaction_Score"; "Performance_Score"].

(** The column, when there is one, holds numbers only. *)
Definition numeric_column (df : frame) (label : string) : bool :=
  match getitem df label with
  | Ok s => forallb is_num (values s)
  | Err _ => true
  end.

(** The first sample table without its training hours. *)
Definition productivity_sample_no_training : frame :=
  drop_ignore ["Training_Hours"] productivity_sample.

(** ** The mental-health cleaner, object by object *)

Definition bucket_labels : list string :=
  ["degree_of_remote_support"; "degree_of_social_isolation";
   "degree_of_work-life_balance"].

Definition degrees : list cell := [CStr "Low"; CStr "Medium"; CStr "High"].

(** What happens to the object the caller passed in: its labels are
    lower-cased and the three bucket columns are set. *)
Definition with_buckets (f : frame) : result frame :=
  f ← set_columns f (str_lower <$> columns f);
  rating ← getitem f "company_support_for_remote_work";
  degree ← series_apply support_remote_grade rating;
  let f := setitem f "degree_of_remote_support" degree in
  rating ← getitem f "social_isolation_rating";
  degree ← series_apply social_isolation rating;
  let f := setitem f "degree_of_social_isolation" degree in
  rating ← getitem f "work_life_balance_rating";
  degree ← series_apply degree_work_life_balance rating;
  Ok (setitem f "degree_of_work-life_balance" degree).

(** The second object: the first without the excluded columns, then
    renamed in place. *)
Definition pruned (f : frame) : result frame :=
  f ← drop dropped_columns f;
  Ok (rename "work_location" "work_type" f).

(** The third object, the one returned: the rows with a tech role. *)
Definition tech_only (f : frame) : result frame :=
  job_role ← getitem f "job_role";
  Ok (boolean_index (series_isin job_role tech_roles) f).

(** The labels of a raw mental-health table stay distinct when lower-cased
    and none of them lower-cases to the label the rename introduces.  A
    frame with a repeated label is outside the model. *)
Definition mental_health_labels_ok (f : frame) : Prop :=
  NoDup (str_lower <$> columns f) ∧ ("work_type" ∉ (str_lower <$> columns f)).

Definition is_tech_role (c : cell) : bool :=
  match c with CStr t => bool_decide (t ∈ tech_roles) | CNum _ => false end.

(** A raw mental-health table of four rows; one role is missing, one is
    not a tech role, and two ratings are out of the 1 to 5 domain. *)
Definition mental_health_sample : frame :=
  [("Employee_ID", strs ["EMP1"; "EMP2"; "EMP3"; "EMP4"]);
   ("Industry", strs ["IT"; "IT"; "Retail"; "IT"]);
   ("Job_Role", plain [CStr "Data Scientist"; CNum NaN; CStr "HR"; CStr "Project Manager"]);
   ("Work_Location", strs ["Remote"; "Hybrid"; "Onsite"; "Onsite"]);
   ("Company_Support_for_Remote_Work", ints [1; 3; 5; 4]%Z);
   ("Social_Isolation_Rating", ints [2; 3; 4; 5]%Z);
   ("Work_Life_Balance_Rating", ints [0; 6; 3; 2]%Z);
   ("Stress_Level", strs ["Low"; "Medium"; "High"; "High"]);
   ("Mental_Health_Condition", strs ["None"; "Anxiety"; "None"; "Burnout"]);
   ("Access_to_Mental_Health_Resources", strs ["Yes"; "No"; "No"; "Yes"]);
   ("Physical_Activity", strs ["Weekly"; "Daily"; "Weekly"; "Daily"]);
   ("Sleep_Quality", strs ["Good"; "Poor"; "Average"; "Good"]);
   ("Region", strs ["Europe"; "Asia"; "Africa"; "Europe"])].

(** The bucket column [d] comes from the rating column [rating] of the
    lower-cased input through the bucketing function [g]. *)
Definition bucket_of (f : frame) (rating : string) (g : cell → result string)
    (d : series) : Prop :=
  ∃ r, getitem (lower_columns f) rating = Ok r ∧ series_apply g r = Ok d.

(** The store after the cleaner ran on the sample table. *)
Definition mental_health_store_after : heap :=
  Eval vm_compute in (df_mentalhealth_cleaning 0 [mental_health_sample]).2.

(** ** The cross-tabulation: what is claimed, and sample tables *)

(** The share, in percent and to two decimals, of the rows with stress
    level [level] whose work type is [work]. *)
Definition share_of (df2_cleaned : frame) (level work : string) : result num :=
  stress_level ← getitem df2_cleaned "stress_level";
  work_type ← getitem df2_cleaned "work_type";
  let rows := zip (values stress_level) (values work_type) in
  let in_level := filter (λ p, cell_eqb p.1 (CStr level) = true) rows in
  let hits := filter (λ p, cell_eqb p.2 (CStr work) = true) in_level in
  Ok (num_round2
        (num_mul (num_div (Fin (Qnat (length hits))) (Fin (Qnat (length in_level))))
                 (Fin 100))).

(** [|x - y| <= tol]; nothing is close to a missing value. *)
Definition within (tol : Q) (x y : num) : bool :=
  match x, y with
  | Fin a, Fin b => Qle_bool (Qabs (a - b)) tol
  | _, _ => false
  end.

(** The cell of a column at a row. *)
Definition cell_at (df : frame) (label : string) (i : nat) : option cell :=
  match getitem df label with
  | Ok s => values s !! i
  | Err _ => None
  end.

Definition stress_rows (rows : list (string * string)) : frame :=
  [("stress_level", strs (rows.*1)); ("work_type", strs (rows.*2))].

(** At every stress level three Hybrid rows, two Onsite rows and one
    Remote row. *)
Definition stress_sample : frame :=
  stress_rows
    (mjoin ((λ level, [(level, "Hybrid"); (level, "Onsite"); (level, "Remote");
                       (level, "Hybrid"); (level, "Onsite"); (level, "Hybrid")])
              <$> ["Low"; "Medium"; "High"])).


(** Every row of a cross-tabulation has its Total within 0.01 of the sum
    of its three percentages, for a given way of summing them. *)
Definition row_sums_hold (sum3 : num → num → num → num) (out : table) : Prop :=
  ∀ i r h o t,
    cell_at (body out) "Remote" i = Some (CNum r) →
    cell_at (body out) "Hybrid" i = Some (CNum h) →
    cell_at (body out) "Onsite" i = Some (CNum o) →
    cell_at (body out) "Total" i = Some (CNum t) →
    within (1 # 100) t (sum3 r h o) = true.


(** The row sum as the code takes it: missing percentages are skipped. *)
Definition skipna_sum (r h o : num) : num := nansum [r; h; o].

Definition stress_sample_table : table :=
  Eval vm_compute in
    match stress_worktype_rel stress_sample with Ok t => t | Err _ => Table [] [] end.


(** ** Sums of percentages *)

Definition Qsum (l : list Q) : Q := foldr Qplus 0%Q l.

(** The value a cell contributes to a sum that skips missing cells. *)
Definition val (x : num) : Q :=
  match x with Fin q => q | _ => 0%Q end.

(** The cell of the pivot for inner label [l] in piece [p]. *)
Definition pivot_cell (l : string) (p : string * list (string * num)) : num :=
  default NaN (assoc l p.2).

(** ** Further properties: statements *)

(** The bucket [b] is what the bucketing function [g] makes of the
    rating [c]. *)
Definition bucketed (g : cell → result string) (c b : cell) : Prop :=
  ∃ s, g c = Ok s ∧ b = CStr s.

(** Row by row, the column [degree] of a table is the bucket of its
    column [rating]. *)
Definition buckets_follow (out : frame) (rating degree : string)
    (g : cell → result string) : Prop :=
  ∃ r d, getitem out rating = Ok r ∧ getitem out degree = Ok d ∧
         Forall2 (bucketed g) (values r) (values d).

(** A raw mental-health table with a missing rating and without the
    [Region] column. *)
Definition mental_health_sample_no_region : frame :=
  [("Employee_ID", strs ["EMP1"; "EMP2"]);
   ("Industry", strs ["IT"; "Retail"]);
   ("Job_Role", strs ["Data Scientist"; "Software Engineer"]);
   ("Work_Location", strs ["Remote"; "Onsite"]);
   ("Company_Support_for_Remote_Work", plain [CNum NaN; int 2]);
   ("Social_Isolation_Rating", ints [2; 3]%Z);
   ("Work_Life_Balance_Rating", ints [4; 1]%Z);
   ("Stress_Level", strs ["Low"; "High"]);
   ("Mental_Health_Condition", strs ["None"; "Anxiety"]);
   ("Access_to_Mental_Health_Resources", strs ["Yes"; "No"]);
   ("Physical_Activity", strs ["Weekly"; "Daily"]);
   ("Sleep_Quality", strs ["Good"; "Poor"])].

(** The same table with its [Region] column. *)
Definition mental_health_sample_missing_rating : frame :=
  mental_health_sample_no_region ++ [("Region", strs ["Europe"; "Asia"])].

Definition mental_health_missing_rating_store_after : heap :=
  Eval vm_compute in
    (df_mentalhealth_cleaning 0 [mental_health_sample_missing_rating]).2.

(** The number of rows a mask keeps. *)
Definition count_kept (mask : list bool) : nat :=
  length (filter (λ b, b = true) mask).

(** Every column of the frame has [n] rows. *)
Definition rectangular (n : nat) (df : frame) : Prop :=
  Forall (λ kc, length (values kc.2) = n) df.

Definition has_str (s : series) : bool := existsb is_str (values s).

(** The label a raw column carries in the cleaned productivity table. *)
Definition cleaned_label (k : string) : string :=
  if decide (str_lower k = "remote_work_frequency") then "work_type" else str_lower k.

(** The first sample with a frequency outside the documented domain, a
    missing one, and a promotion count that is not a number. *)
Definition productivity_odd_sample : frame :=
  [("Department", strs ["IT"; "IT"; "IT"; "HR"]);
   ("Remote_Work_Frequency", plain [int 60; CNum NaN; int 100; int 50]);
   ("Promotions", plain [int 1; CStr "two"; int 3; int 0]);
   ("Training_Hours", ints [10; 20; 30; 40]%Z);
   ("Employee_Satisfaction_Score", ints [3; 4; 5; 1]%Z);
   ("Performance_Score", ints [4; 4; 2; 1]%Z)].

(** The same with numeric promotions. *)
Definition productivity_odd_frequency_sample : frame :=
  setitem productivity_odd_sample "Promotions" (ints [1; 2; 3; 0]%Z).

Definition productivity_odd_frequency_cleaned : frame :=
  Eval vm_compute in
    match cleaning_productivity_data productivity_odd_frequency_sample with
    | Ok out => out
    | Err _ => []
    end.

(** The same table with a rating that is not a number. *)
Definition mental_health_sample_text_rating : frame :=
  setitem mental_health_sample_missing_rating "Social_Isolation_Rating"
    (plain [int 2; CStr "n/a"]).

(** ** The stress level by job role cross-tabulation *)

Definition stress_jobrole_rel (df2_cleaned : frame) : result table :=
  stress_level ← getitem df2_cleaned "stress_level";
  job_role ← getitem df2_cleaned "job_role";
  keys ← traverse label_of (values stress_level);
  vals ← traverse label_of (values job_role);
  let df_stress := groupby_apply keys vals value_counts_pct in
  let df_stress := unstack df_stress in
  let row_order := ["Low"; "Medium"; "High"] in
  df_stress ← loc row_order df_stress;
  total ← sum_axis1 df_stress;
  let df_stress := Table (index df_stress) (setitem (body df_stress) "Total" total) in
  cols ← round_columns ["Data Scientist"; "Project Manager"; "Software Engineer"]
           (body df_stress);
  Ok (Table (index df_stress) cols).

(** ** Cross-tabulations: statements *)

(** The rows that carry both a group key and a label, as pairs. *)
Definition labelled_pairs (keys vals : list (option string)) : list (string * string) :=
  omap (λ kv, k ← kv.1; v ← kv.2; Some (k, v)) (zip keys vals).

(** The share, in percent, of the label [v] among the labelled rows of
    the group [k]; missing when no row of the group carries [v]. *)
Definition share (pairs : list (string * string)) (k v : string) : num :=
  let group := filter (λ p, p.1 = k) pairs in
  let hits := filter (λ p, p.2 = v) group in
  match hits with
  | [] => NaN
  | _ => Fin (Qnat (length hits) / Qnat (length group) * 100)
  end.

(** The stress levels, in the order of the rows of both tables. *)
Definition row_order : list string := ["Low"; "Medium"; "High"].

Definition job_roles : list string :=
  ["Data Scientist"; "Project Manager"; "Software Engineer"].

(** The columns of a cleaned mental-health table the cross-tabulations
    read, as labels. *)
Definition stress_labels (df : frame) (by_label : string)
    (keys vals : list (option string)) : Prop :=
  ∃ stress_level labels,
    getitem df "stress_level" = Ok stress_level ∧
    getitem df by_label = Ok labels ∧
    traverse label_of (values stress_level) = Ok keys ∧
    traverse label_of (values labels) = Ok vals.

Definition role_rows (rows : list (string * string)) : frame :=
  [("stress_level", strs (rows.*1)); ("job_role", strs (rows.*2))].

(** Nobody under high stress is a project manager; one role is not a tech
    role. *)
Definition role_sample_rows : list (string * string) :=
  [("Low", "Data Scientist"); ("Low", "Project Manager"); ("Low", "Data Scientist");
   ("Medium", "Software Engineer"); ("Medium", "Analyst");
   ("Medium", "Project Manager");
   ("High", "Software Engineer"); ("High", "Data Scientist");
   ("High", "Software Engineer")].

Definition role_sample : frame := role_rows role_sample_rows.

Definition role_sample_table : table :=
  Eval vm_compute in
    match stress_jobrole_rel role_sample with Ok t => t | Err _ => Table [] [] end.

(** The steps the two cross-tabulations share once the pivot has its
    labels: the three rows in order, the row total, the rounding of the
    columns named in [names]. *)
Definition crosstab_tail (names : list string) (df_stress : table) : result table :=
  df_stress ← loc row_order df_stress;
  total ← sum_axis1 df_stress;
  let df_stress := Table (index df_stress) (setitem (body df_stress) "Total" total) in
  cols ← round_columns names (body df_stress);
  Ok (Table (index df_stress) cols).

(** Every cell of the frame is a number. *)
Definition numeric_frame (df : frame) : Prop :=
  Forall (λ kc, forallb is_num (values kc.2) = true) df.

(** The stress levels, of [row_order], without a labelled row. *)
Definition absent_levels (pairs : list (string * string)) : list string :=
  filter (λ l, l ∉ pairs.*1) row_order.

(** The number a column holds at a row; missing when there is none. *)
Definition num_at (s : series) (i : nat) : num :=
  match values s !! i with Some (CNum x) => x | _ => NaN end.

(** [round(2)] on a cell of a numeric column. *)
Definition round_cell (c : cell) : cell :=
  match c with CNum x => CNum (num_round2 x) | CStr _ => c end.

(** The labels of a column of a sample table. *)
Definition labels_of (df : frame) (label : string) : list (option string) :=
  match getitem df label ≫= (λ s, traverse label_of (values s)) with
  | Ok l => l
  | Err _ => []
  end.

(** Only two work types occur. *)
Definition stress_two_types_sample : frame :=
  stress_rows
    [("Low", "Remote"); ("Medium", "Onsite"); ("High", "Remote"); ("High", "Onsite")].

(** Nobody is under medium stress. *)
Definition stress_no_medium_sample : frame :=
  stress_rows
    [("Low", "Remote"); ("Low", "Hybrid"); ("High", "Onsite"); ("High", "Remote")].

(** The first mental-health sample with three tech rows, one per stress
    level. *)
Definition mental_health_pipeline_sample : frame :=
  setitem mental_health_sample "Job_Role"
    (strs ["Data Scientist"; "Software Engineer"; "HR"; "Project Manager"]).

Definition mental_health_pipeline_store_after : heap :=
  Eval vm_compute in (df_mentalhealth_cleaning 0 [mental_health_pipeline_sample]).2.

Definition mental_health_pipeline_cleaned : frame :=
  Eval vm_compute in default [] (mental_health_pipeline_store_after !! 2%nat).

Definition mental_health_pipeline_roles : table :=
  Eval vm_compute in
    match stress_jobrole_rel mental_health_pipeline_cleaned with
    | Ok t => t
    | Err _ => Table [] []
    end.

(** ** Statements up to rounding *)

(** The finite number [x] is within [tol] of the exact value [q]. *)
Definition near (tol : Q) (x : num) (q : Q) : Prop :=
  ∃ y, x = Fin y ∧ (Qabs (y - q) <= tol)%Q.

(** [x] is the exact value [s] up to [tol]; a missing or infinite [s] is
    met exactly. *)
Definition approximates (tol : Q) (x s : num) : Prop :=
  match s with
  | Fin q => near tol x q
  | _ => x = s
  end.

(** Half a unit of the second decimal, with a margin for the rounding
    errors of binary64. *)
Definition rounding_tolerance : Q := 51 # 10000.

(** The margin for a value that is not rounded to decimals. *)
Definition noise : Q := 1 # 1000000000.

(** A number with two decimals. *)
Definition two_decimals (m : Q) : Prop :=
  ∃ k : Z, (Qabs (m - inject_Z k / 100) <= noise)%Q.

(** A cell that holds [NaN] or an infinity. *)
Definition not_finite (c : cell) : Prop :=
  ∃ x, c = CNum x ∧ is_finite x = false.


(** Labels made of ASCII characters, on which [str.lower] changes the
    letters A to Z only. *)
Definition is_ascii (a : Ascii.ascii) : bool := (Ascii.N_of_ascii a <? 128)%N.

Fixpoint ascii_label (s : string) : bool :=
  match s with
  | EmptyString => true
  | String a s => is_ascii a && ascii_label s
  end.

(** Two IT rows, a promotion count that is not a number, and no
    [Training_Hours] column. *)
Definition productivity_text_sample_no_training : frame :=
  [("Department", strs ["IT"; "IT"]);
   ("Remote_Work_Frequency", ints [100; 0]%Z);
   ("Promotions", plain [int 1; CStr "two"]);
   ("Employee_Satisfaction_Score", ints [3; 4]%Z);
   ("Performance_Score", ints [4; 4]%Z)].

(** * Properties *)

(** ** Results *)

Lemma bind_Ok {A B} (m : result A) (f : A → result B) (b : B) :
  m ≫= f = Ok b → ∃ a, m = Ok a ∧ f a = Ok b.
Proof. destruct m as [a|e]; [eauto | discriminate]. Qed.

Lemma fmap_Ok {A B} (m : result A) (f : A → B) (b : B) :
  f <$> m = Ok b → ∃ a, m = Ok a ∧ b = f a.
Proof. destruct m as [a|e]; [intros [= <-]; eauto | discriminate]. Qed.

Lemma Ok_bind {A B} (a : A) (f : A → result B) : Ok a ≫= f = f a.
Proof. reflexivity. Qed.

Lemma Err_bind {A B} (e : error) (f : A → result B) : Err e ≫= f = Err e.
Proof. reflexivity. Qed.

Ltac inv_result H :=
  repeat (first
    [ apply bind_Ok in H as (? & ? & H)
    | apply fmap_Ok in H as (? & H & ?) ]);
  simplify_eq.

(** ** The bucketing functions *)

Lemma bucketing_functions_agree f :
  f ∈ bucketing_functions → ∀ c, f c = support_remote_grade c.
Proof.
  unfold bucketing_functions. rewrite !elem_of_cons, elem_of_nil.
  intros [->|[->|[->|[]]]] c; reflexivity.
Qed.

Lemma support_remote_grade_low (q : Q) :
  (q <= 2)%Q → support_remote_grade (CNum (Fin q)) = Ok "Low".
Proof.
  intros H. unfold support_remote_grade; simpl.
  apply Qle_bool_iff in H. unfold inject_Z. by rewrite H.
Qed.

Lemma support_remote_grade_medium (q : Q) :
  (q == 3)%Q → support_remote_grade (CNum (Fin q)) = Ok "Medium".
Proof.
  intros H. unfold support_remote_grade; simpl.
  destruct (Qle_bool q (inject_Z 2)) eqn:E.
  - apply Qle_bool_iff in E. unfold inject_Z in E. lra.
  - apply Qeq_bool_iff in H. unfold inject_Z. by rewrite H.
Qed.

Lemma support_remote_grade_high (q : Q) :
  (2 < q)%Q → ¬ (q == 3)%Q → support_remote_grade (CNum (Fin q)) = Ok "High".
Proof.
  intros H2 H3. unfold support_remote_grade; simpl.
  destruct (Qle_bool q (inject_Z 2)) eqn:E.
  - apply Qle_bool_iff in E. unfold inject_Z in E. lra.
  - destruct (Qeq_bool q (inject_Z 3)) eqn:E3; [|done].
    apply Qeq_bool_iff in E3. by destruct H3.
Qed.

(** C4: on a rating in the 1 to 5 domain each of the three bucketing
    functions follows the fixed thresholds (at most 2 is Low, exactly 3 is
    Medium, at least 4 is High), and in particular 1 and 2 give Low, 3 gives
    Medium, 4 and 5 give High. *)
Theorem bucketing_thresholds (f : cell → result string) (q : Q) :
  f ∈ bucketing_functions →
  (1 <= q <= 5)%Q →
  ((q <= 2)%Q → f (CNum (Fin q)) = Ok "Low") ∧
  ((q == 3)%Q → f (CNum (Fin q)) = Ok "Medium") ∧
  ((4 <= q)%Q → f (CNum (Fin q)) = Ok "High") ∧
  f (int 1) = Ok "Low" ∧ f (int 2) = Ok "Low" ∧ f (int 3) = Ok "Medium" ∧
  f (int 4) = Ok "High" ∧ f (int 5) = Ok "High".
Proof.
  intros Hf _. rewrite !(bucketing_functions_agree f Hf).
  repeat split; try reflexivity.
  - apply support_remote_grade_low.
  - apply support_remote_grade_medium.
  - intros H. apply support_remote_grade_high; lra.
Qed.

Lemma bucketing_thresholds_witness :
  social_isolation (int 4) = Ok "High" ∧ social_isolation (int 2) = Ok "Low".
Proof.
  assert (Hf : social_isolation ∈ bucketing_functions)
    by (unfold bucketing_functions; rewrite !elem_of_cons; auto).
  assert (Hq : (1 <= inject_Z 4 <= 5)%Q) by (split; vm_compute; discriminate).
  pose proof (bucketing_thresholds social_isolation (inject_Z 4) Hf Hq) as H.
  split; [apply H; vm_compute; discriminate | apply H].
Defined.

(** C5, as stated, fails: a rating below 1 is at most 2, so it is put in
    Low, not in High. *)
Lemma bucketing_below_one_is_low :
  (0 < 1)%Q ∧ support_remote_grade (int 0) = Ok "Low" ∧
  social_isolation (int 0) = Ok "Low" ∧
  degree_work_life_balance (int 0) = Ok "Low" ∧
  ¬ ∃ b, support_remote_grade (CNum (Fin 0)) = Ok b ∧ spec_bucketing_rule 0 b.
Proof.
  repeat split.
  intros (b & Hb & _ & _ & Hhigh). injection Hb as <-.
  discriminate Hhigh. right; right. reflexivity.
Qed.

(** C5, amended: the three bucketing functions are total on the rationals
    and reject nothing; a rating of at most 2, values below 1 included, is
    Low, exactly 3 is Medium, and every other rating, that is any value
    above 2 other than 3, values above 5 included, is High. *)
Theorem bucketing_total :
  Forall (λ f : cell → result string, ∀ q : Q,
    ((q <= 2)%Q ∧ f (CNum (Fin q)) = Ok "Low") ∨
    ((q == 3)%Q ∧ f (CNum (Fin q)) = Ok "Medium") ∨
    ((2 < q)%Q ∧ ¬ (q == 3)%Q ∧ f (CNum (Fin q)) = Ok "High"))
    bucketing_functions ∧
  Forall (λ f : cell → result string,
    f (int 0) = Ok "Low" ∧ f (int (-7)) = Ok "Low" ∧
    f (CNum (Fin (5 # 2))) = Ok "High" ∧ f (int 6) = Ok "High")
    bucketing_functions.
Proof.
  split; apply Forall_forall; intros f Hf.
  - intros q. rewrite (bucketing_functions_agree f Hf).
    destruct (Qlt_le_dec 2 q) as [H2|H2].
    + destruct (Qeq_dec q 3) as [H3|H3].
      * right; left. split; [done|]. by apply support_remote_grade_medium.
      * right; right. repeat split; try done. by apply support_remote_grade_high.
    + left. split; [done|]. by apply support_remote_grade_low.
  - rewrite !(bucketing_functions_agree f Hf). repeat split.
Qed.

(** ** Frames *)

Lemma getitem_setitem_eq df l s : getitem (setitem df l s) l = Ok s.
Proof.
  induction df as [|[k c] df IH]; simpl.
  - by rewrite decide_True.
  - destruct (decide (k = l)) as [->|Hne]; simpl.
    + by rewrite decide_True.
    + by rewrite decide_False.
Qed.

Lemma getitem_setitem_ne df l l' s :
  l ≠ l' → getitem (setitem df l s) l' = getitem df l'.
Proof.
  intros Hne. induction df as [|[k c] df IH]; simpl.
  - by rewrite decide_False.
  - destruct (decide (k = l)) as [->|Hk]; simpl.
    + by rewrite !decide_False.
    + by rewrite IH.
Qed.

Lemma setitem_setitem df l s s' :
  setitem (setitem df l s) l s' = setitem df l s'.
Proof.
  induction df as [|[k c] df IH]; simpl.
  - by rewrite decide_True.
  - destruct (decide (k = l)) as [->|Hk]; simpl.
    + by rewrite decide_True.
    + by rewrite decide_False, IH.
Qed.

Lemma columns_setitem df l s k :
  k ∈ columns (setitem df l s) ↔ k = l ∨ k ∈ columns df.
Proof.
  unfold columns. induction df as [|[k' c] df IH]; simpl.
  - rewrite list_elem_of_singleton, elem_of_nil. tauto.
  - destruct (decide (k' = l)) as [->|Hk]; simpl; rewrite !elem_of_cons.
    + tauto.
    + rewrite IH. tauto.
Qed.

Lemma getitem_drop_ignore_notin ls df l :
  l ∉ ls → getitem (drop_ignore ls df) l = getitem df l.
Proof.
  intros Hl. unfold drop_ignore. induction df as [|[k c] df IH]; [done|].
  rewrite filter_cons; simpl. destruct (decide (k ∉ ls)) as [Hk|Hk]; simpl.
  - by rewrite IH.
  - rewrite IH. rewrite decide_False; [done|]. by intros ->.
Qed.

Lemma drop_ignore_setitem_in ls df l s :
  l ∈ ls → drop_ignore ls (setitem df l s) = drop_ignore ls df.
Proof.
  intros Hl. unfold drop_ignore. induction df as [|[k c] df IH]; simpl.
  - rewrite filter_cons, decide_False; [done|]. simpl. by intros [].
  - destruct (decide (k = l)) as [->|Hk].
    + rewrite !filter_cons. simpl. rewrite !decide_False; [done| |]; by intros [].
    + rewrite !filter_cons, IH. done.
Qed.

Lemma drop_ignore_setitem_notin ls df l s :
  l ∉ ls → drop_ignore ls (setitem df l s) = setitem (drop_ignore ls df) l s.
Proof.
  intros Hl. unfold drop_ignore. induction df as [|[k c] df IH]; simpl.
  - by rewrite filter_cons, decide_True.
  - destruct (decide (k = l)) as [->|Hk].
    + rewrite !filter_cons; simpl. rewrite !decide_True by done. simpl.
      by rewrite decide_True.
    + rewrite !filter_cons; simpl. destruct (decide (k ∉ ls)); simpl.
      * by rewrite decide_False, IH.
      * done.
Qed.

Lemma columns_drop_ignore ls df k :
  k ∈ columns (drop_ignore ls df) ↔ k ∈ columns df ∧ k ∉ ls.
Proof.
  unfold columns, drop_ignore. rewrite !list_elem_of_fmap. split.
  - intros ([k' c] & -> & [H1 H2]%list_elem_of_filter). split; [|done].
    by exists (k', c).
  - intros [([k' c] & -> & H1) H2]. exists (k', c). split; [done|].
    by apply list_elem_of_filter.
Qed.

Lemma drop_spec ls df :
  (∀ l, l ∈ ls → l ∈ columns df) → drop ls df = Ok (drop_ignore ls df).
Proof.
  intros H. unfold drop.
  replace (filter (λ l, l ∉ columns df) ls) with (@nil string); [done|].
  symmetry. induction ls as [|l ls IH]; [done|].
  rewrite filter_cons, decide_False.
  - apply IH. intros l' Hl'. apply H. by right.
  - intros Hl. apply Hl, H. by left.
Qed.

Lemma getitem_boolean_index mask df l :
  getitem (boolean_index mask df) l = kept mask <$> getitem df l.
Proof.
  unfold boolean_index. induction df as [|[k c] df IH]; [done|].
  rewrite fmap_cons; simpl. by destruct (decide (k = l)).
Qed.

Lemma columns_boolean_index mask df :
  columns (boolean_index mask df) = columns df.
Proof.
  unfold columns, boolean_index. rewrite <-list_fmap_compose.
  by apply list_fmap_ext.
Qed.

Lemma getitem_columns df l s : getitem df l = Ok s → l ∈ columns df.
Proof.
  unfold columns. induction df as [|[k c] df IH]; simpl; [done|].
  destruct (decide (k = l)) as [->|Hk]; [left|right; auto].
Qed.

Lemma getitem_missing df l : l ∉ columns df → getitem df l = Err (KeyError l).
Proof.
  unfold columns. induction df as [|[k c] df IH]; simpl; [done|].
  intros [Hk H]%not_elem_of_cons. rewrite decide_False by done. auto.
Qed.

(** ** The productivity cleaner: the plumbing removed *)

Ltac getitem_simpl :=
  repeat first
    [ rewrite getitem_setitem_eq
    | rewrite getitem_setitem_ne by done
    | rewrite getitem_boolean_index
    | rewrite getitem_drop_ignore_notin
        by (rewrite !not_elem_of_cons; repeat split; [done..|apply not_elem_of_nil]) ].

Lemma cleaning_productivity_data_unfold df :
  cleaning_productivity_data df =
    department ← getitem df "Department";
    frequency ← getitem df "Remote_Work_Frequency";
    let mask := keep_mask department frequency in
    motivation ← motivation_column mask df;
    finish (scored mask frequency motivation df).
Proof.
  unfold cleaning_productivity_data, motivation_column, scored.
  getitem_simpl.
  destruct (getitem df "Department") as [department|]; [simpl|reflexivity].
  getitem_simpl.
  destruct (getitem df "Remote_Work_Frequency") as [frequency|] eqn:Hf;
    [simpl|reflexivity].
  set (mask := keep_mask department frequency).
  getitem_simpl. rewrite Hf. simpl. getitem_simpl.
  destruct (getitem df "Promotions") as [promotions|]; [simpl|reflexivity].
  destruct (normalize_1_5 (kept mask promotions)) as [pn|]; [simpl|reflexivity].
  getitem_simpl.
  destruct (getitem df "Training_Hours") as [training|]; [simpl|reflexivity].
  destruct (normalize_1_5 (kept mask training)) as [tn|]; [simpl|reflexivity].
  getitem_simpl.
  destruct (getitem df "Employee_Satisfaction_Score") as [sat|]; [simpl|reflexivity].
  getitem_simpl.
  destruct (getitem df "Performance_Score") as [perf|]; [simpl|reflexivity].
  destruct (series_add (kept mask sat) (kept mask perf)) as [t1|]; [simpl|reflexivity].
  getitem_simpl. simpl.
  destruct (series_add t1 pn) as [t2|]; [simpl|reflexivity].
  getitem_simpl. simpl.
  destruct (series_add t2 tn) as [t3|]; [simpl|reflexivity].
  destruct (series_scalar num_div t3 (int 4)) as [m|]; [simpl|reflexivity].
  getitem_simpl. simpl.
  destruct (series_round2 m) as [m'|]; [simpl|reflexivity].
  rewrite setitem_setitem, drop_spec.
  - simpl. f_equal.
    rewrite drop_ignore_setitem_notin
      by (rewrite !not_elem_of_cons; repeat split; [done..|apply not_elem_of_nil]).
    rewrite !drop_ignore_setitem_in by (rewrite !elem_of_cons; auto).
    done.
  - intros l. rewrite !elem_of_cons, elem_of_nil, !columns_setitem.
    intros [->|[->|[]]]; auto.
Qed.

Lemma set_columns_lower df :
  set_columns df (str_lower <$> columns df) = Ok (lower_columns df).
Proof.
  unfold set_columns, columns, lower_columns.
  rewrite !length_fmap, decide_True by done. f_equal.
  induction df as [|[k c] df IH]; [done|].
  rewrite !fmap_cons. simpl. by rewrite IH.
Qed.

Lemma NoDup_lower_injective df :
  NoDup (str_lower <$> columns df) → lower_injective df.
Proof.
  unfold lower_injective. induction (columns df) as [|k ks IH]; simpl.
  - intros _ k k' []%elem_of_nil.
  - intros [Hk Hks]%NoDup_cons k1 k2.
    rewrite !elem_of_cons. intros [->|H1] [->|H2] Heq; auto.
    + destruct Hk. rewrite Heq. by apply list_elem_of_fmap_2.
    + destruct Hk. rewrite <-Heq. by apply list_elem_of_fmap_2.
Qed.

Lemma getitem_lower_columns df l s :
  (∀ k, k ∈ columns df → str_lower k = str_lower l → k = l) →
  getitem df l = Ok s → getitem (lower_columns df) (str_lower l) = Ok s.
Proof.
  unfold lower_columns, columns. induction df as [|[k c] df IH]; simpl; [done|].
  intros Hinj. destruct (decide (k = l)) as [->|Hk].
  - intros [= ->]. by rewrite decide_True.
  - intros Hs. rewrite decide_False.
    + apply IH; [|done]. intros k' Hk'. apply Hinj. by right.
    + intros Heq. apply Hk, Hinj; [by left|done].
Qed.

Lemma columns_lower_columns df :
  columns (lower_columns df) = str_lower <$> columns df.
Proof.
  unfold columns, lower_columns. rewrite <-!list_fmap_compose.
  by apply list_fmap_ext.
Qed.

Lemma getitem_rename_other old new df l :
  l ≠ old → l ≠ new → getitem (rename old new df) l = getitem df l.
Proof.
  intros Ho Hn. unfold rename. induction df as [|[k c] df IH]; [done|].
  rewrite fmap_cons. simpl. rewrite IH. destruct (decide (k = old)) as [->|Hk].
  - by rewrite !decide_False.
  - done.
Qed.

Lemma getitem_rename_new old new df s :
  new ∉ columns df → getitem df old = Ok s →
  getitem (rename old new df) new = Ok s.
Proof.
  unfold rename, columns. induction df as [|[k c] df IH]; [done|].
  rewrite !fmap_cons. simpl. intros [Hk Hnew]%not_elem_of_cons.
  destruct (decide (k = old)) as [->|Ho].
  - intros [= ->]. by rewrite decide_True.
  - intros Hs. rewrite decide_False by done. auto.
Qed.

(** What the last steps do to a frame whose labels stay apart. *)
Lemma finish_spec df frequency :
  lower_injective df → "work_type" ∉ (str_lower <$> columns df) →
  getitem df "Remote_Work_Frequency" = Ok frequency →
  ∃ out, finish df = Ok out ∧
    getitem out "work_type" = Ok (categorical frequency ["Remote"; "Hybrid"; "Onsite"] true) ∧
    ∀ l s, getitem df l = Ok s → l ≠ "Remote_Work_Frequency" →
           getitem out (str_lower l) = Ok s.
Proof.
  intros Hinj Hwt Hf. unfold finish. rewrite set_columns_lower. simpl.
  assert (getitem (rename "remote_work_frequency" "work_type" (lower_columns df))
            "work_type" = Ok frequency) as ->.
  { apply getitem_rename_new; [by rewrite columns_lower_columns|].
    apply (getitem_lower_columns df "Remote_Work_Frequency"); [|done].
    intros k Hk. apply Hinj; [done|]. by eapply getitem_columns. }
  simpl. eexists. split; [done|]. split; [apply getitem_setitem_eq|].
  intros l s Hs Hl.
  assert (Hcol : l ∈ columns df) by (by eapply getitem_columns).
  assert (str_lower l ≠ "work_type").
  { intros Heq. apply Hwt. rewrite <-Heq. by apply list_elem_of_fmap_2. }
  assert (str_lower l ≠ "remote_work_frequency").
  { intros Heq. apply Hl. apply Hinj; [done| |done]. by eapply getitem_columns. }
  rewrite getitem_setitem_ne by done.
  rewrite getitem_rename_other by done.
  apply getitem_lower_columns; [|done].
  intros k Hk. by apply Hinj.
Qed.

Lemma scored_labels mask frequency motivation df :
  productivity_labels_ok df → "Remote_Work_Frequency" ∈ columns df →
  lower_injective (scored mask frequency motivation df) ∧
  "work_type" ∉ (str_lower <$> columns (scored mask frequency motivation df)).
Proof.
  intros (Hnd & Hwt & Hms) Hrwf.
  assert (Hcols : ∀ k, k ∈ columns (scored mask frequency motivation df) →
                       k = "Motivation_Score" ∨ k ∈ columns df).
  { intros k. unfold scored.
    rewrite columns_setitem, columns_drop_ignore, columns_setitem,
      columns_boolean_index, columns_drop_ignore.
    intros [?|[[->|[? _]] _]]; auto. }
  split.
  - intros k k' [->|Hk]%Hcols [->|Hk']%Hcols Heq; [done| | |].
    + destruct Hms. change (str_lower "Motivation_Score") with "motivation_score" in Heq.
      rewrite Heq. by apply list_elem_of_fmap_2.
    + destruct Hms. change (str_lower "Motivation_Score") with "motivation_score" in Heq.
      rewrite <-Heq. by apply list_elem_of_fmap_2.
    + by apply (NoDup_lower_injective df).
  - intros (k & Heq & [->|Hk]%Hcols)%list_elem_of_fmap; [done|].
    apply Hwt. rewrite Heq. by apply list_elem_of_fmap_2.
Qed.

(** The columns of the cleaned table, in terms of the raw ones. *)
Lemma cleaning_productivity_data_columns df department frequency motivation :
  productivity_labels_ok df →
  getitem df "Department" = Ok department →
  getitem df "Remote_Work_Frequency" = Ok frequency →
  let mask := keep_mask department frequency in
  motivation_column mask df = Ok motivation →
  ∃ out, cleaning_productivity_data df = Ok out ∧
    getitem out "work_type" =
      Ok (categorical (series_replace work_type_labels (kept mask frequency))
            ["Remote"; "Hybrid"; "Onsite"] true) ∧
    getitem out "motivation_score" = Ok motivation ∧
    ∀ l s, getitem df l = Ok s →
      l ∉ ["Employee_ID"; "Hire_Date"; "Team_Size"; "Remote_Work_Frequency";
           "Promotions_Normalized"; "Training_Hours_Normalized"; "Motivation_Score"] →
      getitem out (str_lower l) = Ok (kept mask s).
Proof.
  intros Hok Hd Hf mask Hm.
  rewrite cleaning_productivity_data_unfold, Hd, Hf. simpl. fold mask. rewrite Hm. simpl.
  destruct (scored_labels mask frequency motivation df Hok) as [Hinj Hwt];
    [by eapply getitem_columns|].
  destruct (finish_spec (scored mask frequency motivation df)
              (series_replace work_type_labels (kept mask frequency)) Hinj Hwt)
    as (out & -> & Hwork & Hrest).
  { unfold scored. by getitem_simpl. }
  exists out. split; [done|]. split; [done|]. split.
  - apply (Hrest "Motivation_Score"); [|done]. unfold scored. by getitem_simpl.
  - intros l s Hs Hl. rewrite !not_elem_of_cons in Hl.
    destruct Hl as (? & ? & ? & ? & ? & ? & ? & _).
    apply Hrest; [|done]. unfold scored.
    rewrite getitem_setitem_ne by done.
    rewrite getitem_drop_ignore_notin
      by (rewrite !not_elem_of_cons; repeat split; [done..|apply not_elem_of_nil]).
    rewrite getitem_setitem_ne by done.
    rewrite getitem_boolean_index.
    rewrite getitem_drop_ignore_notin
      by (rewrite !not_elem_of_cons; repeat split; [done..|apply not_elem_of_nil]).
    by rewrite Hs.
Qed.

(** ** Masks *)

Lemma select_Forall {A} (P : A → Prop) (mask : list bool) (xs : list A) :
  (∀ i x, mask !! i = Some true → xs !! i = Some x → P x) →
  Forall P (select mask xs).
Proof.
  revert xs. induction mask as [|b mask IH]; intros [|x xs] H; simpl; try done.
  assert (Forall P (select mask xs)).
  { apply IH. intros i y Hm Hx. by apply (H (S i)). }
  destruct b; [|done]. constructor; [|done]. by apply (H 0%nat).
Qed.

Lemma mask_and_true m1 m2 i :
  mask_and m1 m2 !! i = Some true → m1 !! i = Some true ∧ m2 !! i = Some true.
Proof.
  unfold mask_and. intros (b1 & b2 & Hb & -> & ->)%lookup_zip_with_Some.
  symmetry in Hb. by apply andb_true_iff in Hb as [-> ->].
Qed.

Lemma keep_mask_true department frequency i :
  keep_mask department frequency !! i = Some true →
  (∀ d, values department !! i = Some d → d = CStr "IT") ∧
  (∀ f, values frequency !! i = Some f →
        cell_eqb f (int 75) = false ∧ cell_eqb f (int 25) = false).
Proof.
  unfold keep_mask, series_eq, series_ne.
  intros [[H1 H2]%mask_and_true H3]%mask_and_true.
  rewrite list_lookup_fmap in H1, H2, H3. split.
  - intros d Hd. rewrite Hd in H1. injection H1 as H1.
    destruct d as [x|s]; [done|]. simpl in H1.
    by apply bool_decide_eq_true in H1 as ->.
  - intros f Hf. rewrite Hf in H2, H3. simpl in H2, H3.
    injection H2 as H2. injection H3 as H3.
    by apply negb_true_iff in H2, H3.
Qed.

Lemma kept_frequency_labelled c :
  in_frequency_domain c = true →
  cell_eqb c (int 75) = false → cell_eqb c (int 25) = false →
  let label := replace_cell work_type_labels c in
  labelled c label ∧ label ∈ [CStr "Remote"; CStr "Hybrid"; CStr "Onsite"] ∧
  to_category ["Remote"; "Hybrid"; "Onsite"] label = label.
Proof.
  intros Hdom H75 H25. unfold in_frequency_domain in Hdom.
  cbn [existsb] in Hdom. rewrite H75, H25 in Hdom.
  unfold labelled, work_type_labels. cbn [replace_cell].
  destruct (cell_eqb c (int 100)) eqn:E100.
  { split; [auto|]. split; [|done]. rewrite !elem_of_cons; auto. }
  destruct (cell_eqb c (int 50)) eqn:E50.
  { split; [auto|]. split; [|done]. rewrite !elem_of_cons; auto. }
  destruct (cell_eqb c (int 0)) eqn:E0; [|done].
  split; [auto|]. split; [|done]. rewrite !elem_of_cons; auto.
Qed.

(** C1: on a raw table whose frequencies lie in the documented domain,
    every row of the cleaned table has department IT; every kept raw
    frequency is neither 25 nor 75; and work_type, an ordered categorical
    over Remote, Hybrid, Onsite, holds one of these three labels, the one
    the mapping 100 to Remote, 50 to Hybrid, 0 to Onsite gives the raw
    frequency of that row. *)
Theorem cleaned_productivity_work_type (df out : frame) (department frequency : series) :
  productivity_labels_ok df →
  getitem df "Department" = Ok department →
  getitem df "Remote_Work_Frequency" = Ok frequency →
  forallb in_frequency_domain (values frequency) = true →
  cleaning_productivity_data df = Ok out →
  ∃ dep wt,
    getitem out "department" = Ok dep ∧
    Forall (λ c, c = CStr "IT") (values dep) ∧
    getitem out "work_type" = Ok wt ∧
    dtype_of wt = Categorical ["Remote"; "Hybrid"; "Onsite"] true ∧
    Forall (λ c, c ∈ [CStr "Remote"; CStr "Hybrid"; CStr "Onsite"]) (values wt) ∧
    Forall (λ c, cell_eqb c (int 25) = false ∧ cell_eqb c (int 75) = false)
      (select (keep_mask department frequency) (values frequency)) ∧
    Forall2 labelled
      (select (keep_mask department frequency) (values frequency)) (values wt).
Proof.
  intros Hok Hd Hf Hdom Hout.
  pose proof Hout as Hrun.
  rewrite cleaning_productivity_data_unfold, Hd, Hf in Hrun. simpl in Hrun.
  apply bind_Ok in Hrun as (motivation & Hm & _).
  destruct (cleaning_productivity_data_columns df department frequency motivation
              Hok Hd Hf Hm) as (out' & Hout' & Hwt & _ & Hrest).
  rewrite Hout in Hout'. injection Hout' as <-.
  set (mask := keep_mask department frequency) in *.
  assert (Hkept : Forall (λ c, in_frequency_domain c = true ∧
                    cell_eqb c (int 75) = false ∧ cell_eqb c (int 25) = false)
                    (select mask (values frequency))).
  { apply select_Forall. intros i c Hi Hc. split.
    - rewrite forallb_forall in Hdom. apply Hdom, list_elem_of_In.
      by eapply list_elem_of_lookup_2.
    - by apply (keep_mask_true department frequency i). }
  eexists _, _. split.
  { apply (Hrest "Department"); [done|].
    rewrite !not_elem_of_cons. repeat split; [done..|apply not_elem_of_nil]. }
  split.
  { simpl. apply select_Forall. intros i d Hi Hdi.
    by apply (keep_mask_true department frequency i). }
  split; [exact Hwt|]. split; [done|].
  unfold categorical, series_replace, plain, kept; cbn [values]. repeat split.
  - rewrite !Forall_fmap.
    eapply Forall_impl; [exact Hkept|]. intros c (H1 & H2 & H3). unfold compose.
    destruct (kept_frequency_labelled c H1 H2 H3) as (_ & Hin & ->). done.
  - eapply Forall_impl; [exact Hkept|]. by intros c (_ & ? & ?).
  - rewrite !Forall2_fmap_r. apply Forall_Forall2_diag.
    eapply Forall_impl; [exact Hkept|]. intros c (H1 & H2 & H3). unfold compose.
    destruct (kept_frequency_labelled c H1 H2 H3) as (Hl & _ & ->). done.
Qed.

Lemma productivity_sample_labels_ok : productivity_labels_ok productivity_sample.
Proof.
  repeat split.
  - apply (bool_decide_unpack _). by vm_compute.
  - apply (bool_decide_unpack _). by vm_compute.
  - apply (bool_decide_unpack _). by vm_compute.
Defined.

Lemma productivity_sample_run :
  cleaning_productivity_data productivity_sample = Ok productivity_sample_cleaned.
Proof. vm_compute. reflexivity. Defined.

Lemma cleaned_productivity_work_type_witness :
  ∃ dep wt,
    getitem productivity_sample_cleaned "department" = Ok dep ∧
    Forall (λ c, c = CStr "IT") (values dep) ∧
    getitem productivity_sample_cleaned "work_type" = Ok wt ∧
    dtype_of wt = Categorical ["Remote"; "Hybrid"; "Onsite"] true ∧
    Forall (λ c, c ∈ [CStr "Remote"; CStr "Hybrid"; CStr "Onsite"]) (values wt) ∧
    Forall (λ c, cell_eqb c (int 25) = false ∧ cell_eqb c (int 75) = false)
      (select (keep_mask (strs ["IT"; "IT"; "IT"; "IT"; "IT"]) (ints [100; 50; 0; 75; 25]%Z))
         (values (ints [100; 50; 0; 75; 25]%Z))) ∧
    Forall2 labelled
      (select (keep_mask (strs ["IT"; "IT"; "IT"; "IT"; "IT"]) (ints [100; 50; 0; 75; 25]%Z))
         (values (ints [100; 50; 0; 75; 25]%Z))) (values wt).
Proof.
  apply (cleaned_productivity_work_type productivity_sample productivity_sample_cleaned
           (strs ["IT"; "IT"; "IT"; "IT"; "IT"]) (ints [100; 50; 0; 75; 25]%Z)).
  - exact productivity_sample_labels_ok.
  - reflexivity.
  - reflexivity.
  - reflexivity.
  - exact productivity_sample_run.
Defined.

(** ** Columns of numbers *)

Lemma traverse_fmap_Ok {A B C} (f : B → result C) (g : A → B) (h : A → C) (l : list A) :
  (∀ x, f (g x) = Ok (h x)) → traverse f (g <$> l) = Ok (h <$> l).
Proof.
  intros H. induction l as [|x l IH]; [done|].
  rewrite !fmap_cons. simpl. rewrite H. simpl. by rewrite IH.
Qed.

Lemma select_fmap {A B} (f : A → B) (mask : list bool) (l : list A) :
  select mask (f <$> l) = f <$> select mask l.
Proof.
  revert l. induction mask as [|b mask IH]; intros [|x l]; try done.
  rewrite fmap_cons. simpl. rewrite IH. by destruct b.
Qed.

Lemma cells_add_num (xs ys : list num) :
  cells_add (CNum <$> xs) (CNum <$> ys) = Ok (CNum <$> zip_with num_add xs ys).
Proof.
  revert ys. induction xs as [|x xs IH]; intros [|y ys]; try done.
  rewrite !fmap_cons. simpl. by rewrite IH.
Qed.

Lemma series_scalar_num (op : num → num → num) (d : dtype) (xs : list num) (c : num) :
  series_scalar op (Series d (CNum <$> xs)) (CNum c) =
    Ok (plain (CNum <$> ((λ x, op x c) <$> xs))).
Proof.
  unfold series_scalar. cbn [values]. rewrite <-list_fmap_compose.
  by rewrite (traverse_fmap_Ok _ _ (CNum ∘ (λ x, op x c))).
Qed.

Lemma series_max_fin (s : series) (qs : list Q) :
  values s = fin <$> qs → series_max s = Ok (CNum (column_max qs)).
Proof.
  intros Hs. unfold series_max, column_max. rewrite Hs.
  by rewrite (traverse_fmap_Ok _ _ Fin).
Qed.

Lemma normalize_1_5_fin (s : series) (qs : list Q) :
  values s = fin <$> qs →
  normalize_1_5 s = Ok (plain (CNum <$> (rescale (column_max qs) <$> qs))).
Proof.
  intros Hs. unfold normalize_1_5, int. rewrite (series_max_fin s qs Hs), Ok_bind.
  destruct s as [d vs]. simpl in Hs. subst vs.
  change fin with (CNum ∘ Fin). rewrite list_fmap_compose.
  rewrite series_scalar_num, Ok_bind. unfold plain.
  rewrite series_scalar_num, Ok_bind. unfold plain.
  rewrite series_scalar_num.
  by rewrite <-!list_fmap_compose.
Qed.

Lemma motivation_column_fin mask df promotions training satisfaction performance
    (ps ts ss fs : list Q) :
  getitem df "Promotions" = Ok promotions → values promotions = fin <$> ps →
  getitem df "Training_Hours" = Ok training → values training = fin <$> ts →
  getitem df "Employee_Satisfaction_Score" = Ok satisfaction →
  values satisfaction = fin <$> ss →
  getitem df "Performance_Score" = Ok performance → values performance = fin <$> fs →
  motivation_column mask df =
    Ok (plain (CNum <$> motivation_values (select mask ss) (select mask fs)
                          (select mask ps) (select mask ts))).
Proof.
  intros Hp Hps Ht Hts Hs Hss Hf Hfs. unfold motivation_column, int.
  rewrite Hp, Ok_bind.
  rewrite (normalize_1_5_fin _ (select mask ps))
    by (simpl; by rewrite Hps, select_fmap).
  rewrite Ok_bind, Ht, Ok_bind.
  rewrite (normalize_1_5_fin _ (select mask ts))
    by (simpl; by rewrite Hts, select_fmap).
  rewrite Ok_bind, Hs, Ok_bind, Hf, Ok_bind.
  unfold series_add, kept. cbn [values plain].
  rewrite Hss, Hfs, !select_fmap.
  change fin with (CNum ∘ Fin). rewrite !list_fmap_compose.
  rewrite cells_add_num. cbn [fmap result_fmap]. rewrite Ok_bind. cbn [values plain].
  rewrite cells_add_num. cbn [fmap result_fmap]. rewrite Ok_bind. cbn [values plain].
  rewrite cells_add_num. cbn [fmap result_fmap]. rewrite Ok_bind. unfold plain at 1.
  rewrite series_scalar_num, Ok_bind.
  unfold series_round2. cbn [values plain].
  rewrite <-!list_fmap_compose.
  rewrite (traverse_fmap_Ok _ _
    (CNum ∘ (λ x, num_round2 (num_div x (Fin (inject_Z 4)))))) by done.
  cbn [fmap result_fmap]. unfold motivation_values. by rewrite <-!list_fmap_compose.
Qed.

Lemma motivation_values_lookup S F P T i s f p t :
  S !! i = Some s → F !! i = Some f → P !! i = Some p → T !! i = Some t →
  motivation_values S F P T !! i =
    Some (motivation_of (column_max P) (column_max T) s f p t).
Proof.
  intros Hs Hf Hp Ht. unfold motivation_values.
  rewrite list_lookup_fmap, !lookup_zip_with, !list_lookup_fmap.
  by rewrite Hs, Hf, Hp, Ht.
Qed.

(** ** Rounding and rescaling *)

Section arithmetic.
Local Open Scope Q_scope.

Lemma rint_cases (q : Q) :
  (rint q = Qfloor q ∧ q - inject_Z (Qfloor q) <= 1 # 2) ∨
  (rint q = (Qfloor q + 1)%Z ∧ 1 # 2 <= q - inject_Z (Qfloor q)).
Proof.
  unfold rint. destruct (Qcompare_spec (q - inject_Z (Qfloor q)) (1 # 2)) as [H|H|H].
  - destruct (Z.even (Qfloor q)); [left|right]; split; try done; lra.
  - left. split; [done|lra].
  - right. split; [done|lra].
Qed.

Lemma rint_near (q : Q) : Qabs (inject_Z (rint q) - q) <= 1 # 2.
Proof.
  pose proof (Qfloor_le q) as Hlo. pose proof (Qlt_floor q) as Hhi.
  rewrite inject_Z_plus in Hhi. change (inject_Z 1) with 1 in Hhi.
  apply Qabs_Qle_condition.
  destruct (rint_cases q) as [[-> H]|[-> H]].
  - split; lra.
  - rewrite inject_Z_plus. change (inject_Z 1) with 1. split; lra.
Qed.

Lemma rint_ge (n : Z) (q : Q) : inject_Z n <= q → (n ≤ rint q)%Z.
Proof.
  intros H. apply Qfloor_resp_le in H. rewrite Qfloor_Z in H.
  destruct (rint_cases q) as [[-> _]|[-> _]]; lia.
Qed.

Lemma rint_le (n : Z) (q : Q) : q <= inject_Z n → (rint q ≤ n)%Z.
Proof.
  intros H. destruct (rint_cases q) as [[-> _]|[-> Hhalf]].
  - apply Qfloor_resp_le in H. by rewrite Qfloor_Z in H.
  - assert (inject_Z (Qfloor q) < inject_Z n) as Hlt by lra.
    rewrite <-Zlt_Qlt in Hlt. lia.
Qed.

Lemma round2_bounds (a b : Z) (q : Q) :
  inject_Z a <= q <= inject_Z b → inject_Z a <= round2 q <= inject_Z b.
Proof.
  intros [Ha Hb]. unfold round2.
  assert (inject_Z (a * 100) <= q * 100) as Hlo
    by (rewrite inject_Z_mult; change (inject_Z 100) with 100; lra).
  assert (q * 100 <= inject_Z (b * 100)) as Hhi
    by (rewrite inject_Z_mult; change (inject_Z 100) with 100; lra).
  apply rint_ge in Hlo. apply rint_le in Hhi.
  rewrite Zle_Qle, inject_Z_mult in Hlo, Hhi.
  change (inject_Z 100) with 100 in Hlo, Hhi.
  split; [apply Qle_shift_div_l|apply Qle_shift_div_r]; lra.
Qed.

Lemma round2_near (q : Q) : Qabs (round2 q - q) <= 1 # 200.
Proof.
  unfold round2. pose proof (rint_near (q * 100)) as H.
  apply Qabs_Qle_condition in H as [H1 H2]. apply Qabs_Qle_condition.
  assert (inject_Z (rint (q * 100)) / 100 - q ==
          (inject_Z (rint (q * 100)) - q * 100) / 100) as -> by field.
  split; [apply Qle_shift_div_l|apply Qle_shift_div_r]; lra.
Qed.

Lemma round2_tolerance (q : Q) : Qabs (round2 q - q) <= rounding_tolerance.
Proof.
  eapply Qle_trans; [apply round2_near|]. unfold rounding_tolerance. lra.
Qed.

Lemma round2_two_decimals (q : Q) : two_decimals (round2 q).
Proof.
  exists (rint (q * 100)). unfold round2, noise.
  assert (inject_Z (rint (q * 100)) / 100 - inject_Z (rint (q * 100)) / 100 == 0)
    as -> by field.
  done.
Qed.

Lemma column_max_cons (q : Q) (qs : list Q) :
  ∃ m, column_max (q :: qs) = Fin m ∧ q <= m ∧
       (column_max qs = NaN ∨ ∃ m', column_max qs = Fin m' ∧ m' <= m).
Proof.
  revert q. induction qs as [|q' qs IH]; intros q.
  - exists q. split; [done|]. split; [lra|by left].
  - destruct (IH q') as (m' & Hm' & Hq' & _).
    unfold column_max in *. rewrite !fmap_cons. cbn [foldr].
    rewrite fmap_cons in Hm'. cbn [foldr] in Hm'. rewrite Hm'.
    cbn [nanmax num_leb]. destruct (Qle_bool q m') eqn:E.
    + apply Qle_bool_iff in E. exists m'. split; [done|]. split; [done|].
      right. exists m'. split; [done|lra].
    + exists q. split; [done|]. split; [lra|]. right. exists m'. split; [done|].
      destruct (Qlt_le_dec m' q) as [?|Hle]; [lra|].
      apply Qle_bool_iff in Hle. congruence.
Qed.

Lemma column_max_ge (qs : list Q) (m q : Q) :
  column_max qs = Fin m → q ∈ qs → q <= m.
Proof.
  revert m. induction qs as [|q' qs IH]; intros m Hm Hq.
  - by apply elem_of_nil in Hq.
  - destruct (column_max_cons q' qs) as (m0 & Hm0 & Hq' & Hrest).
    rewrite Hm in Hm0. injection Hm0 as <-.
    apply elem_of_cons in Hq as [->|Hq]; [done|].
    destruct Hrest as [Hnan|(m' & Hm' & Hle)].
    + destruct qs as [|q'' qs]; [by apply elem_of_nil in Hq|].
      destruct (column_max_cons q'' qs) as (? & ? & _). congruence.
    + specialize (IH m' Hm' Hq). lra.
Qed.

Lemma rescale_fin (m v : Q) :
  ¬ m == 0 → rescale (Fin m) v = Fin (v / m * 4 + 1).
Proof.
  intros Hm. unfold rescale. cbn [num_div].
  destruct (Qeq_bool m 0) eqn:E; [by apply Qeq_bool_iff in E|done].
Qed.

Lemma rescale_bounds (m v : Q) :
  0 < m → 0 <= v <= m → 1 <= v / m * 4 + 1 <= 5.
Proof.
  intros Hm [H0 H1].
  assert (0 <= v / m) by (apply Qle_shift_div_l; lra).
  assert (v / m <= 1) by (apply Qle_shift_div_r; lra).
  split; lra.
Qed.

Lemma rescale_max (m v : Q) : 0 < m → v == m → v / m * 4 + 1 == 5.
Proof. intros Hm ->. field. lra. Qed.

Lemma rescale_zero (m v : Q) : 0 < m → v == 0 → v / m * 4 + 1 == 1.
Proof. intros Hm ->. field. lra. Qed.

Lemma motivation_of_fin (mp mt s f p t : Q) :
  ¬ mp == 0 → ¬ mt == 0 →
  motivation_of (Fin mp) (Fin mt) s f p t =
    Fin (round2 ((s + f + (p / mp * 4 + 1) + (t / mt * 4 + 1)) / 4)).
Proof.
  intros Hp Ht. unfold motivation_of. by rewrite !rescale_fin.
Qed.
End arithmetic.

(** ** The motivation score *)

Lemma select_Forall_all {A} (P : A → Prop) (mask : list bool) (xs : list A) :
  Forall P xs → Forall P (select mask xs).
Proof.
  intros H. apply select_Forall. intros i x _ Hx.
  rewrite Forall_forall in H. apply H. by eapply list_elem_of_lookup_2.
Qed.

Lemma lookup_fin (qs : list Q) (i : nat) (q : Q) :
  (fin <$> qs) !! i = Some (fin q) → qs !! i = Some q.
Proof.
  rewrite list_lookup_fmap. destruct (qs !! i) as [q'|]; [|done].
  simpl. by intros [= ->].
Qed.

(** C2: on a raw table with scores between 1 and 5, non-negative
    promotions and training hours, and a positive maximum of the kept
    promotions and of the kept training hours, the cleaner returns a table
    whose rows are the kept rows.  The two factors the code computes as
    (v / max) * 4 + 1 on the kept promotions and training hours lie
    between 1 and 5, are exactly 5 on a row holding the maximum and
    exactly 1 on a row holding 0.  The motivation score of each row lies
    between 1 and 5, has two decimals, and is the average of
    satisfaction, performance and the two factors to within half a unit
    of the second decimal (with the margin of [rounding_tolerance]: at
    a tie binary64 decides which neighbour is taken). *)
Theorem cleaned_productivity_motivation (df : frame)
    (department frequency promotions training satisfaction performance : series)
    (ps ts ss fs : list Q) (mp mt : Q) :
  productivity_labels_ok df →
  getitem df "Department" = Ok department →
  getitem df "Remote_Work_Frequency" = Ok frequency →
  getitem df "Promotions" = Ok promotions → values promotions = fin <$> ps →
  getitem df "Training_Hours" = Ok training → values training = fin <$> ts →
  getitem df "Employee_Satisfaction_Score" = Ok satisfaction →
  values satisfaction = fin <$> ss →
  getitem df "Performance_Score" = Ok performance → values performance = fin <$> fs →
  Forall (λ q, 1 <= q <= 5)%Q ss → Forall (λ q, 1 <= q <= 5)%Q fs →
  Forall (λ q, 0 <= q)%Q ps → Forall (λ q, 0 <= q)%Q ts →
  series_max (kept (keep_mask department frequency) promotions) = Ok (fin mp) →
  (0 < mp)%Q →
  series_max (kept (keep_mask department frequency) training) = Ok (fin mt) →
  (0 < mt)%Q →
  ∃ out M PN TN,
    cleaning_productivity_data df = Ok out ∧
    getitem out "promotions" = Ok (kept (keep_mask department frequency) promotions) ∧
    getitem out "training_hours" =
      Ok (kept (keep_mask department frequency) training) ∧
    getitem out "employee_satisfaction_score" =
      Ok (kept (keep_mask department frequency) satisfaction) ∧
    getitem out "performance_score" =
      Ok (kept (keep_mask department frequency) performance) ∧
    getitem out "motivation_score" = Ok M ∧
    normalize_1_5 (kept (keep_mask department frequency) promotions) = Ok PN ∧
    normalize_1_5 (kept (keep_mask department frequency) training) = Ok TN ∧
    ∀ i p t s f,
      select (keep_mask department frequency) ps !! i = Some p →
      select (keep_mask department frequency) ts !! i = Some t →
      select (keep_mask department frequency) ss !! i = Some s →
      select (keep_mask department frequency) fs !! i = Some f →
      ∃ pn tn m,
        values PN !! i = Some (fin pn) ∧ values TN !! i = Some (fin tn) ∧
        values M !! i = Some (fin m) ∧
        (1 <= pn <= 5)%Q ∧ ((p == mp)%Q → (pn == 5)%Q) ∧ ((p == 0)%Q → (pn == 1)%Q) ∧
        (1 <= tn <= 5)%Q ∧ ((t == mt)%Q → (tn == 5)%Q) ∧ ((t == 0)%Q → (tn == 1)%Q) ∧
        (1 <= m <= 5)%Q ∧ two_decimals m ∧
        (Qabs (m - (s + f + pn + tn) / 4) <= rounding_tolerance)%Q.
Proof.
  intros Hok Hd Hfr Hp Hps Ht Hts Hs Hss Hf Hfs Bs Bf Bp Bt Hmp Hmp0 Hmt Hmt0.
  set (mask := keep_mask department frequency) in *.
  pose proof (motivation_column_fin mask df _ _ _ _ ps ts ss fs
                Hp Hps Ht Hts Hs Hss Hf Hfs) as Hm.
  destruct (cleaning_productivity_data_columns df department frequency _
              Hok Hd Hfr Hm) as (out & Hout & _ & HM & Hrest).
  assert (Hnot : ∀ l, l ∈ ["Promotions"; "Training_Hours";
                           "Employee_Satisfaction_Score"; "Performance_Score"] →
            l ∉ ["Employee_ID"; "Hire_Date"; "Team_Size"; "Remote_Work_Frequency";
                 "Promotions_Normalized"; "Training_Hours_Normalized";
                 "Motivation_Score"]).
  { intros l Hl. rewrite !elem_of_cons, elem_of_nil in Hl.
    destruct Hl as [->|[->|[->|[->|[]]]]];
      rewrite !not_elem_of_cons; repeat split; done || apply not_elem_of_nil. }
  assert (HcP : column_max (select mask ps) = Fin mp).
  { rewrite (series_max_fin _ (select mask ps)) in Hmp
      by (simpl; by rewrite Hps, select_fmap).
    by injection Hmp. }
  assert (HcT : column_max (select mask ts) = Fin mt).
  { rewrite (series_max_fin _ (select mask ts)) in Hmt
      by (simpl; by rewrite Hts, select_fmap).
    by injection Hmt. }
  assert (mp_ne : ¬ (mp == 0)%Q) by lra.
  assert (mt_ne : ¬ (mt == 0)%Q) by lra.
  eexists out, _, _, _.
  split; [done|].
  split; [apply (Hrest "Promotions"); [done|apply Hnot; rewrite !elem_of_cons; auto]|].
  split; [apply (Hrest "Training_Hours"); [done|apply Hnot; rewrite !elem_of_cons; auto]|].
  split; [apply (Hrest "Employee_Satisfaction_Score");
            [done|apply Hnot; rewrite !elem_of_cons; auto]|].
  split; [apply (Hrest "Performance_Score");
            [done|apply Hnot; rewrite !elem_of_cons; auto]|].
  split; [exact HM|].
  split; [apply (normalize_1_5_fin _ (select mask ps)); simpl;
          by rewrite Hps, select_fmap|].
  split; [apply (normalize_1_5_fin _ (select mask ts)); simpl;
          by rewrite Hts, select_fmap|].
  cbn [values plain]. rewrite HcP, HcT.
  intros i p t s f Hpi Hti Hsi Hfi.
  exists (p / mp * 4 + 1)%Q, (t / mt * 4 + 1)%Q,
    (round2 ((s + f + (p / mp * 4 + 1) + (t / mt * 4 + 1)) / 4))%Q.
  assert (Hp01 : (0 <= p <= mp)%Q).
  { split.
    - pose proof (select_Forall_all _ mask ps Bp) as H.
      rewrite Forall_forall in H. apply H. by eapply list_elem_of_lookup_2.
    - apply (column_max_ge (select mask ps)); [done|].
      by eapply list_elem_of_lookup_2. }
  assert (Ht01 : (0 <= t <= mt)%Q).
  { split.
    - pose proof (select_Forall_all _ mask ts Bt) as H.
      rewrite Forall_forall in H. apply H. by eapply list_elem_of_lookup_2.
    - apply (column_max_ge (select mask ts)); [done|].
      by eapply list_elem_of_lookup_2. }
  assert (Hs15 : (1 <= s <= 5)%Q).
  { pose proof (select_Forall_all _ mask ss Bs) as H.
    rewrite Forall_forall in H. apply H. by eapply list_elem_of_lookup_2. }
  assert (Hf15 : (1 <= f <= 5)%Q).
  { pose proof (select_Forall_all _ mask fs Bf) as H.
    rewrite Forall_forall in H. apply H. by eapply list_elem_of_lookup_2. }
  pose proof (rescale_bounds mp p Hmp0 Hp01) as Rp.
  pose proof (rescale_bounds mt t Hmt0 Ht01) as Rt.
  split; [by rewrite !list_lookup_fmap, Hpi; simpl; rewrite rescale_fin|].
  split; [by rewrite !list_lookup_fmap, Hti; simpl; rewrite rescale_fin|].
  split.
  { rewrite list_lookup_fmap,
      (motivation_values_lookup _ _ _ _ i s f p t Hsi Hfi Hpi Hti), HcP, HcT.
    simpl. by rewrite motivation_of_fin. }
  split; [done|]. split; [by apply rescale_max|]. split; [by apply rescale_zero|].
  split; [done|]. split; [by apply rescale_max|]. split; [by apply rescale_zero|].
  split.
  { apply (round2_bounds 1 5). change (inject_Z 1) with 1%Q.
    change (inject_Z 5) with 5%Q.
    split; [apply Qle_shift_div_l|apply Qle_shift_div_r]; lra. }
  split; [apply round2_two_decimals|apply round2_tolerance].
Qed.

Lemma cleaned_productivity_motivation_witness :
  ∃ out M PN TN,
    cleaning_productivity_data productivity_sample = Ok out ∧
    getitem out "promotions" =
      Ok (kept (keep_mask (strs ["IT"; "IT"; "IT"; "IT"; "IT"])
                  (ints [100; 50; 0; 75; 25]%Z)) (ints [0; 2; 4; 1; 3]%Z)) ∧
    getitem out "training_hours" =
      Ok (kept (keep_mask (strs ["IT"; "IT"; "IT"; "IT"; "IT"])
                  (ints [100; 50; 0; 75; 25]%Z)) (ints [0; 50; 100; 25; 75]%Z)) ∧
    getitem out "employee_satisfaction_score" =
      Ok (kept (keep_mask (strs ["IT"; "IT"; "IT"; "IT"; "IT"])
                  (ints [100; 50; 0; 75; 25]%Z)) (ints [5; 5; 5; 5; 5]%Z)) ∧
    getitem out "performance_score" =
      Ok (kept (keep_mask (strs ["IT"; "IT"; "IT"; "IT"; "IT"])
                  (ints [100; 50; 0; 75; 25]%Z)) (ints [5; 5; 5; 5; 5]%Z)) ∧
    getitem out "motivation_score" = Ok M ∧
    normalize_1_5
      (kept (keep_mask (strs ["IT"; "IT"; "IT"; "IT"; "IT"])
               (ints [100; 50; 0; 75; 25]%Z)) (ints [0; 2; 4; 1; 3]%Z)) = Ok PN ∧
    normalize_1_5
      (kept (keep_mask (strs ["IT"; "IT"; "IT"; "IT"; "IT"])
               (ints [100; 50; 0; 75; 25]%Z)) (ints [0; 50; 100; 25; 75]%Z)) = Ok TN ∧
    ∀ i p t s f,
      select (keep_mask (strs ["IT"; "IT"; "IT"; "IT"; "IT"])
                (ints [100; 50; 0; 75; 25]%Z)) (inject_Z <$> [0; 2; 4; 1; 3]%Z) !! i
        = Some p →
      select (keep_mask (strs ["IT"; "IT"; "IT"; "IT"; "IT"])
                (ints [100; 50; 0; 75; 25]%Z)) (inject_Z <$> [0; 50; 100; 25; 75]%Z) !! i
        = Some t →
      select (keep_mask (strs ["IT"; "IT"; "IT"; "IT"; "IT"])
                (ints [100; 50; 0; 75; 25]%Z)) (inject_Z <$> [5; 5; 5; 5; 5]%Z) !! i
        = Some s →
      select (keep_mask (strs ["IT"; "IT"; "IT"; "IT"; "IT"])
                (ints [100; 50; 0; 75; 25]%Z)) (inject_Z <$> [5; 5; 5; 5; 5]%Z) !! i
        = Some f →
      ∃ pn tn m,
        values PN !! i = Some (fin pn) ∧ values TN !! i = Some (fin tn) ∧
        values M !! i = Some (fin m) ∧
        (1 <= pn <= 5)%Q ∧ ((p == 4)%Q → (pn == 5)%Q) ∧ ((p == 0)%Q → (pn == 1)%Q) ∧
        (1 <= tn <= 5)%Q ∧ ((t == 100)%Q → (tn == 5)%Q) ∧ ((t == 0)%Q → (tn == 1)%Q) ∧
        (1 <= m <= 5)%Q ∧ two_decimals m ∧
        (Qabs (m - (s + f + pn + tn) / 4) <= rounding_tolerance)%Q.
Proof.
  apply (cleaned_productivity_motivation productivity_sample
           (strs ["IT"; "IT"; "IT"; "IT"; "IT"]) (ints [100; 50; 0; 75; 25]%Z)
           (ints [0; 2; 4; 1; 3]%Z) (ints [0; 50; 100; 25; 75]%Z)
           (ints [5; 5; 5; 5; 5]%Z) (ints [5; 5; 5; 5; 5]%Z)
           (inject_Z <$> [0; 2; 4; 1; 3]%Z) (inject_Z <$> [0; 50; 100; 25; 75]%Z)
           (inject_Z <$> [5; 5; 5; 5; 5]%Z) (inject_Z <$> [5; 5; 5; 5; 5]%Z)
           4%Q 100%Q);
    try reflexivity.
  - exact productivity_sample_labels_ok.
  - repeat constructor; by vm_compute.
  - repeat constructor; by vm_compute.
  - repeat constructor; by vm_compute.
  - repeat constructor; by vm_compute.
Defined.

(** ** A zero maximum *)

Lemma rescale_zero_max (m : num) (v : Q) :
  num_eqb m (Fin 0) = true → is_finite (rescale m v) = false.
Proof.
  destruct m as [z| | |]; try done. cbn [num_eqb]. intros Hz.
  unfold rescale. cbn [num_div]. rewrite Hz.
  by destruct (sgn v).
Qed.

Lemma motivation_of_not_finite (mp mt : num) (s f p t : Q) :
  is_finite (rescale mp p) = false ∨ is_finite (rescale mt t) = false →
  is_finite (motivation_of mp mt s f p t) = false.
Proof.
  unfold motivation_of.
  destruct (rescale mp p) as [a| | |], (rescale mt t) as [b| | |];
    intros [H|H]; try discriminate H; reflexivity.
Qed.

Lemma motivation_values_lookup_inv S F P T i x :
  motivation_values S F P T !! i = Some x →
  ∃ s f p t, S !! i = Some s ∧ F !! i = Some f ∧ P !! i = Some p ∧ T !! i = Some t ∧
    x = motivation_of (column_max P) (column_max T) s f p t.
Proof.
  unfold motivation_values.
  rewrite list_lookup_fmap, !lookup_zip_with, !list_lookup_fmap.
  destruct (S !! i) as [s|]; [|done]. destruct (F !! i) as [f|]; [|done].
  destruct (P !! i) as [p|]; [|done]. destruct (T !! i) as [t|]; [|done].
  simpl. intros [= <-]. by exists s, f, p, t.
Qed.

(** C8: when the maximum of the kept promotions, or of the kept training
    hours, is zero, the cleaner raises nothing.  It returns a table whose
    rows are the kept rows; on every kept row the factor the code computes
    as (v / max) * 4 + 1 from the column with the zero maximum is NaN or
    infinite, and so is the motivation score of that row. *)
Theorem zero_maximum_is_not_an_error (df : frame)
    (department frequency promotions training satisfaction performance : series)
    (ps ts ss fs : list Q) (mp mt : num) :
  productivity_labels_ok df →
  getitem df "Department" = Ok department →
  getitem df "Remote_Work_Frequency" = Ok frequency →
  getitem df "Promotions" = Ok promotions → values promotions = fin <$> ps →
  getitem df "Training_Hours" = Ok training → values training = fin <$> ts →
  getitem df "Employee_Satisfaction_Score" = Ok satisfaction →
  values satisfaction = fin <$> ss →
  getitem df "Performance_Score" = Ok performance → values performance = fin <$> fs →
  series_max (kept (keep_mask department frequency) promotions) = Ok (CNum mp) →
  series_max (kept (keep_mask department frequency) training) = Ok (CNum mt) →
  num_eqb mp (Fin 0) = true ∨ num_eqb mt (Fin 0) = true →
  ∃ out M PN TN,
    cleaning_productivity_data df = Ok out ∧
    getitem out "promotions" = Ok (kept (keep_mask department frequency) promotions) ∧
    getitem out "training_hours" =
      Ok (kept (keep_mask department frequency) training) ∧
    getitem out "employee_satisfaction_score" =
      Ok (kept (keep_mask department frequency) satisfaction) ∧
    getitem out "performance_score" =
      Ok (kept (keep_mask department frequency) performance) ∧
    getitem out "motivation_score" = Ok M ∧
    normalize_1_5 (kept (keep_mask department frequency) promotions) = Ok PN ∧
    normalize_1_5 (kept (keep_mask department frequency) training) = Ok TN ∧
    (num_eqb mp (Fin 0) = true →
       ∀ i p, select (keep_mask department frequency) ps !! i = Some p →
         ∃ c, values PN !! i = Some c ∧ not_finite c) ∧
    (num_eqb mt (Fin 0) = true →
       ∀ i t, select (keep_mask department frequency) ts !! i = Some t →
         ∃ c, values TN !! i = Some c ∧ not_finite c) ∧
    (∀ i p t s f,
       select (keep_mask department frequency) ps !! i = Some p →
       select (keep_mask department frequency) ts !! i = Some t →
       select (keep_mask department frequency) ss !! i = Some s →
       select (keep_mask department frequency) fs !! i = Some f →
       ∃ c, values M !! i = Some c ∧ not_finite c) ∧
    Forall not_finite (values M).
Proof.
  intros Hok Hd Hfr Hp Hps Ht Hts Hs Hss Hf Hfs Hmp Hmt Hzero.
  set (mask := keep_mask department frequency) in *.
  pose proof (motivation_column_fin mask df _ _ _ _ ps ts ss fs
                Hp Hps Ht Hts Hs Hss Hf Hfs) as Hm.
  destruct (cleaning_productivity_data_columns df department frequency _
              Hok Hd Hfr Hm) as (out & Hout & _ & HM & Hrest).
  assert (Hnot : ∀ l, l ∈ ["Promotions"; "Training_Hours";
                           "Employee_Satisfaction_Score"; "Performance_Score"] →
            l ∉ ["Employee_ID"; "Hire_Date"; "Team_Size"; "Remote_Work_Frequency";
                 "Promotions_Normalized"; "Training_Hours_Normalized";
                 "Motivation_Score"]).
  { intros l Hl. rewrite !elem_of_cons, elem_of_nil in Hl.
    destruct Hl as [->|[->|[->|[->|[]]]]];
      rewrite !not_elem_of_cons; repeat split; done || apply not_elem_of_nil. }
  assert (HcP : column_max (select mask ps) = mp).
  { rewrite (series_max_fin _ (select mask ps)) in Hmp
      by (simpl; by rewrite Hps, select_fmap).
    by injection Hmp. }
  assert (HcT : column_max (select mask ts) = mt).
  { rewrite (series_max_fin _ (select mask ts)) in Hmt
      by (simpl; by rewrite Hts, select_fmap).
    by injection Hmt. }
  eexists out, _, _, _. split; [done|].
  split; [apply (Hrest "Promotions"); [done|apply Hnot; rewrite !elem_of_cons; auto]|].
  split; [apply (Hrest "Training_Hours"); [done|apply Hnot; rewrite !elem_of_cons; auto]|].
  split; [apply (Hrest "Employee_Satisfaction_Score");
            [done|apply Hnot; rewrite !elem_of_cons; auto]|].
  split; [apply (Hrest "Performance_Score");
            [done|apply Hnot; rewrite !elem_of_cons; auto]|].
  split; [exact HM|].
  split; [apply (normalize_1_5_fin _ (select mask ps)); simpl;
          by rewrite Hps, select_fmap|].
  split; [apply (normalize_1_5_fin _ (select mask ts)); simpl;
          by rewrite Hts, select_fmap|].
  cbn [values plain]. rewrite HcP, HcT.
  split; [|split; [|split]].
  - intros Hz i p Hi. rewrite !list_lookup_fmap, Hi. eexists. split; [done|].
    eexists. split; [done|]. by apply rescale_zero_max.
  - intros Hz i t Hi. rewrite !list_lookup_fmap, Hi. eexists. split; [done|].
    eexists. split; [done|]. by apply rescale_zero_max.
  - intros i p t s f Hpi Hti Hsi Hfi.
    rewrite list_lookup_fmap,
      (motivation_values_lookup _ _ _ _ i s f p t Hsi Hfi Hpi Hti), HcP, HcT.
    eexists. split; [done|]. eexists. split; [done|].
    apply motivation_of_not_finite.
    destruct Hzero as [Hz|Hz]; [left|right]; by apply rescale_zero_max.
  - apply Forall_fmap, Forall_lookup. intros i x Hx.
    apply motivation_values_lookup_inv in Hx as (s & f & p & t & _ & _ & _ & _ & ->).
    exists (motivation_of (column_max (select mask ps)) (column_max (select mask ts))
              s f p t).
    split; [done|]. rewrite HcP, HcT. apply motivation_of_not_finite.
    destruct Hzero as [Hz|Hz]; [left|right]; by apply rescale_zero_max.
Qed.

Lemma zero_maximum_is_not_an_error_witness :
  ∃ out M PN TN,
    cleaning_productivity_data productivity_zero_sample = Ok out ∧
    getitem out "promotions" =
      Ok (kept (keep_mask (strs ["IT"; "IT"]) (ints [100; 0]%Z)) (ints [0; 0]%Z)) ∧
    getitem out "training_hours" =
      Ok (kept (keep_mask (strs ["IT"; "IT"]) (ints [100; 0]%Z)) (ints [10; 20]%Z)) ∧
    getitem out "employee_satisfaction_score" =
      Ok (kept (keep_mask (strs ["IT"; "IT"]) (ints [100; 0]%Z)) (ints [3; 4]%Z)) ∧
    getitem out "performance_score" =
      Ok (kept (keep_mask (strs ["IT"; "IT"]) (ints [100; 0]%Z)) (ints [4; 4]%Z)) ∧
    getitem out "motivation_score" = Ok M ∧
    normalize_1_5
      (kept (keep_mask (strs ["IT"; "IT"]) (ints [100; 0]%Z)) (ints [0; 0]%Z)) = Ok PN ∧
    normalize_1_5
      (kept (keep_mask (strs ["IT"; "IT"]) (ints [100; 0]%Z)) (ints [10; 20]%Z)) = Ok TN ∧
    (num_eqb (Fin 0) (Fin 0) = true →
       ∀ i p, select (keep_mask (strs ["IT"; "IT"]) (ints [100; 0]%Z))
                (inject_Z <$> [0; 0]%Z) !! i = Some p →
         ∃ c, values PN !! i = Some c ∧ not_finite c) ∧
    (num_eqb (Fin 20) (Fin 0) = true →
       ∀ i t, select (keep_mask (strs ["IT"; "IT"]) (ints [100; 0]%Z))
                (inject_Z <$> [10; 20]%Z) !! i = Some t →
         ∃ c, values TN !! i = Some c ∧ not_finite c) ∧
    (∀ i p t s f,
       select (keep_mask (strs ["IT"; "IT"]) (ints [100; 0]%Z))
         (inject_Z <$> [0; 0]%Z) !! i = Some p →
       select (keep_mask (strs ["IT"; "IT"]) (ints [100; 0]%Z))
         (inject_Z <$> [10; 20]%Z) !! i = Some t →
       select (keep_mask (strs ["IT"; "IT"]) (ints [100; 0]%Z))
         (inject_Z <$> [3; 4]%Z) !! i = Some s →
       select (keep_mask (strs ["IT"; "IT"]) (ints [100; 0]%Z))
         (inject_Z <$> [4; 4]%Z) !! i = Some f →
       ∃ c, values M !! i = Some c ∧ not_finite c) ∧
    Forall not_finite (values M).
Proof.
  apply (zero_maximum_is_not_an_error productivity_zero_sample
           (strs ["IT"; "IT"]) (ints [100; 0]%Z)
           (ints [0; 0]%Z) (ints [10; 20]%Z) (ints [3; 4]%Z) (ints [4; 4]%Z)
           (inject_Z <$> [0; 0]%Z) (inject_Z <$> [10; 20]%Z)
           (inject_Z <$> [3; 4]%Z) (inject_Z <$> [4; 4]%Z) (Fin 0) (Fin 20));
    try reflexivity.
  - repeat split; apply (bool_decide_unpack _); by vm_compute.
  - by left.
Defined.

Example zero_maximum_sample_run :
  cleaning_productivity_data productivity_zero_sample =
    Ok [("department", strs ["IT"; "IT"]);
        ("work_type",
         Series (Categorical ["Remote"; "Hybrid"; "Onsite"] true)
           [CStr "Remote"; CStr "Onsite"]);
        ("promotions", ints [0; 0]%Z);
        ("training_hours", ints [10; 20]%Z);
        ("employee_satisfaction_score", ints [3; 4]%Z);
        ("performance_score", ints [4; 4]%Z);
        ("motivation_score", plain [CNum NaN; CNum NaN])].
Proof. vm_compute. reflexivity. Qed.

(** ** Absent columns *)

Lemma getitem_Err df l e : getitem df l = Err e → e = KeyError l ∧ l ∉ columns df.
Proof.
  unfold columns. induction df as [|[k c] df IH]; simpl.
  - intros [= <-]. split; [done|apply not_elem_of_nil].
  - destruct (decide (k = l)) as [->|Hk]; [done|].
    intros [-> H]%IH. split; [done|]. by apply not_elem_of_cons.
Qed.

Lemma drop_ignore_drop_ignore ls ls' (df : frame) :
  ls ⊆ ls' → drop_ignore ls' (drop_ignore ls df) = drop_ignore ls' df.
Proof.
  intros Hsub. unfold drop_ignore. induction df as [|[k c] df IH]; [done|].
  rewrite !filter_cons. cbn [fst].
  destruct (decide (k ∉ ls)) as [Hk|Hk].
  - rewrite filter_cons. cbn [fst]. by rewrite IH.
  - rewrite IH, decide_False; [done|]. intros Hk'. apply Hk. intros ?. apply Hk'. auto.
Qed.

Lemma is_num_cells (l : list cell) :
  forallb is_num l = true → ∃ xs, l = CNum <$> xs.
Proof.
  induction l as [|[x|s] l IH]; simpl; [by exists []| |done].
  intros (xs & ->)%IH. by exists (x :: xs).
Qed.

Lemma normalize_1_5_numeric mask (s : series) :
  forallb is_num (values s) = true → ∃ r, normalize_1_5 (kept mask s) = Ok r.
Proof.
  intros (xs & Hxs)%is_num_cells. destruct s as [d vs]. simpl in Hxs. subst vs.
  unfold normalize_1_5, series_max, kept, int. cbn [values dtype_of].
  eexists.
  rewrite select_fmap, (traverse_fmap_Ok _ _ id) by done. rewrite !Ok_bind.
  rewrite series_scalar_num, Ok_bind. unfold plain.
  rewrite series_scalar_num, Ok_bind. unfold plain.
  rewrite series_scalar_num. reflexivity.
Qed.

(** Where the documented KeyError does come.  The cleaner does not care
    whether Employee_ID, Hire_Date or Team_Size are there: taking any of
    them away from the input changes nothing and raises nothing.  On a
    table whose promotions and training hours, when present, are numbers,
    an absent field that the filter or the score needs makes the cleaner
    raise a KeyError naming an absent required field. *)
Lemma absent_columns (df : frame) :
  numeric_column df "Promotions" = true →
  numeric_column df "Training_Hours" = true →
  (∀ ls, ls ⊆ optional_fields →
     cleaning_productivity_data (drop_ignore ls df) = cleaning_productivity_data df) ∧
  (∀ l, l ∈ required_fields → l ∉ columns df →
     ∃ l', l' ∈ required_fields ∧ (l' ∉ columns df) ∧
           cleaning_productivity_data df = Err (KeyError l')).
Proof.
  intros Hnp Hnt. split.
  { intros ls Hls. unfold cleaning_productivity_data.
    by rewrite (drop_ignore_drop_ignore ls ["Employee_ID"; "Hire_Date"; "Team_Size"] df Hls). }
  intros l Hl Habs. rewrite cleaning_productivity_data_unfold.
  unfold required_fields.
  assert (Hraise : ∀ l' e (k : series → result frame),
            l' ∈ required_fields → getitem df l' = Err e →
            ∃ l'', l'' ∈ required_fields ∧ (l'' ∉ columns df) ∧
                   Err e ≫= k = Err (KeyError l'')).
  { intros l' e k Hl' [-> ?]%getitem_Err. by exists l'. }
  assert (Hin : ∀ l', l' ∈ ["Department"; "Remote_Work_Frequency"; "Promotions";
                            "Training_Hours"; "Employee_Satisfaction_Score";
                            "Performance_Score"] → l' ∈ required_fields) by done.
  destruct (getitem df "Department") as [department|e] eqn:Hd;
    [rewrite Ok_bind|apply (Hraise "Department"); [apply Hin; rewrite !elem_of_cons; auto 10|done]].
  destruct (getitem df "Remote_Work_Frequency") as [frequency|e] eqn:Hf;
    [rewrite Ok_bind
    |apply (Hraise "Remote_Work_Frequency"); [apply Hin; rewrite !elem_of_cons; auto 10|done]].
  cbv zeta. set (mask := keep_mask department frequency).
  unfold motivation_column, numeric_column in *.
  destruct (getitem df "Promotions") as [promotions|e] eqn:Hp;
    [rewrite Ok_bind|apply (Hraise "Promotions"); [apply Hin; rewrite !elem_of_cons; auto 10|done]].
  destruct (normalize_1_5_numeric mask promotions Hnp) as [pn ->]. rewrite Ok_bind.
  destruct (getitem df "Training_Hours") as [training|e] eqn:Ht;
    [rewrite Ok_bind
    |apply (Hraise "Training_Hours"); [apply Hin; rewrite !elem_of_cons; auto 10|done]].
  destruct (normalize_1_5_numeric mask training Hnt) as [tn ->]. rewrite Ok_bind.
  destruct (getitem df "Employee_Satisfaction_Score") as [sat|e] eqn:Hs;
    [rewrite Ok_bind
    |apply (Hraise "Employee_Satisfaction_Score"); [apply Hin; rewrite !elem_of_cons; auto 10|done]].
  destruct (getitem df "Performance_Score") as [perf|e] eqn:Hpf;
    [rewrite Ok_bind
    |apply (Hraise "Performance_Score"); [apply Hin; rewrite !elem_of_cons; auto 10|done]].
  exfalso. apply Habs. unfold required_fields in Hl.
  rewrite !elem_of_cons, elem_of_nil in Hl.
  destruct Hl as [->|[->|[->|[->|[->|[->|[]]]]]]]; by eapply getitem_columns.
Qed.

Lemma absent_columns_witness :
  (∀ ls, ls ⊆ optional_fields →
     cleaning_productivity_data (drop_ignore ls productivity_sample_no_training) =
     cleaning_productivity_data productivity_sample_no_training) ∧
  (∀ l, l ∈ required_fields → l ∉ columns productivity_sample_no_training →
     ∃ l', l' ∈ required_fields ∧ (l' ∉ columns productivity_sample_no_training) ∧
           cleaning_productivity_data productivity_sample_no_training =
             Err (KeyError l')).
Proof. apply (absent_columns productivity_sample_no_training); reflexivity. Defined.

Example absent_training_hours_run :
  cleaning_productivity_data productivity_sample_no_training =
    Err (KeyError "Training_Hours") ∧
  cleaning_productivity_data (drop_ignore optional_fields productivity_sample) =
    Ok productivity_sample_cleaned.
Proof. split; vm_compute; reflexivity. Qed.

(** C9 fails on the code.  The docstring promises a KeyError when a
    required column is missing.  In this table [Training_Hours], a
    required field, is missing and a kept row holds a promotion count that
    is not a number: the maximum of the promotions is taken first (line
    64), before [Training_Hours] is read (line 65), and what is raised is
    a TypeError, not a KeyError. *)
Theorem absent_field_raises_type_error :
  "Training_Hours" ∈ required_fields ∧
  ("Training_Hours" ∉ columns productivity_text_sample_no_training) ∧
  (∀ l, l ∈ required_fields → l ≠ "Training_Hours" →
        l ∈ columns productivity_text_sample_no_training) ∧
  cleaning_productivity_data productivity_text_sample_no_training = Err TypeError ∧
  ∀ l, cleaning_productivity_data productivity_text_sample_no_training ≠
         Err (KeyError l).
Proof.
  split; [unfold required_fields; rewrite !elem_of_cons; auto 10|].
  split; [apply (bool_decide_unpack _); by vm_compute|].
  split.
  { intros l Hl Hne. unfold required_fields in Hl.
    rewrite !elem_of_cons, elem_of_nil in Hl.
    destruct Hl as [->|[->|[->|[->|[->|[->|[]]]]]]]; try done;
      apply (bool_decide_unpack _); by vm_compute. }
  assert (H : cleaning_productivity_data productivity_text_sample_no_training =
              Err TypeError) by (vm_compute; reflexivity).
  split; [exact H|]. intros l. by rewrite H.
Qed.

(** ** Mutable frames *)

Section store.
Context (h : heap) (r : ref) (f : frame) (Hf : h !! r = Some f).

Lemma bind_load {B} (k : frame → M B) : (load r ≫= k) h = k f h.
Proof.
  unfold mbind, M_bind, load. by rewrite (list_lookup_total_correct _ _ _ Hf).
Qed.

Lemma bind_lift {A B} (x : result A) (k : A → M B) :
  (lift x ≫= k) h = match x with Ok a => k a h | Err e => (Err e, h) end.
Proof. unfold mbind, M_bind, lift. by destruct x. Qed.

Lemma bind_getitem {B} (k : series → M B) l :
  (InPlace.getitem r l ≫= k) h =
    match getitem f l with Ok s => k s h | Err e => (Err e, h) end.
Proof.
  unfold InPlace.getitem, mbind at 1, M_bind at 1.
  rewrite bind_load. unfold lift. by destruct (getitem f l).
Qed.

Lemma bind_setitem {B} (k : () → M B) l s :
  (InPlace.setitem r l s ≫= k) h = k () (<[r := setitem f l s]> h).
Proof.
  unfold InPlace.setitem, mbind at 1, M_bind at 1. by rewrite bind_load.
Qed.

Lemma bind_set_columns {B} (k : () → M B) ls :
  (InPlace.set_columns r ls ≫= k) h =
    match set_columns f ls with
    | Ok f' => k () (<[r := f']> h)
    | Err e => (Err e, h)
    end.
Proof.
  unfold InPlace.set_columns, mbind at 1, M_bind at 1.
  rewrite bind_load, bind_lift. by destruct (set_columns f ls).
Qed.

Lemma bind_rename {B} (k : () → M B) old new :
  (InPlace.rename r old new ≫= k) h = k () (<[r := rename old new f]> h).
Proof.
  unfold InPlace.rename, mbind at 1, M_bind at 1. by rewrite bind_load.
Qed.

Lemma bind_drop {B} (k : ref → M B) ls :
  (InPlace.drop r ls ≫= k) h =
    match drop ls f with
    | Ok f' => k (length h) (h ++ [f'])
    | Err e => (Err e, h)
    end.
Proof.
  unfold InPlace.drop, mbind at 1, M_bind at 1.
  rewrite bind_load, bind_lift. by destruct (drop ls f).
Qed.

Lemma bind_boolean_index {B} (k : ref → M B) mask :
  (InPlace.boolean_index r mask ≫= k) h =
    k (length h) (h ++ [boolean_index mask f]).
Proof.
  unfold InPlace.boolean_index, mbind at 1, M_bind at 1. by rewrite bind_load.
Qed.

Lemma heap_insert_lookup (g : frame) : <[r := g]> h !! r = Some g.
Proof. apply list_lookup_insert_eq. by eapply lookup_lt_Some. Qed.
End store.

(** The cleaner in terms of the three objects it leaves in the store. *)
Lemma df_mentalhealth_cleaning_run (h : heap) (df2 : ref) (f : frame) :
  h !! df2 = Some f →
  match with_buckets f with
  | Err e => ∃ h', df_mentalhealth_cleaning df2 h = (Err e, h')
  | Ok f3 =>
      match pruned f3 with
      | Err e => ∃ h', df_mentalhealth_cleaning df2 h = (Err e, h')
      | Ok f5 =>
          match tech_only f5 with
          | Err e => ∃ h', df_mentalhealth_cleaning df2 h = (Err e, h')
          | Ok f6 =>
              df_mentalhealth_cleaning df2 h =
                (Ok (S (length h)), <[df2 := f3]> h ++ [f5; f6])
          end
      end
  end.
Proof.
  intros Hf. unfold df_mentalhealth_cleaning, with_buckets.
  rewrite (bind_load _ _ _ Hf), (bind_set_columns _ _ _ Hf).
  destruct (set_columns f (str_lower <$> columns f)) as [f0|e];
    [rewrite !Ok_bind|rewrite !Err_bind; by eexists].
  pose proof (heap_insert_lookup h df2 f Hf f0) as H0.
  rewrite (bind_getitem _ _ _ H0).
  destruct (getitem f0 "company_support_for_remote_work") as [r1|e];
    [rewrite !Ok_bind|rewrite !Err_bind; by eexists].
  rewrite bind_lift.
  destruct (series_apply support_remote_grade r1) as [d1|e];
    [rewrite !Ok_bind|rewrite !Err_bind; by eexists].
  rewrite (bind_setitem _ _ _ H0), list_insert_insert_eq.
  cbv zeta. set (f1 := setitem f0 "degree_of_remote_support" d1).
  pose proof (heap_insert_lookup h df2 f Hf f1) as H1.
  rewrite (bind_getitem _ _ _ H1).
  destruct (getitem f1 "social_isolation_rating") as [r2|e];
    [rewrite !Ok_bind|rewrite !Err_bind; by eexists].
  rewrite bind_lift.
  destruct (series_apply social_isolation r2) as [d2|e];
    [rewrite !Ok_bind|rewrite !Err_bind; by eexists].
  rewrite (bind_setitem _ _ _ H1), list_insert_insert_eq.
  cbv zeta. set (f2 := setitem f1 "degree_of_social_isolation" d2).
  pose proof (heap_insert_lookup h df2 f Hf f2) as H2.
  rewrite (bind_getitem _ _ _ H2).
  destruct (getitem f2 "work_life_balance_rating") as [r3|e];
    [rewrite !Ok_bind|rewrite !Err_bind; by eexists].
  rewrite bind_lift.
  destruct (series_apply degree_work_life_balance r3) as [d3|e];
    [rewrite !Ok_bind|rewrite !Err_bind; by eexists].
  rewrite (bind_setitem _ _ _ H2), list_insert_insert_eq.
  set (f3 := setitem f2 "degree_of_work-life_balance" d3).
  pose proof (heap_insert_lookup h df2 f Hf f3) as H3.
  unfold pruned. rewrite (bind_drop _ _ _ H3).
  destruct (drop dropped_columns f3) as [f4|e];
    [rewrite !Ok_bind|rewrite !Err_bind; by eexists].
  rewrite length_insert.
  assert (H4 : (<[df2 := f3]> h ++ [f4]) !! length h = Some f4).
  { rewrite lookup_app_r by (by rewrite length_insert).
    by rewrite length_insert, Nat.sub_diag. }
  rewrite (bind_rename _ _ _ H4).
  assert (Hh5 : <[length h := rename "work_location" "work_type" f4]>
                  (<[df2 := f3]> h ++ [f4]) =
                <[df2 := f3]> h ++ [rename "work_location" "work_type" f4]).
  { rewrite insert_app_r_alt by (by rewrite length_insert).
    by rewrite length_insert, Nat.sub_diag. }
  rewrite Hh5. set (f5 := rename "work_location" "work_type" f4).
  assert (H5 : (<[df2 := f3]> h ++ [f5]) !! length h = Some f5).
  { rewrite lookup_app_r by (by rewrite length_insert).
    by rewrite length_insert, Nat.sub_diag. }
  unfold tech_only. rewrite (bind_getitem _ _ _ H5).
  destruct (getitem f5 "job_role") as [jr|e];
    [rewrite !Ok_bind|rewrite !Err_bind; by eexists].
  rewrite (bind_boolean_index _ _ _ H5).
  rewrite length_app, length_insert, <-app_assoc. simpl.
  by rewrite Nat.add_1_r.
Qed.

(** ** The mental-health cleaner *)

Lemma drop_Ok ls (f f' : frame) :
  drop ls f = Ok f' → f' = drop_ignore ls f ∧ ∀ l, l ∈ ls → l ∈ columns f.
Proof.
  unfold drop. destruct (filter _ ls) as [|l' ?] eqn:E; [|done].
  intros [= <-]. split; [done|]. intros l Hl.
  destruct (decide (l ∈ columns f)) as [|Hn]; [done|].
  assert (l ∈ filter (λ l, l ∉ columns f) ls) as Hin by (by apply list_elem_of_filter).
  rewrite E in Hin. by apply elem_of_nil in Hin.
Qed.

Lemma bucket_in_degrees g c b :
  g ∈ bucketing_functions → g c = Ok b → CStr b ∈ degrees.
Proof.
  intros Hg. rewrite (bucketing_functions_agree g Hg).
  unfold support_remote_grade, degrees.
  destruct (cell_le c (int 2)) as [[]|]; simpl; [| |done].
  - intros [= <-]. rewrite !elem_of_cons; auto.
  - destruct (cell_eqb c (int 3)); intros [= <-]; rewrite !elem_of_cons; auto.
Qed.

Lemma series_apply_degrees g r d :
  g ∈ bucketing_functions → series_apply g r = Ok d →
  Forall (λ c, c ∈ degrees) (values d).
Proof.
  intros Hg. unfold series_apply. intros (vs & Hvs & ->)%fmap_Ok. simpl.
  revert vs Hvs. induction (values r) as [|c cs IH]; simpl; intros vs.
  - by intros [= <-].
  - intros (v & Hv & (vs' & Hvs' & [= <-])%bind_Ok)%bind_Ok.
    apply fmap_Ok in Hv as (b & Hb & ->).
    constructor; [by eapply bucket_in_degrees|by apply IH].
Qed.

Lemma series_apply_numeric g r :
  g ∈ bucketing_functions → forallb is_num (values r) = true →
  ∃ d, series_apply g r = Ok d.
Proof.
  intros Hg (xs & Hxs)%is_num_cells. unfold series_apply. rewrite Hxs.
  assert (∃ vs, traverse (λ v, CStr <$> g v) (CNum <$> xs) = Ok vs) as [vs ->];
    [|by eexists].
  clear Hxs. induction xs as [|x xs [vs IH]]; [by eexists|].
  rewrite fmap_cons. simpl. rewrite IH, (bucketing_functions_agree g Hg).
  unfold support_remote_grade. simpl.
  destruct (num_leb x (Fin (inject_Z 2))); simpl; [by eexists|].
  destruct (num_eqb x (Fin (inject_Z 3))); simpl; by eexists.
Qed.

Lemma select_isin (s : series) :
  select (series_isin s tech_roles) (values s) =
    filter (λ c, is_tech_role c = true) (values s).
Proof.
  unfold series_isin. induction (values s) as [|c cs IH]; [done|].
  rewrite fmap_cons, filter_cons. simpl. rewrite IH.
  destruct c as [x|t]; simpl; [done|].
  by destruct (bool_decide (t ∈ tech_roles)).
Qed.

Lemma with_buckets_Ok (f f3 : frame) :
  with_buckets f = Ok f3 →
  ∃ r1 r2 r3 d1 d2 d3,
    getitem (lower_columns f) "company_support_for_remote_work" = Ok r1 ∧
    series_apply support_remote_grade r1 = Ok d1 ∧
    getitem (lower_columns f) "social_isolation_rating" = Ok r2 ∧
    series_apply social_isolation r2 = Ok d2 ∧
    getitem (lower_columns f) "work_life_balance_rating" = Ok r3 ∧
    series_apply degree_work_life_balance r3 = Ok d3 ∧
    f3 = setitem (setitem (setitem (lower_columns f)
                    "degree_of_remote_support" d1)
                    "degree_of_social_isolation" d2)
                    "degree_of_work-life_balance" d3.
Proof.
  unfold with_buckets. rewrite set_columns_lower, Ok_bind.
  intros (r1 & H1 & (d1 & Hd1 & H)%bind_Ok)%bind_Ok.
  cbv zeta in H. rewrite getitem_setitem_ne in H by done.
  apply bind_Ok in H as (r2 & H2 & (d2 & Hd2 & H)%bind_Ok).
  rewrite !getitem_setitem_ne in H by done.
  apply bind_Ok in H as (r3 & H3 & (d3 & Hd3 & [= <-])%bind_Ok).
  by exists r1, r2, r3, d1, d2, d3.
Qed.

Lemma with_buckets_numeric (f : frame) r1 r2 r3 :
  getitem (lower_columns f) "company_support_for_remote_work" = Ok r1 →
  getitem (lower_columns f) "social_isolation_rating" = Ok r2 →
  getitem (lower_columns f) "work_life_balance_rating" = Ok r3 →
  forallb is_num (values r1) = true → forallb is_num (values r2) = true →
  forallb is_num (values r3) = true →
  ∃ f3, with_buckets f = Ok f3.
Proof.
  intros H1 H2 H3 N1 N2 N3. unfold with_buckets.
  rewrite set_columns_lower, Ok_bind, H1, Ok_bind.
  destruct (series_apply_numeric support_remote_grade r1) as [d1 ->];
    [unfold bucketing_functions; rewrite !elem_of_cons; auto|done|].
  rewrite Ok_bind. cbv zeta. rewrite getitem_setitem_ne, H2, Ok_bind by done.
  destruct (series_apply_numeric social_isolation r2) as [d2 ->];
    [unfold bucketing_functions; rewrite !elem_of_cons; auto|done|].
  rewrite Ok_bind. rewrite !getitem_setitem_ne, H3, Ok_bind by done.
  destruct (series_apply_numeric degree_work_life_balance r3) as [d3 ->];
    [unfold bucketing_functions; rewrite !elem_of_cons; auto|done|].
  rewrite Ok_bind. by eexists.
Qed.

Lemma tech_only_columns (f3 f5 f6 : frame) :
  pruned f3 = Ok f5 → tech_only f5 = Ok f6 →
  (∀ l, l ∈ dropped_columns → l ∈ columns f3) ∧
  (∀ l, l ∈ columns f6 → (l ∉ dropped_columns) ∧ l ≠ "work_location") ∧
  ∃ jr, getitem f3 "job_role" = Ok jr ∧
    ∀ l s, l ∉ dropped_columns → l ≠ "work_location" → l ≠ "work_type" →
      getitem f3 l = Ok s → getitem f6 l = Ok (kept (series_isin jr tech_roles) s).
Proof.
  unfold pruned, tech_only.
  intros (f4 & [-> Hdrop]%drop_Ok & [= <-])%bind_Ok (jr & Hjr & [= <-])%bind_Ok.
  rewrite getitem_rename_other in Hjr by done.
  rewrite getitem_drop_ignore_notin in Hjr
    by (unfold dropped_columns; rewrite !not_elem_of_cons;
        repeat split; [done..|apply not_elem_of_nil]).
  split; [done|]. split.
  - intros l. rewrite columns_boolean_index. unfold rename, columns.
    rewrite <-list_fmap_compose. intros ([k c] & -> & Hk)%list_elem_of_fmap.
    simpl. assert (k ∈ columns (drop_ignore dropped_columns f3)) as Hk'
      by (unfold columns; by apply (list_elem_of_fmap_2 fst) in Hk).
    apply columns_drop_ignore in Hk' as [_ Hk'].
    destruct (decide (k = "work_location")) as [->|Hne]; [|done].
    split; [|done]. unfold dropped_columns. rewrite !not_elem_of_cons.
    repeat split; [done..|apply not_elem_of_nil].
  - exists jr. split; [done|]. intros l s Hl Hwl Hwt Hs.
    rewrite getitem_boolean_index, getitem_rename_other by done.
    by rewrite getitem_drop_ignore_notin, Hs by done.
Qed.

(** Buckets stay with their ratings. *)

Lemma select_Forall2 {A B} (R : A → B → Prop) (mask : list bool) xs ys :
  Forall2 R xs ys → Forall2 R (select mask xs) (select mask ys).
Proof.
  intros H. revert mask. induction H as [|x y xs ys Hxy _ IH]; intros [|b mask];
    simpl; try constructor.
  destruct b; [constructor|]; auto.
Qed.

Lemma series_apply_bucketed g r d :
  series_apply g r = Ok d → Forall2 (bucketed g) (values r) (values d).
Proof.
  unfold series_apply. intros (vs & Hvs & ->)%fmap_Ok. simpl.
  revert vs Hvs. induction (values r) as [|c cs IH]; simpl; intros vs.
  - intros [= <-]. constructor.
  - intros (v & Hv & (vs' & Hvs' & [= <-])%bind_Ok)%bind_Ok.
    apply fmap_Ok in Hv as (b & Hb & ->).
    constructor; [by exists b|by apply IH].
Qed.

Lemma bucketed_missing g c b :
  g ∈ bucketing_functions → bucketed g c b → c = CNum NaN → b = CStr "High".
Proof.
  intros Hg (s & Hs & ->) ->. rewrite (bucketing_functions_agree g Hg) in Hs.
  by injection Hs as <-.
Qed.

(** C3: on a raw table with its required columns and numeric ratings, the
    cleaner returns a table; its job_role column is the raw one with every
    row whose role is not one of the three tech roles, a missing role
    included, dropped; its rating columns are the raw ones with the same
    rows dropped; and each of the three bucket columns holds, for every
    kept row, the bucket of that row's rating, which is Low, Medium or
    High. *)
Theorem cleaned_mental_health_rows (h : heap) (df2 : ref) (f : frame)
    (r1 r2 r3 jr : series) :
  h !! df2 = Some f →
  mental_health_labels_ok f →
  getitem (lower_columns f) "company_support_for_remote_work" = Ok r1 →
  getitem (lower_columns f) "social_isolation_rating" = Ok r2 →
  getitem (lower_columns f) "work_life_balance_rating" = Ok r3 →
  forallb is_num (values r1) = true → forallb is_num (values r2) = true →
  forallb is_num (values r3) = true →
  getitem (lower_columns f) "job_role" = Ok jr →
  (∀ l, l ∈ dropped_columns → l ∈ columns (lower_columns f)) →
  ∃ cleaned h' out roles d1 d2 d3,
    df_mentalhealth_cleaning df2 h = (Ok cleaned, h') ∧
    h' !! cleaned = Some out ∧
    getitem out "job_role" = Ok roles ∧
    values roles = filter (λ c, is_tech_role c = true) (values jr) ∧
    Forall (λ c, c ∈ CStr <$> tech_roles) (values roles) ∧
    getitem out "company_support_for_remote_work" =
      Ok (kept (series_isin jr tech_roles) r1) ∧
    getitem out "degree_of_remote_support" = Ok d1 ∧
    Forall (λ c, c ∈ degrees) (values d1) ∧
    Forall2 (bucketed support_remote_grade)
      (select (series_isin jr tech_roles) (values r1)) (values d1) ∧
    getitem out "social_isolation_rating" = Ok (kept (series_isin jr tech_roles) r2) ∧
    getitem out "degree_of_social_isolation" = Ok d2 ∧
    Forall (λ c, c ∈ degrees) (values d2) ∧
    Forall2 (bucketed social_isolation)
      (select (series_isin jr tech_roles) (values r2)) (values d2) ∧
    getitem out "work_life_balance_rating" = Ok (kept (series_isin jr tech_roles) r3) ∧
    getitem out "degree_of_work-life_balance" = Ok d3 ∧
    Forall (λ c, c ∈ degrees) (values d3) ∧
    Forall2 (bucketed degree_work_life_balance)
      (select (series_isin jr tech_roles) (values r3)) (values d3).
Proof.
  intros Hf _ H1 H2 H3 N1 N2 N3 Hjr Hdropped.
  destruct (with_buckets_numeric f r1 r2 r3 H1 H2 H3 N1 N2 N3) as [f3 Hf3].
  destruct (with_buckets_Ok f f3 Hf3)
    as (r1' & r2' & r3' & d1 & d2 & d3 & H1' & Hd1 & H2' & Hd2 & H3' & Hd3 & Hshape).
  assert (r1' = r1) as -> by congruence.
  assert (r2' = r2) as -> by congruence.
  assert (r3' = r3) as -> by congruence.
  assert (Hp : ∃ f5, pruned f3 = Ok f5).
  { unfold pruned. rewrite drop_spec; [by eexists|].
    intros l Hl. rewrite Hshape, !columns_setitem. auto. }
  destruct Hp as [f5 Hf5].
  assert (Hj3 : getitem f3 "job_role" = Ok jr).
  { rewrite Hshape. by rewrite !getitem_setitem_ne. }
  assert (Ht : ∃ f6, tech_only f5 = Ok f6).
  { unfold tech_only. pose proof Hf5 as Hf5'. unfold pruned in Hf5'.
    apply bind_Ok in Hf5' as (f4 & [-> _]%drop_Ok & [= <-]).
    rewrite getitem_rename_other by done.
    rewrite getitem_drop_ignore_notin
      by (unfold dropped_columns; rewrite !not_elem_of_cons;
          repeat split; [done..|apply not_elem_of_nil]).
    rewrite Hj3. by eexists. }
  destruct Ht as [f6 Hf6].
  pose proof (df_mentalhealth_cleaning_run h df2 f Hf) as Hrun.
  rewrite Hf3, Hf5, Hf6 in Hrun.
  destruct (tech_only_columns f3 f5 f6 Hf5 Hf6) as (_ & _ & jr' & Hjr' & Hcols).
  rewrite Hj3 in Hjr'. injection Hjr' as <-.
  assert (Hnot : ∀ l, l ∈ ["company_support_for_remote_work"; "social_isolation_rating";
                           "work_life_balance_rating"; "degree_of_remote_support";
                           "degree_of_social_isolation"; "degree_of_work-life_balance"] →
            (l ∉ dropped_columns) ∧ l ≠ "work_location" ∧ l ≠ "work_type").
  { intros l Hl. rewrite !elem_of_cons, elem_of_nil in Hl. unfold dropped_columns.
    destruct Hl as [->|[->|[->|[->|[->|[->|[]]]]]]]; rewrite !not_elem_of_cons;
      repeat split; done || apply not_elem_of_nil. }
  assert (Hget : ∀ l s, l ∈ ["company_support_for_remote_work"; "social_isolation_rating";
                             "work_life_balance_rating"; "degree_of_remote_support";
                             "degree_of_social_isolation"; "degree_of_work-life_balance"] →
            getitem f3 l = Ok s → getitem f6 l = Ok (kept (series_isin jr tech_roles) s)).
  { intros l s Hl Hs. destruct (Hnot l Hl) as (? & ? & ?). by apply Hcols. }
  eexists (S (length h)), _, f6, _, _, _, _.
  split; [exact Hrun|]. split.
  { rewrite lookup_app_r by (by rewrite length_insert; lia).
    by rewrite length_insert, Nat.sub_succ_l, Nat.sub_diag. }
  split.
  { apply Hcols; [|done..].
    unfold dropped_columns. rewrite !not_elem_of_cons.
    repeat split; [done..|apply not_elem_of_nil]. }
  split; [apply select_isin|]. split.
  { cbn [kept values]. rewrite select_isin. apply Forall_forall.
    intros c [Hc _]%list_elem_of_filter. destruct c as [x|t]; [done|].
    simpl in Hc. apply bool_decide_eq_true in Hc. by apply list_elem_of_fmap_2. }
  assert (Hin : ∀ g, g ∈ [support_remote_grade; social_isolation;
                          degree_work_life_balance] → g ∈ bucketing_functions)
    by (intros g Hg; exact Hg).
  split; [|split; [|split; [|split]]].
  { apply Hget; [rewrite !elem_of_cons; auto 10|].
    rewrite Hshape. by rewrite !getitem_setitem_ne. }
  { apply Hget; [rewrite !elem_of_cons; auto 10|].
    rewrite Hshape. rewrite !getitem_setitem_ne by done. apply getitem_setitem_eq. }
  { apply select_Forall_all. eapply series_apply_degrees; [|exact Hd1].
    apply Hin. rewrite !elem_of_cons; auto. }
  { apply select_Forall2. by apply series_apply_bucketed. }
  split; [|split; [|split; [|split]]].
  { apply Hget; [rewrite !elem_of_cons; auto 10|].
    rewrite Hshape. by rewrite !getitem_setitem_ne. }
  { apply Hget; [rewrite !elem_of_cons; auto 10|].
    rewrite Hshape. rewrite !getitem_setitem_ne by done. apply getitem_setitem_eq. }
  { apply select_Forall_all. eapply series_apply_degrees; [|exact Hd2].
    apply Hin. rewrite !elem_of_cons; auto. }
  { apply select_Forall2. by apply series_apply_bucketed. }
  split; [|split; [|split]].
  { apply Hget; [rewrite !elem_of_cons; auto 10|].
    rewrite Hshape. by rewrite !getitem_setitem_ne. }
  { apply Hget; [rewrite !elem_of_cons; auto 10|].
    rewrite Hshape. apply getitem_setitem_eq. }
  { apply select_Forall_all. eapply series_apply_degrees; [|exact Hd3].
    apply Hin. rewrite !elem_of_cons; auto. }
  { apply select_Forall2. by apply series_apply_bucketed. }
Qed.

Lemma mental_health_sample_labels_ok : mental_health_labels_ok mental_health_sample.
Proof. split; apply (bool_decide_unpack _); by vm_compute. Defined.

Lemma mental_health_sample_dropped :
  ∀ l, l ∈ dropped_columns → l ∈ columns (lower_columns mental_health_sample).
Proof. apply Forall_forall, (bool_decide_unpack _). by vm_compute. Defined.

Lemma cleaned_mental_health_rows_witness :
  ∃ cleaned h' out roles d1 d2 d3,
    df_mentalhealth_cleaning 0 [mental_health_sample] = (Ok cleaned, h') ∧
    h' !! cleaned = Some out ∧
    getitem out "job_role" = Ok roles ∧
    values roles =
      filter (λ c, is_tech_role c = true)
        (values (plain [CStr "Data Scientist"; CNum NaN; CStr "HR";
                        CStr "Project Manager"])) ∧
    Forall (λ c, c ∈ CStr <$> tech_roles) (values roles) ∧
    getitem out "company_support_for_remote_work" =
      Ok (kept (series_isin
                  (plain [CStr "Data Scientist"; CNum NaN; CStr "HR";
                          CStr "Project Manager"]) tech_roles) (ints [1; 3; 5; 4]%Z)) ∧
    getitem out "degree_of_remote_support" = Ok d1 ∧
    Forall (λ c, c ∈ degrees) (values d1) ∧
    Forall2 (bucketed support_remote_grade)
      (select (series_isin
                 (plain [CStr "Data Scientist"; CNum NaN; CStr "HR";
                         CStr "Project Manager"]) tech_roles)
         (values (ints [1; 3; 5; 4]%Z))) (values d1) ∧
    getitem out "social_isolation_rating" =
      Ok (kept (series_isin
                  (plain [CStr "Data Scientist"; CNum NaN; CStr "HR";
                          CStr "Project Manager"]) tech_roles) (ints [2; 3; 4; 5]%Z)) ∧
    getitem out "degree_of_social_isolation" = Ok d2 ∧
    Forall (λ c, c ∈ degrees) (values d2) ∧
    Forall2 (bucketed social_isolation)
      (select (series_isin
                 (plain [CStr "Data Scientist"; CNum NaN; CStr "HR";
                         CStr "Project Manager"]) tech_roles)
         (values (ints [2; 3; 4; 5]%Z))) (values d2) ∧
    getitem out "work_life_balance_rating" =
      Ok (kept (series_isin
                  (plain [CStr "Data Scientist"; CNum NaN; CStr "HR";
                          CStr "Project Manager"]) tech_roles) (ints [0; 6; 3; 2]%Z)) ∧
    getitem out "degree_of_work-life_balance" = Ok d3 ∧
    Forall (λ c, c ∈ degrees) (values d3) ∧
    Forall2 (bucketed degree_work_life_balance)
      (select (series_isin
                 (plain [CStr "Data Scientist"; CNum NaN; CStr "HR";
                         CStr "Project Manager"]) tech_roles)
         (values (ints [0; 6; 3; 2]%Z))) (values d3).
Proof.
  apply (cleaned_mental_health_rows [mental_health_sample] 0 mental_health_sample
           (ints [1; 3; 5; 4]%Z) (ints [2; 3; 4; 5]%Z) (ints [0; 6; 3; 2]%Z)
           (plain [CStr "Data Scientist"; CNum NaN; CStr "HR"; CStr "Project Manager"]));
    try reflexivity.
  - exact mental_health_sample_labels_ok.
  - exact mental_health_sample_dropped.
Defined.

Example mental_health_sample_run :
  ∃ h', df_mentalhealth_cleaning 0 [mental_health_sample] = (Ok 2%nat, h') ∧
    h' !! 2%nat =
      Some [("job_role", strs ["Data Scientist"; "Project Manager"]);
            ("work_type", strs ["Remote"; "Onsite"]);
            ("company_support_for_remote_work", ints [1; 4]%Z);
            ("social_isolation_rating", ints [2; 5]%Z);
            ("work_life_balance_rating", ints [0; 2]%Z);
            ("stress_level", strs ["Low"; "High"]);
            ("degree_of_remote_support", strs ["Low"; "High"]);
            ("degree_of_social_isolation", strs ["Low"; "High"]);
            ("degree_of_work-life_balance", strs ["Low"; "Low"])].
Proof. eexists. split; vm_compute; reflexivity. Qed.

Lemma tech_only_work_type (f3 f5 f6 : frame) (jr wl : series) :
  pruned f3 = Ok f5 → tech_only f5 = Ok f6 →
  getitem f3 "job_role" = Ok jr → "work_type" ∉ columns f3 →
  getitem f3 "work_location" = Ok wl →
  getitem f6 "work_type" = Ok (kept (series_isin jr tech_roles) wl).
Proof.
  unfold pruned, tech_only.
  intros (f4 & [-> _]%drop_Ok & [= <-])%bind_Ok (jr' & Hjr' & [= <-])%bind_Ok Hjr Hwt Hwl.
  rewrite getitem_rename_other in Hjr' by done.
  rewrite getitem_drop_ignore_notin in Hjr'
    by (unfold dropped_columns; rewrite !not_elem_of_cons;
        repeat split; [done..|apply not_elem_of_nil]).
  assert (jr' = jr) as -> by congruence.
  rewrite getitem_boolean_index.
  rewrite (getitem_rename_new "work_location" "work_type" _ wl); [done| |].
  - intros Hin. by apply columns_drop_ignore in Hin as [? _].
  - rewrite getitem_drop_ignore_notin; [done|].
    unfold dropped_columns. rewrite !not_elem_of_cons.
    repeat split; [done..|apply not_elem_of_nil].
Qed.

(** C10: the cleaner changes the table it is given.  After the call the
    caller's object holds the input with its labels lower-cased and the
    three bucket columns set, each holding row by row the bucket of its
    rating, and nothing else is different: the excluded columns are still
    there, no label was renamed and no row was removed.  The returned
    table is another object: it has neither the excluded columns nor
    work_location, its work_type column is the caller's work_location, and
    each of its columns is the caller's column with the rows whose role
    is not a tech role removed.  The other objects of the store are
    untouched. *)
Theorem cleaner_mutates_its_argument (h h' : heap) (df2 cleaned : ref) (f : frame) :
  h !! df2 = Some f →
  forallb ascii_label (columns f) = true →
  df_mentalhealth_cleaning df2 h = (Ok cleaned, h') →
  ∃ f' out d1 d2 d3 jr,
    h' !! df2 = Some f' ∧ h' !! cleaned = Some out ∧ cleaned ≠ df2 ∧
    (∀ l, l ∈ columns f' ↔ l ∈ str_lower <$> columns f ∨ l ∈ bucket_labels) ∧
    getitem f' "degree_of_remote_support" = Ok d1 ∧
    bucket_of f "company_support_for_remote_work" support_remote_grade d1 ∧
    buckets_follow f' "company_support_for_remote_work" "degree_of_remote_support"
      support_remote_grade ∧
    getitem f' "degree_of_social_isolation" = Ok d2 ∧
    bucket_of f "social_isolation_rating" social_isolation d2 ∧
    buckets_follow f' "social_isolation_rating" "degree_of_social_isolation"
      social_isolation ∧
    getitem f' "degree_of_work-life_balance" = Ok d3 ∧
    bucket_of f "work_life_balance_rating" degree_work_life_balance d3 ∧
    buckets_follow f' "work_life_balance_rating" "degree_of_work-life_balance"
      degree_work_life_balance ∧
    (∀ l s, l ∉ bucket_labels →
       getitem (lower_columns f) l = Ok s → getitem f' l = Ok s) ∧
    (∀ l, l ∈ dropped_columns → l ∈ columns f' ∧ l ∉ columns out) ∧
    ("work_location" ∉ columns out) ∧
    getitem f' "job_role" = Ok jr ∧
    getitem out "job_role" = Ok (kept (series_isin jr tech_roles) jr) ∧
    values (kept (series_isin jr tech_roles) jr) =
      filter (λ c, is_tech_role c = true) (values jr) ∧
    (∀ l s, l ∉ dropped_columns → l ≠ "work_location" → l ≠ "work_type" →
       getitem f' l = Ok s →
       getitem out l = Ok (kept (series_isin jr tech_roles) s)) ∧
    ("work_type" ∉ columns f' →
       ∀ wl, getitem f' "work_location" = Ok wl →
         getitem out "work_type" = Ok (kept (series_isin jr tech_roles) wl)) ∧
    (∀ r, r ≠ df2 → (r < length h)%nat → h' !! r = h !! r).
Proof.
  intros Hf _ Hrun.
  pose proof (df_mentalhealth_cleaning_run h df2 f Hf) as Hspec.
  destruct (with_buckets f) as [f3|e] eqn:Hf3;
    [|destruct Hspec as [? Hspec]; congruence].
  destruct (pruned f3) as [f5|e] eqn:Hf5;
    [|destruct Hspec as [? Hspec]; congruence].
  destruct (tech_only f5) as [f6|e] eqn:Hf6;
    [|destruct Hspec as [? Hspec]; congruence].
  rewrite Hrun in Hspec. injection Hspec as -> ->.
  destruct (with_buckets_Ok f f3 Hf3)
    as (r1 & r2 & r3 & d1 & d2 & d3 & H1 & Hd1 & H2 & Hd2 & H3 & Hd3 & Hshape).
  destruct (tech_only_columns f3 f5 f6 Hf5 Hf6) as (Hdropped & Hout & jr & Hjr & Hcols).
  assert (Hlt : (df2 < length h)%nat) by (by eapply lookup_lt_Some).
  assert (B1 : getitem f3 "degree_of_remote_support" = Ok d1).
  { rewrite Hshape, !getitem_setitem_ne by done. apply getitem_setitem_eq. }
  assert (B2 : getitem f3 "degree_of_social_isolation" = Ok d2).
  { rewrite Hshape, !getitem_setitem_ne by done. apply getitem_setitem_eq. }
  assert (B3 : getitem f3 "degree_of_work-life_balance" = Ok d3).
  { rewrite Hshape. apply getitem_setitem_eq. }
  assert (G1 : getitem f3 "company_support_for_remote_work" = Ok r1)
    by (by rewrite Hshape, !getitem_setitem_ne).
  assert (G2 : getitem f3 "social_isolation_rating" = Ok r2)
    by (by rewrite Hshape, !getitem_setitem_ne).
  assert (G3 : getitem f3 "work_life_balance_rating" = Ok r3)
    by (by rewrite Hshape, !getitem_setitem_ne).
  exists f3, f6, d1, d2, d3, jr.
  split.
  { rewrite lookup_app_l by (rewrite length_insert; lia).
    by apply list_lookup_insert_eq. }
  split.
  { rewrite lookup_app_r by (by rewrite length_insert; lia).
    by rewrite length_insert, Nat.sub_succ_l, Nat.sub_diag. }
  split; [lia|]. split.
  { intros l. rewrite Hshape, !columns_setitem, columns_lower_columns.
    unfold bucket_labels. rewrite !elem_of_cons, elem_of_nil. tauto. }
  split; [exact B1|]. split; [by exists r1|].
  split; [exists r1, d1; repeat split; [done..|by apply series_apply_bucketed]|].
  split; [exact B2|]. split; [by exists r2|].
  split; [exists r2, d2; repeat split; [done..|by apply series_apply_bucketed]|].
  split; [exact B3|]. split; [by exists r3|].
  split; [exists r3, d3; repeat split; [done..|by apply series_apply_bucketed]|].
  split.
  { intros l s Hl Hs. unfold bucket_labels in Hl. rewrite !not_elem_of_cons in Hl.
    destruct Hl as (? & ? & ? & _). rewrite Hshape.
    by rewrite !getitem_setitem_ne. }
  split.
  { intros l Hl. split; [by apply Hdropped|]. intros Hc. by apply Hout in Hc as []. }
  split.
  { intros Hc. by apply Hout in Hc as []. }
  split; [exact Hjr|].
  split.
  { apply Hcols; [|done..]. unfold dropped_columns. rewrite !not_elem_of_cons.
    repeat split; [done..|apply not_elem_of_nil]. }
  split; [apply select_isin|].
  split; [exact Hcols|].
  split.
  { intros Hwt wl Hwl. by apply (tech_only_work_type f3 f5 f6). }
  intros r Hr Hrh.
  rewrite lookup_app_l by (rewrite length_insert; lia).
  by apply list_lookup_insert_ne.
Qed.

Lemma cleaner_mutates_its_argument_witness :
  ∃ f' out d1 d2 d3 jr,
    mental_health_store_after !! 0%nat = Some f' ∧
    mental_health_store_after !! 2%nat = Some out ∧ 2%nat ≠ 0%nat ∧
    (∀ l, l ∈ columns f' ↔
          l ∈ str_lower <$> columns mental_health_sample ∨ l ∈ bucket_labels) ∧
    getitem f' "degree_of_remote_support" = Ok d1 ∧
    bucket_of mental_health_sample "company_support_for_remote_work"
      support_remote_grade d1 ∧
    buckets_follow f' "company_support_for_remote_work" "degree_of_remote_support"
      support_remote_grade ∧
    getitem f' "degree_of_social_isolation" = Ok d2 ∧
    bucket_of mental_health_sample "social_isolation_rating" social_isolation d2 ∧
    buckets_follow f' "social_isolation_rating" "degree_of_social_isolation"
      social_isolation ∧
    getitem f' "degree_of_work-life_balance" = Ok d3 ∧
    bucket_of mental_health_sample "work_life_balance_rating"
      degree_work_life_balance d3 ∧
    buckets_follow f' "work_life_balance_rating" "degree_of_work-life_balance"
      degree_work_life_balance ∧
    (∀ l s, l ∉ bucket_labels →
       getitem (lower_columns mental_health_sample) l = Ok s → getitem f' l = Ok s) ∧
    (∀ l, l ∈ dropped_columns → l ∈ columns f' ∧ l ∉ columns out) ∧
    ("work_location" ∉ columns out) ∧
    getitem f' "job_role" = Ok jr ∧
    getitem out "job_role" = Ok (kept (series_isin jr tech_roles) jr) ∧
    values (kept (series_isin jr tech_roles) jr) =
      filter (λ c, is_tech_role c = true) (values jr) ∧
    (∀ l s, l ∉ dropped_columns → l ≠ "work_location" → l ≠ "work_type" →
       getitem f' l = Ok s →
       getitem out l = Ok (kept (series_isin jr tech_roles) s)) ∧
    ("work_type" ∉ columns f' →
       ∀ wl, getitem f' "work_location" = Ok wl →
         getitem out "work_type" = Ok (kept (series_isin jr tech_roles) wl)) ∧
    (∀ r, r ≠ 0%nat → (r < length [mental_health_sample])%nat →
       mental_health_store_after !! r = [mental_health_sample] !! r).
Proof.
  apply (cleaner_mutates_its_argument [mental_health_sample]
           mental_health_store_after 0 2 mental_health_sample).
  - reflexivity.
  - reflexivity.
  - vm_compute. reflexivity.
Defined.

(** ** The cross-tabulation on the sample tables *)

(** C6 fails on the code: at every stress level of the sample three rows
    in six are Hybrid, two are Onsite and one is Remote, and the returned
    table shows 50 under Remote, 33.33 under Hybrid and 16.67 under Onsite.
    The column labelled Remote holds the Hybrid share, the one labelled
    Hybrid the Onsite share, the one labelled Onsite the Remote share. *)
Lemma stress_worktype_rel_mislabelled :
  stress_worktype_rel stress_sample = Ok stress_sample_table ∧
  index stress_sample_table = ["Low"; "Medium"; "High"] ∧
  Forall (λ '(i, level),
    cell_at (body stress_sample_table) "Remote" i = Some (CNum (Fin (5000 # 100))) ∧
    cell_at (body stress_sample_table) "Hybrid" i = Some (CNum (Fin (3333 # 100))) ∧
    cell_at (body stress_sample_table) "Onsite" i = Some (CNum (Fin (1667 # 100))) ∧
    share_of stress_sample level "Remote" = Ok (Fin (1667 # 100)) ∧
    share_of stress_sample level "Hybrid" = Ok (Fin (5000 # 100)) ∧
    share_of stress_sample level "Onsite" = Ok (Fin (3333 # 100)))
    [(0%nat, "Low"); (1%nat, "Medium"); (2%nat, "High")].
Proof.
  split; [vm_compute; reflexivity|]. split; [reflexivity|].
  repeat constructor; vm_compute; reflexivity.
Qed.


(** ** Distinct labels, sorting *)

Lemma unique_elem (l : list string) (x : string) : x ∈ unique l ↔ x ∈ l.
Proof.
  induction l as [|y l IH]; [done|]. cbn [unique].
  rewrite !elem_of_cons, list_elem_of_filter, IH.
  destruct (decide (x = y)); tauto.
Qed.

Lemma unique_NoDup (l : list string) : NoDup (unique l).
Proof.
  induction l as [|y l IH]; [constructor|]. cbn [unique].
  constructor.
  - rewrite list_elem_of_filter. by intros [? _].
  - by apply NoDup_filter.
Qed.

Lemma insert_sorted_perm (s : string) (l : list string) : insert_sorted s l ≡ₚ s :: l.
Proof.
  induction l as [|t l IH]; [done|]. simpl.
  destruct (String.leb s t); [done|]. by rewrite IH, Permutation_swap.
Qed.

Lemma sort_labels_perm (l : list string) : sort_labels l ≡ₚ l.
Proof.
  unfold sort_labels. induction l as [|s l IH]; [done|]. simpl.
  by rewrite insert_sorted_perm, IH.
Qed.

Lemma insert_desc_perm e (l : list (string * nat)) : insert_desc e l ≡ₚ e :: l.
Proof.
  induction l as [|e' l IH]; [done|]. simpl.
  destruct (e'.2 <=? e.2)%nat; [done|]. by rewrite IH, Permutation_swap.
Qed.

Lemma sort_desc_perm (l : list (string * nat)) : sort_desc l ≡ₚ l.
Proof.
  unfold sort_desc. induction l as [|e l IH]; [done|]. simpl.
  by rewrite insert_desc_perm, IH.
Qed.

(** ** Counting *)

Lemma value_counts_keys (x : list (option string)) :
  NoDup (value_counts x).*1 ∧ ∀ lc, lc ∈ value_counts x → (0 < lc.2)%nat.
Proof.
  unfold value_counts. set (present := omap id x). split.
  - rewrite sort_desc_perm, <-list_fmap_compose.
    rewrite (list_fmap_ext _ id (unique present)) by done.
    rewrite list_fmap_id. apply unique_NoDup.
  - intros lc. rewrite sort_desc_perm.
    intros (l & -> & Hl)%list_elem_of_fmap.
    apply (proj1 (unique_elem _ _)) in Hl. simpl.
    unfold count_of.
    assert (l ∈ filter (λ y, y = l) present) as Hin by (by apply list_elem_of_filter).
    destruct (filter (λ y, y = l) present) as [|? ?].
    + by apply elem_of_nil in Hin.
    + simpl. lia.
Qed.

Section percentages.
Local Open Scope Q_scope.

Lemma Qnat_add (n m : nat) : Qnat (n + m) == Qnat n + Qnat m.
Proof. unfold Qnat. by rewrite Nat2Z.inj_add, inject_Z_plus. Qed.

Lemma Qnat_pos (n : nat) : (0 < n)%nat → 0 < Qnat n.
Proof.
  intros H. unfold Qnat. change 0 with (inject_Z 0). rewrite <-Zlt_Qlt. lia.
Qed.

Lemma Qsum_shares (t : Q) (cs : list nat) :
  ¬ t == 0 →
  Qsum ((λ c, Qnat c / t * 100) <$> cs) == Qnat (sum_list cs) / t * 100.
Proof.
  intros Ht. induction cs as [|c cs IH]; simpl.
  - unfold Qnat. simpl. field. done.
  - rewrite IH, Qnat_add. field. done.
Qed.

Lemma sum_list_ge (counts : list (string * nat)) lc :
  lc ∈ counts → (lc.2 ≤ sum_list counts.*2)%nat.
Proof.
  induction counts as [|e counts IH]; [by intros ?%elem_of_nil|].
  rewrite fmap_cons. simpl. intros [->|H]%elem_of_cons; [lia|].
  specialize (IH H). lia.
Qed.

(** The percentages of a group are finite, carry distinct labels and, when
    there are any, add up to 100. *)
Lemma value_counts_pct_spec (x : list (option string)) :
  ∃ qp : list (string * Q),
    value_counts_pct x = (λ lq, (lq.1, Fin lq.2)) <$> qp ∧
    NoDup qp.*1 ∧ (qp ≠ [] → Qsum qp.*2 == 100).
Proof.
  destruct (value_counts_keys x) as [Hnd Hpos].
  unfold value_counts_pct. generalize dependent (value_counts x). intros counts Hnd Hpos.
  cbv zeta. set (total := sum_list counts.*2).
  assert (Htotal : ∀ lc, lc ∈ counts → ¬ Qnat total == 0).
  { intros lc Hlc. pose proof (Hpos lc Hlc) as H1.
    pose proof (sum_list_ge counts lc Hlc) as H2.
    assert (0 < total)%nat as H3 by (unfold total; lia).
    pose proof (Qnat_pos total H3). lra. }
  exists ((λ lc, (lc.1, Qnat lc.2 / Qnat total * 100)) <$> counts).
  split; [|split].
  - rewrite <-list_fmap_compose. apply list_fmap_ext. intros i [l' c'] Hi. simpl.
    destruct (Qeq_bool (Qnat total) 0) eqn:Hz; [|done].
    apply Qeq_bool_iff in Hz. destruct (Htotal (l', c')); [|done].
    by eapply list_elem_of_lookup_2.
  - rewrite <-list_fmap_compose.
    by rewrite (list_fmap_ext _ fst counts) by done.
  - intros Hne. destruct counts as [|lc counts']; [done|].
    assert (¬ Qnat total == 0) as Ht by (apply (Htotal lc); by left).
    rewrite <-list_fmap_compose.
    rewrite (list_fmap_ext _ ((λ c, Qnat c / Qnat total * 100) ∘ snd) (lc :: counts'))
      by done.
    rewrite list_fmap_compose, Qsum_shares by done.
    fold total. field. done.
Qed.

(** Looking each label of the level up in an association list and adding
    what is found gives the sum of the list. *)
Lemma Qsum_single (k : string) (w : Q) (level : list string) :
  NoDup level → k ∈ level →
  Qsum ((λ l, if decide (k = l) then w else 0) <$> level) == w.
Proof.
  induction level as [|l level IH]; [by intros _ ?%elem_of_nil|].
  intros [Hl Hnd]%NoDup_cons [->|Hk]%elem_of_cons; rewrite fmap_cons; simpl.
  - rewrite decide_True by done.
    assert (Qsum ((λ l0, if decide (l = l0) then w else 0) <$> level) == 0) as ->; [|lra].
    clear IH Hnd. induction level as [|l' level IH]; [done|].
    apply not_elem_of_cons in Hl as [? ?]. rewrite fmap_cons. simpl.
    rewrite decide_False by done. rewrite IH by done. lra.
  - rewrite decide_False by (by intros ->). rewrite IH by done. lra.
Qed.

Lemma Qsum_assoc (level : list string) (qp : list (string * Q)) :
  NoDup level → NoDup qp.*1 → (∀ k, k ∈ qp.*1 → k ∈ level) →
  Qsum ((λ l, default 0 (assoc l qp)) <$> level) == Qsum qp.*2.
Proof.
  intros Hlevel. induction qp as [|[k v] qp IH].
  - intros _ _. simpl. clear Hlevel. induction level as [|l level IH]; [done|].
    rewrite fmap_cons. simpl. rewrite IH. lra.
  - rewrite !fmap_cons. cbn [fst snd]. intros [Hk Hnd]%NoDup_cons Hsub.
    cbn [Qsum foldr]. fold (Qsum qp.*2).
    assert (Hnone : assoc k qp = None).
    { clear -Hk. induction qp as [|[k' v'] qp IH]; [done|].
      rewrite fmap_cons in Hk. apply not_elem_of_cons in Hk as [? ?].
      simpl. rewrite decide_False by done. auto. }
    assert (Hsplit : ∀ lv,
      Qsum ((λ l, default 0 (assoc l ((k, v) :: qp))) <$> lv) ==
      Qsum ((λ l, if decide (k = l) then v else 0) <$> lv) +
      Qsum ((λ l, default 0 (assoc l qp)) <$> lv)).
    { induction lv as [|l lv IHlv]; [simpl; lra|].
      rewrite !fmap_cons. simpl. rewrite IHlv.
      destruct (decide (k = l)) as [->|Hne]; [rewrite Hnone|]; simpl; lra. }
    rewrite Hsplit, Qsum_single, IH; [done|done| |done|].
    + intros k' Hk'. apply Hsub. by right.
    + apply Hsub. by left.
Qed.

Lemma round2_sum3 (a b c : Q) :
  a + b + c == 100 →
  Qabs (a + b + c - (round2 a + round2 b + round2 c)) <= 1 # 100.
Proof.
  intros Hsum. unfold round2.
  pose proof (rint_near (a * 100)) as Ha. pose proof (rint_near (b * 100)) as Hb.
  pose proof (rint_near (c * 100)) as Hc.
  apply Qabs_Qle_condition in Ha, Hb, Hc.
  set (za := rint (a * 100)) in *. set (zb := rint (b * 100)) in *.
  set (zc := rint (c * 100)) in *.
  assert (Hz : (9999 ≤ za + zb + zc ≤ 10001)%Z).
  { assert (inject_Z 9998 < inject_Z (za + zb + zc)) as Hlo.
    { rewrite !inject_Z_plus. change (inject_Z 9998) with 9998. lra. }
    assert (inject_Z (za + zb + zc) < inject_Z 10002) as Hhi.
    { rewrite !inject_Z_plus. change (inject_Z 10002) with 10002. lra. }
    rewrite <-Zlt_Qlt in Hlo, Hhi. lia. }
  destruct Hz as [Hlo Hhi]. rewrite Zle_Qle in Hlo, Hhi.
  rewrite !inject_Z_plus in Hlo, Hhi.
  change (inject_Z 9999) with 9999 in Hlo. change (inject_Z 10001) with 10001 in Hhi.
  apply Qabs_Qle_condition.
  assert (inject_Z za / 100 + inject_Z zb / 100 + inject_Z zc / 100 ==
          (inject_Z za + inject_Z zb + inject_Z zc) / 100) as -> by field.
  rewrite Hsum. split.
  - apply (Qmult_le_r _ _ 100); [lra|]. field_simplify. lra.
  - apply (Qmult_le_r _ _ 100); [lra|]. field_simplify. lra.
Qed.
End percentages.

(** ** The pivot *)

Lemma concat_level_spec (indexes : list (list string)) :
  (∀ i, i ∈ indexes → NoDup i) →
  NoDup (concat_level indexes) ∧
  ∀ i k, i ∈ indexes → k ∈ i → k ∈ concat_level indexes.
Proof.
  intros Hnd. destruct indexes as [|first rest]; simpl.
  { split; [constructor|]. by intros i k ?%elem_of_nil. }
  destruct (forallb _ rest) eqn:E.
  - split; [apply Hnd; by left|].
    intros i k [->|Hi]%elem_of_cons Hk; [done|].
    rewrite forallb_forall in E. apply list_elem_of_In, E in Hi.
    by apply bool_decide_eq_true in Hi as ->.
  - split.
    + rewrite sort_labels_perm. apply unique_NoDup.
    + intros i k Hi Hk. rewrite sort_labels_perm. apply unique_elem.
      apply list_elem_of_In, (in_concat (first :: rest)).
      exists i. split; by apply list_elem_of_In.
Qed.

Lemma assoc_fin (l : string) (qp : list (string * Q)) :
  assoc l ((λ lq, (lq.1, Fin lq.2)) <$> qp) = Fin <$> assoc l qp.
Proof.
  induction qp as [|[k v] qp IH]; [done|]. rewrite fmap_cons. simpl.
  by destruct (decide (k = l)).
Qed.

(** What the pieces of the grouped percentages look like. *)
Lemma groupby_apply_pieces (keys vals : list (option string)) :
  let s := groupby_apply keys vals value_counts_pct in
  NoDup (inner_level s) ∧
  ∀ p, p ∈ pieces s → p.2 ≠ [] →
    ∃ qp : list (string * Q),
      p.2 = (λ lq, (lq.1, Fin lq.2)) <$> qp ∧ NoDup qp.*1 ∧
      (Qsum qp.*2 == 100)%Q ∧ ∀ k, k ∈ qp.*1 → k ∈ inner_level s.
Proof.
  unfold groupby_apply. cbv zeta. cbn [pieces inner_level].
  set (ps := (λ k, (k, value_counts_pct _)) <$> _).
  assert (Hps : ∀ p, p ∈ ps → ∃ qp : list (string * Q),
            p.2 = (λ lq, (lq.1, Fin lq.2)) <$> qp ∧ NoDup qp.*1 ∧
            (qp ≠ [] → (Qsum qp.*2 == 100)%Q)).
  { intros p (k & -> & _)%list_elem_of_fmap. simpl. apply value_counts_pct_spec. }
  assert (Hkeys : ∀ (qp : list (string * Q)),
            ((λ lq, (lq.1, Fin lq.2)) <$> qp).*1 = qp.*1).
  { intros qp. rewrite <-list_fmap_compose. by apply list_fmap_ext. }
  destruct (concat_level_spec ((λ p, p.2.*1) <$> ps)) as [Hnd Hsub].
  { intros i (p & -> & Hp)%list_elem_of_fmap.
    destruct (Hps p Hp) as (qp & -> & Hq & _). by rewrite Hkeys. }
  split; [done|]. intros p Hp Hne.
  destruct (Hps p Hp) as (qp & Hqp & Hq & Hsum).
  exists qp. split; [done|]. split; [done|]. split.
  - apply Hsum. intros ->. by rewrite Hqp in Hne.
  - intros k Hk. apply (Hsub (p.2.*1)).
    + by apply (list_elem_of_fmap_2 (λ p : string * list (string * num), p.2.*1)).
    + by rewrite Hqp, Hkeys.
Qed.

Lemma position_lookup {A} (k : string) (rows : list (string * A)) (i : nat) :
  position k rows.*1 = Some i → ∃ p, rows !! i = Some p ∧ p.1 = k.
Proof.
  revert i. induction rows as [|[k' v] rows IH]; intros i; [done|].
  rewrite fmap_cons. simpl. destruct (decide (k' = k)) as [->|Hne].
  - intros [= <-]. by eexists.
  - destruct (position k rows.*1) as [j|]; [|done]. simpl. intros [= <-].
    by apply IH.
Qed.

Section row_sums.
Local Open Scope Q_scope.

Lemma val_round2 (x : num) :
  x = NaN ∨ (∃ q, x = Fin q) →
  skipna x = Fin (val x) ∧
  ∃ r, skipna (num_round2 x) = Fin r ∧ r == round2 (val x).
Proof.
  intros [->|[q ->]]; (split; [done|]); simpl.
  - by exists 0.
  - by exists (round2 q).
Qed.

Lemma row_within (xa xb xc : num) :
  (xa = NaN ∨ ∃ q, xa = Fin q) → (xb = NaN ∨ ∃ q, xb = Fin q) →
  (xc = NaN ∨ ∃ q, xc = Fin q) →
  val xa + val xb + val xc == 100 →
  (∃ t, nansum [xa; xb; xc] = Fin t ∧ t == 100) ∧
  within (1 # 100) (nansum [xa; xb; xc])
    (nansum [num_round2 xa; num_round2 xb; num_round2 xc]) = true.
Proof.
  intros Ha Hb Hc Hsum.
  destruct (val_round2 xa Ha) as (Ea & ra & Era & Hra).
  destruct (val_round2 xb Hb) as (Eb & rb & Erb & Hrb).
  destruct (val_round2 xc Hc) as (Ec & rc & Erc & Hrc).
  unfold nansum. rewrite !fmap_cons, fmap_nil, Ea, Eb, Ec, Era, Erb, Erc.
  cbn [foldl num_add]. split.
  - eexists. split; [done|]. lra.
  - cbn [within]. apply Qle_bool_iff.
    pose proof (round2_sum3 (val xa) (val xb) (val xc) Hsum) as H.
    rewrite <-Hra, <-Hrb, <-Hrc in H.
    apply Qabs_Qle_condition in H. apply Qabs_Qle_condition. split; lra.
Qed.

Lemma pivot_row (a b c : string) (p : string * list (string * num))
    (qp : list (string * Q)) :
  NoDup [a; b; c] →
  p.2 = (λ lq, (lq.1, Fin lq.2)) <$> qp → NoDup qp.*1 →
  Qsum qp.*2 == 100 → (∀ k, k ∈ qp.*1 → k ∈ [a; b; c]) →
  (∀ l, pivot_cell l p = NaN ∨ ∃ q, pivot_cell l p = Fin q) ∧
  val (pivot_cell a p) + val (pivot_cell b p) + val (pivot_cell c p) == 100.
Proof.
  intros Hnd Hp Hq Hsum Hsub.
  assert (Hcell : ∀ l, pivot_cell l p =
            match assoc l qp with Some q => Fin q | None => NaN end).
  { intros l. unfold pivot_cell. rewrite Hp, assoc_fin. by destruct (assoc l qp). }
  split.
  - intros l. rewrite Hcell. destruct (assoc l qp); eauto.
  - pose proof (Qsum_assoc [a; b; c] qp Hnd Hq Hsub) as H.
    rewrite Hsum in H. simpl in H. rewrite !Hcell.
    destruct (assoc a qp), (assoc b qp), (assoc c qp); simpl in *; lra.
Qed.
End row_sums.

(** The shape of the table [stress_worktype_rel] returns. *)
Lemma stress_worktype_rel_shape (df : frame) (out : table) :
  stress_worktype_rel df = Ok out →
  ∃ keys vals a b c p1 p2 p3,
    let s := groupby_apply keys vals value_counts_pct in
    inner_level s = [a; b; c] ∧
    Forall (λ p, p ∈ pieces s ∧ p.2 ≠ []) [p1; p2; p3] ∧
    out = Table ["Low"; "Medium"; "High"]
      [("Remote", plain ((λ p, CNum (num_round2 (pivot_cell a p))) <$> [p1; p2; p3]));
       ("Hybrid", plain ((λ p, CNum (num_round2 (pivot_cell b p))) <$> [p1; p2; p3]));
       ("Onsite", plain ((λ p, CNum (num_round2 (pivot_cell c p))) <$> [p1; p2; p3]));
       ("Total",
        plain ((λ p, CNum (nansum [pivot_cell a p; pivot_cell b p; pivot_cell c p]))
                 <$> [p1; p2; p3]))].
Proof.
  unfold stress_worktype_rel. intros H.
  apply bind_Ok in H as (stress & _ & H). apply bind_Ok in H as (work & _ & H).
  apply bind_Ok in H as (keys & _ & H). apply bind_Ok in H as (vals & _ & H).
  cbv zeta in H. set (s := groupby_apply keys vals value_counts_pct) in H.
  unfold unstack in H. cbn [index body] in H.
  set (rows := filter (λ p, p.2 ≠ []) (pieces s)) in H.
  apply bind_Ok in H as (cols & Hcols & H).
  unfold set_columns in Hcols.
  destruct (decide _) as [Hlen|]; [|done]. rewrite length_fmap in Hlen.
  destruct (inner_level s) as [|a [|b [|c [|? ?]]]] eqn:Hlevel; try discriminate Hlen.
  injection Hcols as <-. clear Hlen.
  apply bind_Ok in H as (t & Hloc & H). unfold loc in Hloc.
  apply bind_Ok in Hloc as (ps & Hps & [= <-]). cbn [index] in Hps.
  cbn [traverse] in Hps.
  destruct (position "Low" rows.*1) as [i1|] eqn:E1; [|done].
  destruct (position "Medium" rows.*1) as [i2|] eqn:E2; [|done].
  destruct (position "High" rows.*1) as [i3|] eqn:E3; [|done].
  rewrite !Ok_bind in Hps. injection Hps as <-.
  apply position_lookup in E1 as (p1 & Hp1 & _).
  apply position_lookup in E2 as (p2 & Hp2 & _).
  apply position_lookup in E3 as (p3 & Hp3 & _).
  cbn [index body] in H.
  assert (Homap : ∀ l,
    omap (λ i, ((λ p : string * list (string * num), CNum (default NaN (assoc l p.2)))
                  <$> rows) !! i) [i1; i2; i3] =
    [CNum (pivot_cell l p1); CNum (pivot_cell l p2); CNum (pivot_cell l p3)]).
  { intros l. cbn [omap list_omap]. by rewrite !list_lookup_fmap, Hp1, Hp2, Hp3. }
  rewrite !Homap in H. clear Homap.
  cbn -[pivot_cell nansum num_round2] in H.
  rewrite !decide_False in H by done.
  cbn -[pivot_cell nansum num_round2] in H.
  rewrite (bool_decide_true ("Remote" ∈ _)) in H by (rewrite !elem_of_cons; auto).
  rewrite (bool_decide_true ("Hybrid" ∈ _)) in H by (rewrite !elem_of_cons; auto).
  rewrite (bool_decide_true ("Onsite" ∈ _)) in H by (rewrite !elem_of_cons; auto).
  rewrite (bool_decide_false ("Total" ∈ _)) in H
    by (rewrite !not_elem_of_cons; repeat split; [done..|apply not_elem_of_nil]).
  cbn -[pivot_cell nansum num_round2] in H. injection H as <-.
  exists keys, vals, a, b, c, p1, p2, p3. cbv zeta. fold s.
  split; [done|]. split; [|done].
  repeat constructor;
    match goal with
    | |- ?p ∈ pieces s =>
        assert (p ∈ rows) as [_ ?]%list_elem_of_filter
          by (by eapply list_elem_of_lookup_2); done
    | |- ?p.2 ≠ [] =>
        assert (p ∈ rows) as [? _]%list_elem_of_filter
          by (by eapply list_elem_of_lookup_2); done
    end.
Qed.

(** In exact arithmetic: the rows of the table [stress_worktype_rel]
    returns are Low, Medium, High; each has its four cells; the Total is
    100; and the Total is within 0.01 of the sum of the three rounded
    percentages, a missing one being skipped. *)
Lemma stress_worktype_rel_rows (df : frame) (out : table) :
  stress_worktype_rel df = Ok out →
  index out = ["Low"; "Medium"; "High"] ∧
  (∀ i, (i < 3)%nat → ∃ r h o t,
     cell_at (body out) "Remote" i = Some (CNum r) ∧
     cell_at (body out) "Hybrid" i = Some (CNum h) ∧
     cell_at (body out) "Onsite" i = Some (CNum o) ∧
     cell_at (body out) "Total" i = Some (CNum t)) ∧
  (∀ i t, cell_at (body out) "Total" i = Some (CNum t) →
     ∃ q, t = Fin q ∧ (q == 100)%Q) ∧
  row_sums_hold skipna_sum out.
Proof.
  intros (keys & vals & a & b & c & p1 & p2 & p3 & Hlevel & Hps & ->)
    %stress_worktype_rel_shape.
  cbv zeta in *.
  destruct (groupby_apply_pieces keys vals) as [Hnd Hpieces].
  cbv zeta in Hnd, Hpieces. rewrite Hlevel in Hnd, Hpieces.
  assert (Hrow : ∀ p, p ∈ [p1; p2; p3] →
    (∃ t, nansum [pivot_cell a p; pivot_cell b p; pivot_cell c p] = Fin t ∧
          (t == 100)%Q) ∧
    within (1 # 100) (nansum [pivot_cell a p; pivot_cell b p; pivot_cell c p])
      (nansum [num_round2 (pivot_cell a p); num_round2 (pivot_cell b p);
               num_round2 (pivot_cell c p)]) = true).
  { intros p Hp. rewrite Forall_forall in Hps. destruct (Hps p Hp) as [Hin Hne].
    destruct (Hpieces p Hin Hne) as (qp & Hqp & Hq & Hsum & Hsub).
    destruct (pivot_row a b c p qp Hnd Hqp Hq Hsum Hsub) as [Hcells H100].
    by apply row_within. }
  assert (H1 := Hrow p1). assert (H2 := Hrow p2). assert (H3 := Hrow p3).
  destruct H1 as [(t1 & Ht1 & Hq1) W1]; [rewrite !elem_of_cons; auto|].
  destruct H2 as [(t2 & Ht2 & Hq2) W2]; [rewrite !elem_of_cons; auto|].
  destruct H3 as [(t3 & Ht3 & Hq3) W3]; [rewrite !elem_of_cons; auto|].
  clear Hrow Hpieces Hps.
  assert (Hcell : ∀ l i,
    l ∈ ["Remote"; "Hybrid"; "Onsite"; "Total"] →
    cell_at
      [("Remote", plain ((λ p, CNum (num_round2 (pivot_cell a p))) <$> [p1; p2; p3]));
       ("Hybrid", plain ((λ p, CNum (num_round2 (pivot_cell b p))) <$> [p1; p2; p3]));
       ("Onsite", plain ((λ p, CNum (num_round2 (pivot_cell c p))) <$> [p1; p2; p3]));
       ("Total",
        plain ((λ p, CNum (nansum [pivot_cell a p; pivot_cell b p; pivot_cell c p]))
                 <$> [p1; p2; p3]))] l i =
    (λ p, CNum
       (if decide (l = "Remote") then num_round2 (pivot_cell a p)
        else if decide (l = "Hybrid") then num_round2 (pivot_cell b p)
        else if decide (l = "Onsite") then num_round2 (pivot_cell c p)
        else nansum [pivot_cell a p; pivot_cell b p; pivot_cell c p]))
      <$> [p1; p2; p3] !! i).
  { intros l i Hl. rewrite !elem_of_cons, elem_of_nil in Hl.
    unfold cell_at. cbn [getitem].
    destruct Hl as [->|[->|[->|[->|[]]]]];
      rewrite ?decide_True, ?decide_False by done;
      cbn [values plain]; by destruct i as [|[|[|i]]]. }
  cbn [index body]. split; [done|]. split; [|split].
  - intros i Hi. rewrite !Hcell by (rewrite !elem_of_cons; auto 10).
    destruct i as [|[|[|i]]]; [| | |lia]; cbn; by eexists _, _, _, _.
  - intros i t. rewrite Hcell by (rewrite !elem_of_cons; auto 10).
    destruct i as [|[|[|i]]]; cbn; [| | |done]; intros [= <-]; eauto.
  - intros i r h o t. rewrite !Hcell by (rewrite !elem_of_cons; auto 10).
    unfold skipna_sum.
    destruct i as [|[|[|i]]]; cbn -[nansum within]; [| | |done];
      intros [= <-] [= <-] [= <-] [= <-]; done.
Qed.




(** Every Total of the table [stress_worktype_rel] returns is 100, up to
    the rounding errors of the three shares it adds. *)
Theorem stress_worktype_rel_totals (df : frame) (out : table) :
  stress_worktype_rel df = Ok out →
  index out = ["Low"; "Medium"; "High"] ∧
  ∀ i, (i < 3)%nat →
    ∃ t, cell_at (body out) "Total" i = Some (CNum t) ∧ near (1 # 1000) t 100.
Proof.
  intros (Hindex & Hcells & Htotal & _)%stress_worktype_rel_rows.
  split; [done|]. intros i Hi.
  destruct (Hcells i Hi) as (r & h & o & t & _ & _ & _ & Ht).
  exists t. split; [done|].
  destruct (Htotal i t Ht) as (q & -> & Hq). exists q. split; [done|].
  rewrite Hq. done.
Qed.

Lemma stress_worktype_rel_totals_witness :
  index stress_sample_table = ["Low"; "Medium"; "High"] ∧
  ∀ i, (i < 3)%nat →
    ∃ t, cell_at (body stress_sample_table) "Total" i = Some (CNum t) ∧
         near (1 # 1000) t 100.
Proof.
  apply (stress_worktype_rel_totals stress_sample stress_sample_table).
  vm_compute. reflexivity.
Defined.

(** * Further properties *)

(** ** The mental-health cleaner: buckets and ratings stay aligned *)

(** In the table the cleaner returns each bucket column is, row by row,
    the bucket of the rating column it was computed from: the filter on
    the role keeps them aligned.  In particular a row whose rating is
    missing is in the High bucket. *)
Theorem cleaned_buckets_follow_ratings (h h' : heap) (df2 cleaned : ref) (f : frame) :
  h !! df2 = Some f →
  df_mentalhealth_cleaning df2 h = (Ok cleaned, h') →
  ∃ out, h' !! cleaned = Some out ∧
    buckets_follow out "company_support_for_remote_work" "degree_of_remote_support"
      support_remote_grade ∧
    buckets_follow out "social_isolation_rating" "degree_of_social_isolation"
      social_isolation ∧
    buckets_follow out "work_life_balance_rating" "degree_of_work-life_balance"
      degree_work_life_balance ∧
    ∀ rating degree g, g ∈ bucketing_functions → buckets_follow out rating degree g →
      ∃ r d, getitem out rating = Ok r ∧ getitem out degree = Ok d ∧
        ∀ i, values r !! i = Some (CNum NaN) → values d !! i = Some (CStr "High").
Proof.
  intros Hf Hrun.
  pose proof (df_mentalhealth_cleaning_run h df2 f Hf) as Hspec.
  destruct (with_buckets f) as [f3|e] eqn:Hf3;
    [|destruct Hspec as [? Hspec]; congruence].
  destruct (pruned f3) as [f5|e] eqn:Hf5;
    [|destruct Hspec as [? Hspec]; congruence].
  destruct (tech_only f5) as [f6|e] eqn:Hf6;
    [|destruct Hspec as [? Hspec]; congruence].
  rewrite Hrun in Hspec. injection Hspec as -> ->.
  destruct (with_buckets_Ok f f3 Hf3)
    as (r1 & r2 & r3 & d1 & d2 & d3 & H1 & Hd1 & H2 & Hd2 & H3 & Hd3 & Hshape).
  destruct (tech_only_columns f3 f5 f6 Hf5 Hf6) as (_ & _ & jr & _ & Hcols).
  exists f6. split.
  { rewrite lookup_app_r by (by rewrite length_insert; lia).
    by rewrite length_insert, Nat.sub_succ_l, Nat.sub_diag. }
  assert (Hnot : ∀ l, l ∈ ["company_support_for_remote_work"; "social_isolation_rating";
                           "work_life_balance_rating"; "degree_of_remote_support";
                           "degree_of_social_isolation"; "degree_of_work-life_balance"] →
            (l ∉ dropped_columns) ∧ l ≠ "work_location" ∧ l ≠ "work_type").
  { intros l Hl. rewrite !elem_of_cons, elem_of_nil in Hl. unfold dropped_columns.
    destruct Hl as [->|[->|[->|[->|[->|[->|[]]]]]]]; rewrite !not_elem_of_cons;
      repeat split; done || apply not_elem_of_nil. }
  assert (Hget : ∀ l s, l ∈ ["company_support_for_remote_work"; "social_isolation_rating";
                             "work_life_balance_rating"; "degree_of_remote_support";
                             "degree_of_social_isolation"; "degree_of_work-life_balance"] →
            getitem f3 l = Ok s → getitem f6 l = Ok (kept (series_isin jr tech_roles) s)).
  { intros l s Hl Hs. destruct (Hnot l Hl) as (? & ? & ?). by apply Hcols. }
  split; [|split; [|split]].
  - exists (kept (series_isin jr tech_roles) r1), (kept (series_isin jr tech_roles) d1).
    split; [|split].
    + apply Hget; [rewrite !elem_of_cons; auto 10|].
      rewrite Hshape. by rewrite !getitem_setitem_ne.
    + apply Hget; [rewrite !elem_of_cons; auto 10|].
      rewrite Hshape. rewrite !getitem_setitem_ne by done. apply getitem_setitem_eq.
    + apply select_Forall2. by apply series_apply_bucketed.
  - exists (kept (series_isin jr tech_roles) r2), (kept (series_isin jr tech_roles) d2).
    split; [|split].
    + apply Hget; [rewrite !elem_of_cons; auto 10|].
      rewrite Hshape. by rewrite !getitem_setitem_ne.
    + apply Hget; [rewrite !elem_of_cons; auto 10|].
      rewrite Hshape. rewrite !getitem_setitem_ne by done. apply getitem_setitem_eq.
    + apply select_Forall2. by apply series_apply_bucketed.
  - exists (kept (series_isin jr tech_roles) r3), (kept (series_isin jr tech_roles) d3).
    split; [|split].
    + apply Hget; [rewrite !elem_of_cons; auto 10|].
      rewrite Hshape. by rewrite !getitem_setitem_ne.
    + apply Hget; [rewrite !elem_of_cons; auto 10|].
      rewrite Hshape. apply getitem_setitem_eq.
    + apply select_Forall2. by apply series_apply_bucketed.
  - intros rating degree g Hg (r & d & Hr & Hd & Hall). exists r, d.
    split; [done|]. split; [done|]. intros i Hi.
    destruct (Forall2_lookup_l _ _ _ _ _ Hall Hi) as (b & Hb & Hbucket).
    rewrite Hb. f_equal. by eapply bucketed_missing.
Qed.

Lemma cleaned_buckets_follow_ratings_witness :
  ∃ out, mental_health_missing_rating_store_after !! 2%nat = Some out ∧
    buckets_follow out "company_support_for_remote_work" "degree_of_remote_support"
      support_remote_grade ∧
    buckets_follow out "social_isolation_rating" "degree_of_social_isolation"
      social_isolation ∧
    buckets_follow out "work_life_balance_rating" "degree_of_work-life_balance"
      degree_work_life_balance ∧
    ∀ rating degree g, g ∈ bucketing_functions → buckets_follow out rating degree g →
      ∃ r d, getitem out rating = Ok r ∧ getitem out degree = Ok d ∧
        ∀ i, values r !! i = Some (CNum NaN) → values d !! i = Some (CStr "High").
Proof.
  apply (cleaned_buckets_follow_ratings [mental_health_sample_missing_rating]
           mental_health_missing_rating_store_after 0 2
           mental_health_sample_missing_rating).
  - reflexivity.
  - vm_compute. reflexivity.
Defined.

(** ** The mental-health cleaner: a second call, a failed call *)

Lemma lower_ascii_idemp (a : Ascii.ascii) : lower_ascii (lower_ascii a) = lower_ascii a.
Proof. by destruct a as [[] [] [] [] [] [] [] []]. Qed.

Lemma str_lower_idemp (s : string) : str_lower (str_lower s) = str_lower s.
Proof. induction s as [|a s IH]; [done|]. simpl. by rewrite lower_ascii_idemp, IH. Qed.

Lemma lower_columns_id (g : frame) :
  (∀ k, k ∈ columns g → str_lower k = k) → lower_columns g = g.
Proof.
  unfold lower_columns, columns. induction g as [|[k c] g IH]; [done|].
  rewrite !fmap_cons. simpl. intros H. rewrite (H k) by (by left).
  f_equal. apply IH. intros k' Hk'. apply H. by right.
Qed.

Lemma setitem_same (g : frame) l s : getitem g l = Ok s → setitem g l s = g.
Proof.
  induction g as [|[k c] g IH]; simpl; [done|].
  destruct (decide (k = l)) as [->|Hne]; [by intros [= ->]|].
  intros H. by rewrite IH.
Qed.

(** What the first call left in the caller's object is a fixed point of
    the in-place part of the cleaner. *)
Lemma with_buckets_again (f f3 : frame) :
  with_buckets f = Ok f3 → with_buckets f3 = Ok f3.
Proof.
  intros Hf3.
  destruct (with_buckets_Ok f f3 Hf3)
    as (r1 & r2 & r3 & d1 & d2 & d3 & H1 & Hd1 & H2 & Hd2 & H3 & Hd3 & Hshape).
  assert (Hlow : lower_columns f3 = f3).
  { apply lower_columns_id. intros k. rewrite Hshape, !columns_setitem.
    rewrite columns_lower_columns.
    intros [->|[->|[->|(k' & -> & _)%list_elem_of_fmap]]]; try done.
    apply str_lower_idemp. }
  assert (G1 : getitem f3 "company_support_for_remote_work" = Ok r1)
    by (by rewrite Hshape, !getitem_setitem_ne).
  assert (G2 : getitem f3 "social_isolation_rating" = Ok r2)
    by (by rewrite Hshape, !getitem_setitem_ne).
  assert (G3 : getitem f3 "work_life_balance_rating" = Ok r3)
    by (by rewrite Hshape, !getitem_setitem_ne).
  assert (B1 : getitem f3 "degree_of_remote_support" = Ok d1).
  { rewrite Hshape, !getitem_setitem_ne by done. apply getitem_setitem_eq. }
  assert (B2 : getitem f3 "degree_of_social_isolation" = Ok d2).
  { rewrite Hshape, !getitem_setitem_ne by done. apply getitem_setitem_eq. }
  assert (B3 : getitem f3 "degree_of_work-life_balance" = Ok d3).
  { rewrite Hshape. apply getitem_setitem_eq. }
  unfold with_buckets. rewrite set_columns_lower, Ok_bind, Hlow.
  rewrite G1, Ok_bind, Hd1, Ok_bind. cbv zeta.
  rewrite (setitem_same f3 _ _ B1), G2, Ok_bind, Hd2, Ok_bind.
  rewrite (setitem_same f3 _ _ B2), G3, Ok_bind, Hd3, Ok_bind.
  by rewrite (setitem_same f3 _ _ B3).
Qed.

(** The orchestrating script calls the cleaner twice on the same object.
    Whenever the first call returns, so does the second; it returns a
    table equal to the first one and leaves every object of the store,
    the caller's included, as the first call left it. *)
Theorem cleaner_second_call (h h1 : heap) (df2 c1 : ref) (f : frame) :
  h !! df2 = Some f →
  df_mentalhealth_cleaning df2 h = (Ok c1, h1) →
  ∃ c2 h2,
    df_mentalhealth_cleaning df2 h1 = (Ok c2, h2) ∧
    c2 ≠ c1 ∧ h2 !! c2 = h1 !! c1 ∧
    ∀ r, (r < length h1)%nat → h2 !! r = h1 !! r.
Proof.
  intros Hf Hrun.
  pose proof (df_mentalhealth_cleaning_run h df2 f Hf) as Hspec.
  destruct (with_buckets f) as [f3|e] eqn:Hf3;
    [|destruct Hspec as [? Hspec]; congruence].
  destruct (pruned f3) as [f5|e] eqn:Hf5;
    [|destruct Hspec as [? Hspec]; congruence].
  destruct (tech_only f5) as [f6|e] eqn:Hf6;
    [|destruct Hspec as [? Hspec]; congruence].
  rewrite Hrun in Hspec. injection Hspec as -> ->.
  assert (Hlt : (df2 < length h)%nat) by (by eapply lookup_lt_Some).
  set (h1 := <[df2 := f3]> h ++ [f5; f6]).
  assert (H3 : h1 !! df2 = Some f3).
  { unfold h1. rewrite lookup_app_l by (rewrite length_insert; lia).
    by apply list_lookup_insert_eq. }
  pose proof (df_mentalhealth_cleaning_run h1 df2 f3 H3) as Hspec.
  rewrite (with_buckets_again f f3 Hf3), Hf5, Hf6 in Hspec.
  rewrite (list_insert_id h1 df2 f3 H3) in Hspec.
  assert (Hlen : length h1 = S (S (length h))).
  { unfold h1. rewrite length_app, length_insert. simpl. lia. }
  exists (S (length h1)), (h1 ++ [f5; f6]). split; [done|]. split; [lia|]. split.
  - rewrite lookup_app_r by lia.
    replace (S (length h1) - length h1)%nat with 1%nat by lia.
    unfold h1. rewrite lookup_app_r by (rewrite length_insert; lia).
    by rewrite length_insert, Nat.sub_succ_l, Nat.sub_diag.
  - intros r Hr. by rewrite lookup_app_l.
Qed.

Lemma cleaner_second_call_witness :
  ∃ c2 h2,
    df_mentalhealth_cleaning 0 mental_health_store_after = (Ok c2, h2) ∧
    c2 ≠ 2%nat ∧ h2 !! c2 = mental_health_store_after !! 2%nat ∧
    ∀ r, (r < length mental_health_store_after)%nat →
         h2 !! r = mental_health_store_after !! r.
Proof.
  apply (cleaner_second_call [mental_health_sample] mental_health_store_after 0 2
           mental_health_sample).
  - reflexivity.
  - vm_compute. reflexivity.
Defined.

(** The cleaner up to a failing drop: the store it leaves behind. *)
Lemma df_mentalhealth_cleaning_drop_raises (h : heap) (df2 : ref) (f f3 : frame) e :
  h !! df2 = Some f → with_buckets f = Ok f3 → drop dropped_columns f3 = Err e →
  df_mentalhealth_cleaning df2 h = (Err e, <[df2 := f3]> h).
Proof.
  intros Hf Hf3 Hdrop.
  destruct (with_buckets_Ok f f3 Hf3)
    as (r1 & r2 & r3 & d1 & d2 & d3 & H1 & Hd1 & H2 & Hd2 & H3 & Hd3 & Hshape).
  unfold df_mentalhealth_cleaning.
  rewrite (bind_load _ _ _ Hf), (bind_set_columns _ _ _ Hf), set_columns_lower.
  set (f0 := lower_columns f) in *.
  pose proof (heap_insert_lookup h df2 f Hf f0) as G0.
  rewrite (bind_getitem _ _ _ G0), H1, bind_lift, Hd1.
  rewrite (bind_setitem _ _ _ G0), list_insert_insert_eq.
  set (f1 := setitem f0 "degree_of_remote_support" d1) in *.
  pose proof (heap_insert_lookup h df2 f Hf f1) as G1.
  rewrite (bind_getitem _ _ _ G1). unfold f1 at 1.
  rewrite getitem_setitem_ne, H2, bind_lift, Hd2 by done.
  rewrite (bind_setitem _ _ _ G1), list_insert_insert_eq.
  set (f2 := setitem f1 "degree_of_social_isolation" d2) in *.
  pose proof (heap_insert_lookup h df2 f Hf f2) as G2.
  rewrite (bind_getitem _ _ _ G2). unfold f2 at 1, f1 at 1.
  rewrite !getitem_setitem_ne, H3, bind_lift, Hd3 by done.
  rewrite (bind_setitem _ _ _ G2), list_insert_insert_eq, <-Hshape.
  pose proof (heap_insert_lookup h df2 f Hf f3) as G3.
  by rewrite (bind_drop _ _ _ G3), Hdrop.
Qed.

(** The drop of the excluded columns does not ignore a missing one.  On
    a table with numeric ratings from which an excluded column is absent
    the cleaner raises a KeyError naming an absent excluded column; no new
    object is made, and the caller's table has been changed all the same:
    its labels are lower-cased and it carries the three bucket columns. *)
Theorem failed_drop_leaves_input_changed (h : heap) (df2 : ref) (f : frame)
    (r1 r2 r3 : series) (l : string) :
  h !! df2 = Some f →
  getitem (lower_columns f) "company_support_for_remote_work" = Ok r1 →
  getitem (lower_columns f) "social_isolation_rating" = Ok r2 →
  getitem (lower_columns f) "work_life_balance_rating" = Ok r3 →
  forallb is_num (values r1) = true → forallb is_num (values r2) = true →
  forallb is_num (values r3) = true →
  l ∈ dropped_columns → l ∉ columns (lower_columns f) →
  ∃ l' f' h',
    df_mentalhealth_cleaning df2 h = (Err (KeyError l'), h') ∧
    l' ∈ dropped_columns ∧ (l' ∉ columns (lower_columns f)) ∧
    length h' = length h ∧ h' !! df2 = Some f' ∧
    (∀ k, k ∈ columns f' ↔ k ∈ columns (lower_columns f) ∨ k ∈ bucket_labels) ∧
    (∀ r, r ≠ df2 → h' !! r = h !! r).
Proof.
  intros Hf H1 H2 H3 N1 N2 N3 Hl Habs.
  destruct (with_buckets_numeric f r1 r2 r3 H1 H2 H3 N1 N2 N3) as [f3 Hf3].
  destruct (with_buckets_Ok f f3 Hf3)
    as (? & ? & ? & d1 & d2 & d3 & _ & _ & _ & _ & _ & _ & Hshape).
  assert (Hcols : ∀ k, k ∈ columns f3 ↔ k ∈ columns (lower_columns f) ∨ k ∈ bucket_labels).
  { intros k. rewrite Hshape, !columns_setitem. unfold bucket_labels.
    rewrite !elem_of_cons, elem_of_nil. tauto. }
  assert (Hdisj : ∀ k, k ∈ dropped_columns → k ∉ bucket_labels).
  { intros k Hk. unfold dropped_columns in Hk. rewrite !elem_of_cons, elem_of_nil in Hk.
    unfold bucket_labels.
    destruct Hk as [->|[->|[->|[->|[->|[->|[->|[]]]]]]]]; rewrite !not_elem_of_cons;
      repeat split; done || apply not_elem_of_nil. }
  destruct (drop dropped_columns f3) as [f4|e] eqn:Hdrop.
  { apply drop_Ok in Hdrop as [_ Hall]. destruct Habs.
    pose proof (Hdisj l Hl) as Hnb.
    apply Hall, Hcols in Hl as [?|Hl']; [done|]. by destruct Hnb. }
  assert (He : ∃ l', e = KeyError l' ∧ l' ∈ dropped_columns ∧ l' ∉ columns f3).
  { unfold drop in Hdrop.
    destruct (filter (λ l0, l0 ∉ columns f3) dropped_columns) as [|l' ls] eqn:E; [done|].
    injection Hdrop as <-. exists l'. split; [done|].
    assert (l' ∈ filter (λ l0, l0 ∉ columns f3) dropped_columns) as Hin
      by (rewrite E; by left).
    by apply list_elem_of_filter in Hin as [? ?]. }
  destruct He as (l' & -> & Hl' & Hn').
  exists l', f3, (<[df2 := f3]> h).
  split; [by apply (df_mentalhealth_cleaning_drop_raises h df2 f f3)|].
  split; [done|]. split; [intros Hc; apply Hn', Hcols; by left|].
  split; [apply length_insert|]. split; [by apply (heap_insert_lookup h df2 f)|].
  split; [done|]. intros r Hr. by apply list_lookup_insert_ne.
Qed.

Lemma failed_drop_leaves_input_changed_witness :
  ∃ l' f' h',
    df_mentalhealth_cleaning 0 [mental_health_sample_no_region] =
      (Err (KeyError l'), h') ∧
    l' ∈ dropped_columns ∧
    (l' ∉ columns (lower_columns mental_health_sample_no_region)) ∧
    length h' = length [mental_health_sample_no_region] ∧ h' !! 0%nat = Some f' ∧
    (∀ k, k ∈ columns f' ↔
          k ∈ columns (lower_columns mental_health_sample_no_region) ∨
          k ∈ bucket_labels) ∧
    (∀ r, r ≠ 0%nat → h' !! r = [mental_health_sample_no_region] !! r).
Proof.
  apply (failed_drop_leaves_input_changed [mental_health_sample_no_region] 0
           mental_health_sample_no_region
           (plain [CNum NaN; int 2]) (ints [2; 3]%Z) (ints [4; 1]%Z) "region");
    try reflexivity.
  - unfold dropped_columns. rewrite !elem_of_cons. auto 10.
  - apply (bool_decide_unpack _). by vm_compute.
Defined.

(** ** The productivity cleaner: shape of the result *)

Lemma columns_setitem_in (g : frame) l s :
  l ∈ columns g → columns (setitem g l s) = columns g.
Proof.
  unfold columns. induction g as [|[k c] g IH]; [by intros ?%elem_of_nil|].
  rewrite fmap_cons. simpl. destruct (decide (k = l)) as [->|Hne]; [done|].
  intros [?|H]%elem_of_cons; [done|]. rewrite fmap_cons. simpl. by rewrite IH.
Qed.

Lemma columns_setitem_notin (g : frame) l s :
  l ∉ columns g → columns (setitem g l s) = columns g ++ [l].
Proof.
  unfold columns. induction g as [|[k c] g IH]; [done|].
  rewrite fmap_cons. simpl. intros [? H]%not_elem_of_cons.
  rewrite decide_False by done. rewrite fmap_cons. simpl. by rewrite IH.
Qed.

Lemma columns_drop_ignore_eq ls (g : frame) :
  columns (drop_ignore ls g) = filter (λ k, k ∉ ls) (columns g).
Proof.
  unfold columns, drop_ignore. induction g as [|[k c] g IH]; [done|].
  rewrite fmap_cons, !filter_cons. simpl.
  destruct (decide (k ∉ ls)); [rewrite fmap_cons; simpl|]; by rewrite IH.
Qed.

Lemma columns_rename old new (g : frame) :
  columns (rename old new g) = (λ k, if decide (k = old) then new else k) <$> columns g.
Proof.
  unfold columns, rename. rewrite <-!list_fmap_compose. by apply list_fmap_ext.
Qed.

(** The table the cleaner returns, written out. *)
Lemma cleaning_productivity_data_shape df department frequency motivation :
  productivity_labels_ok df →
  getitem df "Department" = Ok department →
  getitem df "Remote_Work_Frequency" = Ok frequency →
  motivation_column (keep_mask department frequency) df = Ok motivation →
  cleaning_productivity_data df =
    Ok (setitem
          (rename "remote_work_frequency" "work_type"
             (lower_columns (scored (keep_mask department frequency) frequency
                               motivation df)))
          "work_type"
          (categorical
             (series_replace work_type_labels
                (kept (keep_mask department frequency) frequency))
             ["Remote"; "Hybrid"; "Onsite"] true)).
Proof.
  intros Hok Hd Hf Hm. set (mask := keep_mask department frequency) in *.
  rewrite cleaning_productivity_data_unfold, Hd, Hf, !Ok_bind. cbv zeta. fold mask.
  rewrite Hm, Ok_bind.
  destruct (scored_labels mask frequency motivation df Hok) as [Hinj Hwt];
    [by eapply getitem_columns|].
  unfold finish. rewrite set_columns_lower, Ok_bind. cbv zeta.
  assert (getitem (rename "remote_work_frequency" "work_type"
                     (lower_columns (scored mask frequency motivation df)))
            "work_type" =
          Ok (series_replace work_type_labels (kept mask frequency))) as ->; [|done].
  apply getitem_rename_new; [by rewrite columns_lower_columns|].
  apply (getitem_lower_columns _ "Remote_Work_Frequency").
  - intros k Hk. apply Hinj; [done|]. unfold scored.
    rewrite columns_setitem, columns_drop_ignore, columns_setitem. right.
    split; [by left|].
    rewrite !not_elem_of_cons. repeat split; [done..|apply not_elem_of_nil].
  - unfold scored. by getitem_simpl.
Qed.

Lemma cleaning_productivity_data_Ok df out :
  cleaning_productivity_data df = Ok out →
  ∃ department frequency motivation,
    getitem df "Department" = Ok department ∧
    getitem df "Remote_Work_Frequency" = Ok frequency ∧
    motivation_column (keep_mask department frequency) df = Ok motivation.
Proof.
  rewrite cleaning_productivity_data_unfold.
  intros (department & Hd & (frequency & Hf & H)%bind_Ok)%bind_Ok.
  cbv zeta in H. apply bind_Ok in H as (motivation & Hm & _).
  by exists department, frequency, motivation.
Qed.

(** The labels of the table the cleaner returns. *)
Lemma cleaning_productivity_data_labels (df out : frame) :
  productivity_labels_ok df →
  cleaning_productivity_data df = Ok out →
  columns out =
    (cleaned_label <$>
       filter (λ k, k ∉ ["Employee_ID"; "Hire_Date"; "Team_Size";
                         "Promotions_Normalized"; "Training_Hours_Normalized"])
         (columns df)) ++ ["motivation_score"].
Proof.
  intros Hok Hout.
  destruct (cleaning_productivity_data_Ok df out Hout)
    as (department & frequency & motivation & Hd & Hf & Hm).
  rewrite (cleaning_productivity_data_shape df _ _ _ Hok Hd Hf Hm) in Hout.
  injection Hout as <-. set (mask := keep_mask department frequency).
  assert (Hrwf : "Remote_Work_Frequency" ∈ columns df) by (by eapply getitem_columns).
  assert (Hcols : columns (scored mask frequency motivation df) =
            filter (λ k, k ∉ ["Employee_ID"; "Hire_Date"; "Team_Size";
                              "Promotions_Normalized"; "Training_Hours_Normalized"])
              (columns df) ++ ["Motivation_Score"]).
  { unfold scored. rewrite columns_setitem_notin.
    - f_equal. rewrite columns_drop_ignore_eq, columns_setitem_in.
      + rewrite columns_boolean_index, columns_drop_ignore_eq, list_filter_filter.
        apply list_filter_iff. intros k. rewrite !not_elem_of_cons. tauto.
      + rewrite columns_boolean_index. apply columns_drop_ignore. split; [done|].
        rewrite !not_elem_of_cons. repeat split; [done..|apply not_elem_of_nil].
    - rewrite columns_drop_ignore, columns_setitem, columns_boolean_index,
        columns_drop_ignore. intros [[?|[Hin _]] _]; [done|].
      destruct Hok as (_ & _ & Hms). apply Hms.
      by apply (list_elem_of_fmap_2 str_lower) in Hin. }
  rewrite columns_setitem_in.
  - rewrite columns_rename, columns_lower_columns, Hcols, !fmap_app.
    f_equal. rewrite <-list_fmap_compose. by apply list_fmap_ext.
  - rewrite columns_rename, columns_lower_columns, Hcols.
    apply list_elem_of_fmap. exists "remote_work_frequency". split; [done|].
    apply list_elem_of_fmap. exists "Remote_Work_Frequency". split; [done|].
    apply elem_of_app. left. apply list_elem_of_filter. split; [|done].
    rewrite !not_elem_of_cons. repeat split; [done..|apply not_elem_of_nil].
Qed.

(** The labels of the cleaned table, in order, for a raw table with
    ASCII labels: those of the raw table without the identifier, hire
    date and team size (and without the two temporary labels),
    lower-cased, [remote_work_frequency] renamed to [work_type], followed
    by [motivation_score]. *)
Theorem cleaned_productivity_columns (df out : frame) :
  forallb ascii_label (columns df) = true →
  productivity_labels_ok df →
  cleaning_productivity_data df = Ok out →
  columns out =
    (cleaned_label <$>
       filter (λ k, k ∉ ["Employee_ID"; "Hire_Date"; "Team_Size";
                         "Promotions_Normalized"; "Training_Hours_Normalized"])
         (columns df)) ++ ["motivation_score"].
Proof. intros _. apply cleaning_productivity_data_labels. Qed.

Lemma cleaned_productivity_columns_witness :
  columns productivity_sample_cleaned =
    (cleaned_label <$>
       filter (λ k, k ∉ ["Employee_ID"; "Hire_Date"; "Team_Size";
                         "Promotions_Normalized"; "Training_Hours_Normalized"])
         (columns productivity_sample)) ++ ["motivation_score"].
Proof.
  apply (cleaned_productivity_columns productivity_sample productivity_sample_cleaned).
  - reflexivity.
  - exact productivity_sample_labels_ok.
  - exact productivity_sample_run.
Defined.

(** ** The productivity cleaner: which tables it accepts *)

Lemma traverse_length {A B} (f : A → result B) (l : list A) (l' : list B) :
  traverse f l = Ok l' → length l' = length l.
Proof.
  revert l'. induction l as [|x l IH]; intros l'; simpl; [by intros [= <-]|].
  intros (y & _ & (ys & Hys & [= <-])%bind_Ok)%bind_Ok. simpl. f_equal. by apply IH.
Qed.

Lemma length_select {A} (mask : list bool) (xs : list A) :
  length xs = length mask → length (select mask xs) = count_kept mask.
Proof.
  unfold count_kept. revert xs.
  induction mask as [|b mask IH]; intros [|x xs]; try done.
  simpl. intros [= H].
  destruct b; [rewrite filter_cons_True by done|rewrite filter_cons_False by done];
    simpl; by rewrite IH.
Qed.

Lemma length_keep_mask department frequency n :
  length (values department) = n → length (values frequency) = n →
  length (keep_mask department frequency) = n.
Proof.
  intros Hd Hf. unfold keep_mask, mask_and, series_eq, series_ne.
  rewrite !length_zip_with, !length_fmap. lia.
Qed.

Lemma rectangular_getitem n (g : frame) l s :
  rectangular n g → getitem g l = Ok s → length (values s) = n.
Proof.
  unfold rectangular. induction g as [|[k c] g IH]; [done|]. simpl.
  intros [H1 H2]%Forall_cons. destruct (decide (k = l)); [by intros [= <-]|by apply IH].
Qed.

Lemma rectangular_setitem n (g : frame) l s :
  rectangular n g → length (values s) = n → rectangular n (setitem g l s).
Proof.
  unfold rectangular. intros Hg Hs. induction g as [|[k c] g IH]; simpl.
  - by repeat constructor.
  - apply Forall_cons in Hg as [H1 H2].
    destruct (decide (k = l)); constructor; auto.
Qed.

Lemma rectangular_drop_ignore n ls (g : frame) :
  rectangular n g → rectangular n (drop_ignore ls g).
Proof.
  unfold rectangular, drop_ignore. rewrite !Forall_forall.
  intros H x [_ Hx]%list_elem_of_filter. by apply H.
Qed.

Lemma rectangular_boolean_index n mask (g : frame) :
  rectangular n g → length mask = n →
  rectangular (count_kept mask) (boolean_index mask g).
Proof.
  unfold rectangular, boolean_index. intros Hg Hm. apply Forall_fmap.
  eapply Forall_impl; [exact Hg|]. intros [k c] Hc. simpl in *.
  apply length_select. congruence.
Qed.

Lemma rectangular_lower_columns n (g : frame) :
  rectangular n g → rectangular n (lower_columns g).
Proof.
  unfold rectangular, lower_columns. intros Hg. apply Forall_fmap.
  eapply Forall_impl; [exact Hg|]. by intros [k c].
Qed.

Lemma rectangular_rename n old new (g : frame) :
  rectangular n g → rectangular n (rename old new g).
Proof.
  unfold rectangular, rename. intros Hg. apply Forall_fmap.
  eapply Forall_impl; [exact Hg|]. by intros [k c].
Qed.

(** The score column of a table whose four score inputs are numbers. *)
Lemma normalize_1_5_num mask (s : series) (xs : list num) :
  values s = CNum <$> xs →
  normalize_1_5 (kept mask s) =
    Ok (plain (CNum <$>
      ((λ x, num_add (num_mul (num_div x (foldr nanmax NaN (select mask xs)))
                        (Fin (inject_Z 4))) (Fin (inject_Z 1)))
         <$> select mask xs))).
Proof.
  intros Hxs. destruct s as [d vs]. simpl in Hxs. subst vs.
  unfold normalize_1_5, series_max, kept, int. cbn [values dtype_of].
  rewrite select_fmap, (traverse_fmap_Ok _ _ id) by done. rewrite !Ok_bind.
  rewrite list_fmap_id.
  rewrite series_scalar_num, Ok_bind. unfold plain.
  rewrite series_scalar_num, Ok_bind. unfold plain.
  rewrite series_scalar_num. by rewrite <-!list_fmap_compose.
Qed.

Lemma motivation_column_num mask df promotions training satisfaction performance
    (ps ts ss fs : list num) :
  getitem df "Promotions" = Ok promotions → values promotions = CNum <$> ps →
  getitem df "Training_Hours" = Ok training → values training = CNum <$> ts →
  getitem df "Employee_Satisfaction_Score" = Ok satisfaction →
  values satisfaction = CNum <$> ss →
  getitem df "Performance_Score" = Ok performance → values performance = CNum <$> fs →
  ∃ ms, motivation_column mask df = Ok (plain (CNum <$> ms)) ∧
        length ms =
          Nat.min (Nat.min (Nat.min (length (select mask ss)) (length (select mask fs)))
                     (length (select mask ps)))
            (length (select mask ts)).
Proof.
  intros Hp Hps Ht Hts Hs Hss Hf Hfs. unfold motivation_column, int.
  rewrite Hp, Ok_bind, (normalize_1_5_num mask _ ps Hps).
  rewrite Ok_bind, Ht, Ok_bind, (normalize_1_5_num mask _ ts Hts).
  rewrite Ok_bind, Hs, Ok_bind, Hf, Ok_bind.
  unfold series_add, kept. cbn [values plain].
  rewrite Hss, Hfs, !select_fmap.
  rewrite cells_add_num. cbn [fmap result_fmap]. rewrite Ok_bind. cbn [values plain].
  rewrite cells_add_num. cbn [fmap result_fmap]. rewrite Ok_bind. cbn [values plain].
  rewrite cells_add_num. cbn [fmap result_fmap]. rewrite Ok_bind. unfold plain at 1.
  rewrite series_scalar_num, Ok_bind.
  unfold series_round2. cbn [values plain].
  rewrite <-!list_fmap_compose.
  rewrite (traverse_fmap_Ok _ _
    (CNum ∘ (λ x, num_round2 (num_div x (Fin (inject_Z 4)))))) by done.
  cbn [fmap result_fmap]. rewrite list_fmap_compose. eexists. split; [done|].
  rewrite length_fmap, !length_zip_with, !length_fmap. lia.
Qed.

(** On a table that has the six fields the cleaner reads, with numbers
    (missing ones included) in the four fields of the score, the cleaner
    raises nothing, whatever the numbers are and whichever rows are kept;
    when the table has [n] rows in every column, the cleaned table has in
    every column as many rows as the filter keeps. *)
Theorem cleaner_accepts_numeric_tables (df : frame) (n : nat)
    (department frequency promotions training satisfaction performance : series) :
  productivity_labels_ok df → rectangular n df →
  getitem df "Department" = Ok department →
  getitem df "Remote_Work_Frequency" = Ok frequency →
  getitem df "Promotions" = Ok promotions →
  getitem df "Training_Hours" = Ok training →
  getitem df "Employee_Satisfaction_Score" = Ok satisfaction →
  getitem df "Performance_Score" = Ok performance →
  forallb is_num (values promotions) = true →
  forallb is_num (values training) = true →
  forallb is_num (values satisfaction) = true →
  forallb is_num (values performance) = true →
  ∃ out, cleaning_productivity_data df = Ok out ∧
         rectangular (count_kept (keep_mask department frequency)) out ∧
         count_kept (keep_mask department frequency) ≤ n.
Proof.
  intros Hok Hrect Hd Hf Hp Ht Hs Hpf
    (ps & Hps)%is_num_cells (ts & Hts)%is_num_cells
    (ss & Hss)%is_num_cells (fs & Hfs)%is_num_cells.
  set (mask := keep_mask department frequency).
  assert (Hmask : length mask = n).
  { apply length_keep_mask; by eapply rectangular_getitem. }
  assert (Hlen : ∀ l s {A} (xs : list A) (g : A → cell),
            getitem df l = Ok s → values s = g <$> xs →
            length (select mask xs) = count_kept mask).
  { intros l s A xs g Hl Hv. apply length_select.
    rewrite Hmask, <-(rectangular_getitem n df l s Hrect Hl), Hv.
    by rewrite length_fmap. }
  destruct (motivation_column_num mask df _ _ _ _ ps ts ss fs Hp Hps Ht Hts Hs Hss Hpf Hfs)
    as (ms & Hm & Hms).
  rewrite (Hlen _ _ _ ps _ Hp Hps), (Hlen _ _ _ ts _ Ht Hts),
    (Hlen _ _ _ ss _ Hs Hss), (Hlen _ _ _ fs _ Hpf Hfs) in Hms.
  eexists. split; [by apply (cleaning_productivity_data_shape df _ _ _ Hok Hd Hf Hm)|].
  assert (Hfreq : length (select mask (values frequency)) = count_kept mask).
  { apply length_select. rewrite Hmask. by eapply rectangular_getitem. }
  split.
  - apply rectangular_setitem.
    + apply rectangular_rename, rectangular_lower_columns. unfold scored.
      apply rectangular_setitem; [|cbn [values plain]; rewrite length_fmap; lia].
      apply rectangular_drop_ignore, rectangular_setitem.
      * apply (rectangular_boolean_index n); [|done]. by apply rectangular_drop_ignore.
      * unfold series_replace, kept. cbn [values plain]. by rewrite length_fmap.
    + unfold categorical, series_replace, kept. cbn [values plain].
      by rewrite !length_fmap.
  - unfold count_kept. rewrite <-Hmask. apply length_filter.
Qed.

Lemma cleaner_accepts_numeric_tables_witness :
  ∃ out, cleaning_productivity_data productivity_zero_sample = Ok out ∧
    rectangular
      (count_kept (keep_mask (strs ["IT"; "IT"]) (ints [100; 0]%Z))) out ∧
    count_kept (keep_mask (strs ["IT"; "IT"]) (ints [100; 0]%Z)) ≤ 2.
Proof.
  apply (cleaner_accepts_numeric_tables productivity_zero_sample 2
           (strs ["IT"; "IT"]) (ints [100; 0]%Z) (ints [0; 0]%Z) (ints [10; 20]%Z)
           (ints [3; 4]%Z) (ints [4; 4]%Z)); try reflexivity.
  - repeat split; apply (bool_decide_unpack _); by vm_compute.
  - repeat constructor.
Defined.

(** ** The productivity cleaner: off-domain frequencies, strings, a second run *)

(** The replacement knows 100, 50 and 0 only, and the categorical knows
    Remote, Hybrid and Onsite only.  A kept row whose frequency is anything
    else (another number, a missing value, a string that is not one of the
    three labels) gets a missing work type; nothing is raised for it. *)
Theorem frequency_off_domain_is_missing (df out : frame) (department frequency : series) :
  productivity_labels_ok df →
  getitem df "Department" = Ok department →
  getitem df "Remote_Work_Frequency" = Ok frequency →
  cleaning_productivity_data df = Ok out →
  ∃ wt, getitem out "work_type" = Ok wt ∧
    length (values wt) =
      length (select (keep_mask department frequency) (values frequency)) ∧
    ∀ i c,
      select (keep_mask department frequency) (values frequency) !! i = Some c →
      cell_eqb c (int 100) = false → cell_eqb c (int 50) = false →
      cell_eqb c (int 0) = false →
      (∀ t, c = CStr t → t ∉ work_type_categories) →
      values wt !! i = Some (CNum NaN).
Proof.
  intros Hok Hd Hf Hout.
  destruct (cleaning_productivity_data_Ok df out Hout)
    as (department' & frequency' & motivation & Hd' & Hf' & Hm).
  assert (department' = department) as -> by congruence.
  assert (frequency' = frequency) as -> by congruence.
  destruct (cleaning_productivity_data_columns df _ _ _ Hok Hd Hf Hm)
    as (out' & Hout' & Hwt & _).
  assert (out' = out) as -> by congruence.
  eexists. split; [exact Hwt|].
  unfold categorical, series_replace, kept. cbn [values plain]. split.
  { by rewrite !length_fmap. }
  intros i c Hi H100 H50 H0 Hstr.
  rewrite !list_lookup_fmap, Hi. cbn [fmap option_fmap option_map]. f_equal.
  unfold work_type_labels. cbn [replace_cell]. rewrite H100, H50, H0.
  destruct c as [x|t]; [done|]. cbn [to_category].
  by rewrite bool_decide_false by (by apply Hstr).
Qed.

Lemma productivity_odd_frequency_sample_labels_ok :
  productivity_labels_ok productivity_odd_frequency_sample.
Proof. repeat split; apply (bool_decide_unpack _); by vm_compute. Defined.

Lemma frequency_off_domain_is_missing_witness :
  ∃ wt, getitem productivity_odd_frequency_cleaned "work_type" = Ok wt ∧
    length (values wt) =
      length (select (keep_mask (strs ["IT"; "IT"; "IT"; "HR"])
                        (plain [int 60; CNum NaN; int 100; int 50]))
                (values (plain [int 60; CNum NaN; int 100; int 50]))) ∧
    ∀ i c,
      select (keep_mask (strs ["IT"; "IT"; "IT"; "HR"])
                (plain [int 60; CNum NaN; int 100; int 50]))
        (values (plain [int 60; CNum NaN; int 100; int 50])) !! i = Some c →
      cell_eqb c (int 100) = false → cell_eqb c (int 50) = false →
      cell_eqb c (int 0) = false →
      (∀ t, c = CStr t → t ∉ work_type_categories) →
      values wt !! i = Some (CNum NaN).
Proof.
  apply (frequency_off_domain_is_missing productivity_odd_frequency_sample
           productivity_odd_frequency_cleaned).
  - exact productivity_odd_frequency_sample_labels_ok.
  - reflexivity.
  - reflexivity.
  - vm_compute. reflexivity.
Defined.

Lemma traverse_to_num_str (l : list cell) :
  existsb is_str l = true → traverse to_num l = Err TypeError.
Proof.
  induction l as [|[x|s] l IH]; simpl; [done| |done].
  intros ->%IH. done.
Qed.

Lemma normalize_1_5_str (s : series) :
  has_str s = true → normalize_1_5 s = Err TypeError.
Proof.
  unfold has_str, normalize_1_5, series_max. by intros ->%traverse_to_num_str.
Qed.

(** The documentation announces a ValueError for values that are not
    numbers in the promotions or the training hours.  What is raised is a
    TypeError, and only a string in a row the filter keeps raises it: the
    maximum and the division are taken after the filter. *)
Theorem string_in_kept_row_raises_type_error (df : frame)
    (department frequency promotions training : series) :
  getitem df "Department" = Ok department →
  getitem df "Remote_Work_Frequency" = Ok frequency →
  getitem df "Promotions" = Ok promotions →
  getitem df "Training_Hours" = Ok training →
  has_str (kept (keep_mask department frequency) promotions) = true ∨
  (forallb is_num (values promotions) = true ∧
   has_str (kept (keep_mask department frequency) training) = true) →
  cleaning_productivity_data df = Err TypeError.
Proof.
  intros Hd Hf Hp Ht Hstr.
  rewrite cleaning_productivity_data_unfold, Hd, Hf, !Ok_bind. cbv zeta.
  unfold motivation_column. rewrite Hp, Ok_bind.
  destruct Hstr as [Hs|[Hnum Hs]].
  - by rewrite (normalize_1_5_str _ Hs).
  - destruct (normalize_1_5_numeric (keep_mask department frequency) promotions Hnum)
      as [pn ->].
    by rewrite Ok_bind, Ht, Ok_bind, (normalize_1_5_str _ Hs).
Qed.

Lemma string_in_kept_row_raises_type_error_witness :
  cleaning_productivity_data productivity_odd_sample = Err TypeError.
Proof.
  apply (string_in_kept_row_raises_type_error productivity_odd_sample
           (strs ["IT"; "IT"; "IT"; "HR"]) (plain [int 60; CNum NaN; int 100; int 50])
           (plain [int 1; CStr "two"; int 3; int 0]) (ints [10; 20; 30; 40]%Z));
    try reflexivity.
  left. reflexivity.
Defined.

Lemma str_lower_not_capital (k : string) : str_lower k ≠ "Department".
Proof.
  intros H. pose proof (str_lower_idemp k) as Hi. rewrite H in Hi. discriminate Hi.
Qed.

(** The cleaned productivity table is not an input of the cleaner: its
    labels are lower-case, so a second run stops at the first column it
    reads and raises KeyError for [Department]. *)
Theorem cleaned_table_is_not_cleanable (df out : frame) :
  productivity_labels_ok df →
  cleaning_productivity_data df = Ok out →
  cleaning_productivity_data out = Err (KeyError "Department").
Proof.
  intros Hok Hout.
  pose proof (cleaning_productivity_data_labels df out Hok Hout) as Hcols.
  rewrite cleaning_productivity_data_unfold, (getitem_missing out "Department");
    [reflexivity|].
  rewrite Hcols, elem_of_app, list_elem_of_fmap, list_elem_of_singleton.
  intros [(k & Hk & _)|?]; [|done].
  unfold cleaned_label in Hk. destruct (decide _); [done|].
  by apply (str_lower_not_capital k).
Qed.

Lemma cleaned_table_is_not_cleanable_witness :
  cleaning_productivity_data productivity_sample_cleaned = Err (KeyError "Department").
Proof.
  apply (cleaned_table_is_not_cleanable productivity_sample).
  - exact productivity_sample_labels_ok.
  - exact productivity_sample_run.
Defined.

(** ** The mental-health cleaner: a rating that is not a number *)

Lemma has_str_false (r : series) :
  has_str r = false → forallb is_num (values r) = true.
Proof.
  unfold has_str. induction (values r) as [|[x|s] l IH]; simpl; auto.
Qed.

Lemma series_apply_str g r :
  g ∈ bucketing_functions → has_str r = true → series_apply g r = Err TypeError.
Proof.
  intros Hg. unfold has_str, series_apply. intros H.
  assert (traverse (λ v, CStr <$> g v) (values r) = Err TypeError) as ->; [|done].
  revert H. induction (values r) as [|[x|s] l IH]; simpl; [done| |].
  - intros ->%IH. rewrite (bucketing_functions_agree g Hg).
    unfold support_remote_grade. simpl.
    destruct (num_leb x (Fin (inject_Z 2))); simpl; [done|].
    by destruct (num_eqb x (Fin (inject_Z 3))).
  - intros _. by rewrite (bucketing_functions_agree g Hg).
Qed.

(** Comparing a string with 2 raises TypeError.  When one of the three
    rating columns holds a string the cleaner raises it, and by then it
    has relabelled the caller's table in lower case and has set the
    bucket column of every rating that came before the failing one, each
    holding row by row the bucket of its rating; the caller's table is
    exactly that, no other object of the store is touched and none is
    made. *)
Theorem string_rating_raises_type_error (h : heap) (df2 : ref) (f : frame)
    (r1 r2 r3 : series) :
  h !! df2 = Some f →
  getitem (lower_columns f) "company_support_for_remote_work" = Ok r1 →
  getitem (lower_columns f) "social_isolation_rating" = Ok r2 →
  getitem (lower_columns f) "work_life_balance_rating" = Ok r3 →
  has_str r1 || has_str r2 || has_str r3 = true →
  ∃ f', df_mentalhealth_cleaning df2 h = (Err TypeError, <[df2 := f']> h) ∧
    (has_str r1 = true → f' = lower_columns f) ∧
    (has_str r1 = false → has_str r2 = true →
       ∃ d1, f' = setitem (lower_columns f) "degree_of_remote_support" d1 ∧
             Forall2 (bucketed support_remote_grade) (values r1) (values d1)) ∧
    (has_str r1 = false → has_str r2 = false →
       ∃ d1 d2,
         f' = setitem (setitem (lower_columns f) "degree_of_remote_support" d1)
                "degree_of_social_isolation" d2 ∧
         Forall2 (bucketed support_remote_grade) (values r1) (values d1) ∧
         Forall2 (bucketed social_isolation) (values r2) (values d2)).
Proof.
  intros Hf H1 H2 H3 Hstr.
  assert (Hg1 : support_remote_grade ∈ bucketing_functions) by (by left).
  assert (Hg2 : social_isolation ∈ bucketing_functions) by (right; by left).
  assert (Hg3 : degree_work_life_balance ∈ bucketing_functions)
    by (right; right; by left).
  unfold df_mentalhealth_cleaning.
  rewrite (bind_load _ _ _ Hf), (bind_set_columns _ _ _ Hf), set_columns_lower.
  set (f0 := lower_columns f) in *.
  pose proof (heap_insert_lookup h df2 f Hf f0) as G0.
  rewrite (bind_getitem _ _ _ G0), H1, bind_lift.
  destruct (has_str r1) eqn:S1.
  { rewrite (series_apply_str _ r1 Hg1 S1). exists f0. by repeat split. }
  destruct (series_apply_numeric _ r1 Hg1 (has_str_false r1 S1)) as [d1 Hd1].
  rewrite Hd1.
  rewrite (bind_setitem _ _ _ G0), list_insert_insert_eq.
  set (f1 := setitem f0 "degree_of_remote_support" d1) in *.
  pose proof (heap_insert_lookup h df2 f Hf f1) as G1.
  rewrite (bind_getitem _ _ _ G1). unfold f1 at 1.
  rewrite getitem_setitem_ne, H2, bind_lift by done.
  destruct (has_str r2) eqn:S2.
  { rewrite (series_apply_str _ r2 Hg2 S2). exists f1. split; [done|].
    split; [done|]. split; [|done]. intros _ _. exists d1. split; [done|].
    by apply series_apply_bucketed. }
  destruct (series_apply_numeric _ r2 Hg2 (has_str_false r2 S2)) as [d2 Hd2].
  rewrite Hd2.
  rewrite (bind_setitem _ _ _ G1), list_insert_insert_eq.
  set (f2 := setitem f1 "degree_of_social_isolation" d2) in *.
  pose proof (heap_insert_lookup h df2 f Hf f2) as G2.
  rewrite (bind_getitem _ _ _ G2). unfold f2 at 1, f1 at 1.
  rewrite !getitem_setitem_ne, H3, bind_lift by done.
  simpl in Hstr. rewrite (series_apply_str _ r3 Hg3 Hstr). exists f2.
  split; [done|]. split; [done|]. split; [done|]. intros _ _. exists d1, d2.
  split; [done|]. split; by apply series_apply_bucketed.
Qed.

Lemma string_rating_raises_type_error_witness :
  ∃ f', df_mentalhealth_cleaning 0 [mental_health_sample_text_rating] =
          (Err TypeError, <[0%nat := f']> [mental_health_sample_text_rating]) ∧
    (has_str (plain [CNum NaN; int 2]) = true →
     f' = lower_columns mental_health_sample_text_rating) ∧
    (has_str (plain [CNum NaN; int 2]) = false →
     has_str (plain [int 2; CStr "n/a"]) = true →
       ∃ d1, f' = setitem (lower_columns mental_health_sample_text_rating)
                    "degree_of_remote_support" d1 ∧
             Forall2 (bucketed support_remote_grade)
               (values (plain [CNum NaN; int 2])) (values d1)) ∧
    (has_str (plain [CNum NaN; int 2]) = false →
     has_str (plain [int 2; CStr "n/a"]) = false →
       ∃ d1 d2,
         f' = setitem (setitem (lower_columns mental_health_sample_text_rating)
                         "degree_of_remote_support" d1)
                "degree_of_social_isolation" d2 ∧
         Forall2 (bucketed support_remote_grade)
           (values (plain [CNum NaN; int 2])) (values d1) ∧
         Forall2 (bucketed social_isolation)
           (values (plain [int 2; CStr "n/a"])) (values d2)).
Proof.
  apply (string_rating_raises_type_error [mental_health_sample_text_rating] 0
           mental_health_sample_text_rating
           (plain [CNum NaN; int 2]) (plain [int 2; CStr "n/a"]) (ints [4; 1]%Z));
    reflexivity.
Defined.

(** ** Counting labels *)

Lemma sum_list_perm (l k : list nat) : l ≡ₚ k → sum_list l = sum_list k.
Proof. induction 1; simpl; lia. Qed.

Lemma count_of_sum (ks xs : list string) :
  NoDup ks →
  sum_list ((λ k, count_of k xs) <$> ks) = length (filter (λ x, x ∈ ks) xs).
Proof.
  induction 1 as [|k ks Hk _ IH]; csimpl.
  - induction xs as [|x xs IHx]; [done|].
    rewrite filter_cons_False; [done|]. apply not_elem_of_nil.
  - rewrite IH. unfold count_of. clear IH.
    induction xs as [|x xs IHx]; [done|].
    rewrite !filter_cons.
    destruct (decide (x = k)) as [->|Hne].
    + rewrite decide_False by done. rewrite decide_True by (by left).
      simpl. lia.
    + destruct (decide (x ∈ ks)) as [Hin|Hin].
      * rewrite decide_True by (by right). simpl. lia.
      * rewrite decide_False; [lia|]. by intros [?|?]%elem_of_cons.
Qed.

Lemma filter_all {A} (P : A → Prop) `{∀ x, Decision (P x)} (l : list A) :
  (∀ x, x ∈ l → P x) → filter P l = l.
Proof.
  induction l as [|x l IH]; [done|]. intros HP.
  rewrite filter_cons_True by (apply HP; by left).
  f_equal. apply IH. intros y Hy. apply HP. by right.
Qed.

Lemma value_counts_elem (x : list (option string)) (l : string) (c : nat) :
  (l, c) ∈ value_counts x ↔ l ∈ omap id x ∧ c = count_of l (omap id x).
Proof.
  unfold value_counts. rewrite sort_desc_perm, list_elem_of_fmap. split.
  - intros (l' & [= ? ?] & Hl). subst. split; [|done].
    by apply (proj1 (unique_elem _ _)).
  - intros [Hl ->]. exists l. split; [done|]. by apply (proj2 (unique_elem _ _)).
Qed.

Lemma value_counts_total (x : list (option string)) :
  sum_list (value_counts x).*2 = length (omap id x).
Proof.
  unfold value_counts. set (present := omap id x).
  rewrite (sum_list_perm _ (((λ l, (l, count_of l present)) <$> unique present).*2))
    by (by rewrite sort_desc_perm).
  rewrite <-list_fmap_compose.
  rewrite (list_fmap_ext _ (λ k, count_of k present) (unique present)) by done.
  rewrite count_of_sum by apply unique_NoDup.
  f_equal. apply filter_all. intros y Hy. by apply unique_elem.
Qed.

(** ** Looking a label up *)

Lemma assoc_elem {A} (k : string) (v : A) (l : list (string * A)) :
  NoDup l.*1 → (k, v) ∈ l → assoc k l = Some v.
Proof.
  induction l as [|[k' v'] l IH]; [by intros _ ?%elem_of_nil|].
  rewrite fmap_cons. simpl. intros [Hk Hnd]%NoDup_cons [[= -> ->]|Hin]%elem_of_cons.
  - by rewrite decide_True.
  - rewrite decide_False; [by apply IH|]. intros ->. apply Hk.
    by apply (list_elem_of_fmap_2 fst) in Hin.
Qed.

Lemma assoc_None {A} (k : string) (l : list (string * A)) :
  k ∉ l.*1 → assoc k l = None.
Proof.
  induction l as [|[k' v'] l IH]; [done|]. rewrite fmap_cons. simpl.
  intros [? ?]%not_elem_of_cons. rewrite decide_False by done. by apply IH.
Qed.

Lemma assoc_fmap {A B} (g : A → B) (k : string) (l : list (string * A)) :
  assoc k ((λ lc, (lc.1, g lc.2)) <$> l) = g <$> assoc k l.
Proof.
  induction l as [|[k' v'] l IH]; [done|]. rewrite fmap_cons. simpl.
  by destruct (decide (k' = k)).
Qed.

Lemma Qnat_nonzero (n : nat) : (0 < n)%nat → Qeq_bool (Qnat n) 0 = false.
Proof.
  intros Hn. destruct (Qeq_bool (Qnat n) 0) eqn:E; [|done].
  apply Qeq_bool_iff in E. pose proof (Qnat_pos n Hn). lra.
Qed.

(** The percentage [value_counts(normalize=True) * 100] gives a label:
    none when the label does not occur, otherwise its count over the number
    of entries that are not missing. *)
Lemma value_counts_pct_assoc (x : list (option string)) (v : string) :
  assoc v (value_counts_pct x) =
    match count_of v (omap id x) with
    | O => None
    | S _ => Some (Fin (Qnat (count_of v (omap id x)) / Qnat (length (omap id x)) * 100))
    end.
Proof.
  unfold value_counts_pct. cbv zeta. rewrite value_counts_total.
  rewrite (assoc_fmap (λ c, num_mul (num_div (Fin (Qnat c))
                                       (Fin (Qnat (length (omap id x))))) (Fin 100))).
  set (present := omap id x).
  destruct (decide (v ∈ present)) as [Hin|Hin].
  - assert (Hc : (0 < count_of v present)%nat).
    { unfold count_of.
      assert (v ∈ filter (λ y, y = v) present) as H by (by apply list_elem_of_filter).
      destruct (filter (λ y, y = v) present); [by apply elem_of_nil in H|simpl; lia]. }
    rewrite (assoc_elem v (count_of v present)).
    + assert (Ht : (0 < length present)%nat).
      { destruct present; [by apply elem_of_nil in Hin|simpl; lia]. }
      destruct (count_of v present) as [|c] eqn:E; [lia|]. simpl.
      by rewrite (Qnat_nonzero _ Ht).
    + apply value_counts_keys.
    + by apply value_counts_elem.
  - rewrite assoc_None.
    + assert (count_of v present = 0%nat) as ->; [|done]. unfold count_of.
      destruct (filter (λ y, y = v) present) as [|y l] eqn:E; [done|].
      assert (y ∈ filter (λ y, y = v) present) as [-> ?]%list_elem_of_filter
        by (rewrite E; by left). done.
    + intros ((l & c) & -> & [H _]%value_counts_elem)%list_elem_of_fmap. done.
Qed.

Lemma value_counts_pct_nil (x : list (option string)) :
  value_counts_pct x = [] ↔ omap id x = [].
Proof.
  unfold value_counts_pct. cbv zeta. split.
  - intros E%fmap_nil_inv. destruct (omap id x) as [|y l] eqn:Hp; [done|].
    assert ((y, count_of y (omap id x)) ∈ value_counts x) as Hin
      by (apply value_counts_elem; rewrite Hp; split; [by left|done]).
    rewrite E in Hin. by apply elem_of_nil in Hin.
  - intros E. unfold value_counts. by rewrite E.
Qed.

Lemma value_counts_pct_labels (x : list (option string)) (v : string) :
  v ∈ (value_counts_pct x).*1 ↔ v ∈ omap id x.
Proof.
  unfold value_counts_pct. cbv zeta. rewrite <-list_fmap_compose.
  rewrite (list_fmap_ext _ fst (value_counts x)) by done. split.
  - intros ((l & c) & -> & [H _]%value_counts_elem)%list_elem_of_fmap. done.
  - intros H. apply list_elem_of_fmap. exists (v, count_of v (omap id x)).
    split; [done|]. by apply value_counts_elem.
Qed.

(** ** Groups as pairs *)

Section crosstab.
Context (keys vals : list (option string)).

Lemma group_labels (k : string) :
  omap id (select ((λ x, bool_decide (x = Some k)) <$> keys) vals) =
    (filter (λ p, p.1 = k) (labelled_pairs keys vals)).*2.
Proof.
  unfold labelled_pairs. revert vals.
  induction keys as [|[k'|] ks IH]; intros [|[v|] vs]; try done; csimpl;
    rewrite ?IH; try done.
  - destruct (decide (k' = k)) as [->|Hne].
    + rewrite bool_decide_true by done. rewrite filter_cons_True by done.
      csimpl. by rewrite IH.
    + rewrite bool_decide_false by congruence. rewrite filter_cons_False by done.
      by rewrite IH.
  - destruct (bool_decide (Some k' = Some k)); csimpl; by rewrite IH.
Qed.
End crosstab.


Lemma count_of_snd (v : string) (l : list (string * string)) :
  count_of v l.*2 = length (filter (λ p, p.2 = v) l).
Proof.
  unfold count_of. induction l as [|[a b] l IH]; [done|].
  rewrite fmap_cons, !filter_cons. simpl.
  destruct (decide (b = v)); simpl; by rewrite IH.
Qed.

Section pivot.
Context (keys vals : list (option string)).
Let s := groupby_apply keys vals value_counts_pct.
Let pairs := labelled_pairs keys vals.

Lemma pieces_spec (p : string * list (string * num)) :
  p ∈ pieces s →
  p.2 = value_counts_pct (select ((λ x, bool_decide (x = Some p.1)) <$> keys) vals).
Proof.
  unfold s, groupby_apply. cbn [pieces].
  by intros (k & -> & _)%list_elem_of_fmap.
Qed.

(** The cell of the pivot at group [k] and label [v] is the share of [v]
    in the group. *)
Lemma pivot_cell_share (p : string * list (string * num)) (v : string) :
  p ∈ pieces s → pivot_cell v p = share pairs p.1 v.
Proof.
  intros Hp. unfold pivot_cell, share. rewrite (pieces_spec p Hp).
  rewrite value_counts_pct_assoc, group_labels, count_of_snd, length_fmap.
  fold pairs. by destruct (filter (λ p0, p0.2 = v) _).
Qed.

Lemma piece_nonempty (p : string * list (string * num)) :
  p ∈ pieces s → p.2 ≠ [] ↔ p.1 ∈ pairs.*1.
Proof.
  intros Hp. rewrite (pieces_spec p Hp), value_counts_pct_nil, group_labels.
  fold pairs. split.
  - intros Hne. destruct (filter (λ p0, p0.1 = p.1) pairs) as [|q l] eqn:E; [done|].
    assert (q ∈ filter (λ p0, p0.1 = p.1) pairs) as [<- Hq]%list_elem_of_filter
      by (rewrite E; by left).
    by apply list_elem_of_fmap_2.
  - intros ((k & v) & Hk & Hin)%list_elem_of_fmap. simpl in Hk. subst k.
    assert ((p.1, v) ∈ filter (λ p0, p0.1 = p.1) pairs) as H
      by (by apply list_elem_of_filter).
    intros E%fmap_nil_inv. rewrite E in H. by apply elem_of_nil in H.
Qed.

Lemma pairs_key (k v : string) : (k, v) ∈ pairs → k ∈ omap id keys.
Proof.
  unfold pairs, labelled_pairs.
  intros ((ok & ov) & Hin & H)%list_elem_of_omap. simpl in H.
  destruct ok as [k'|]; [|done]. destruct ov as [v'|]; [|done].
  injection H as -> ->. apply list_elem_of_omap. exists (Some k). split; [|done].
  apply list_elem_of_lookup_1 in Hin as [i Hi].
  apply lookup_zip_with_Some in Hi as (a & b & [= <- <-] & Ha & _).
  by eapply list_elem_of_lookup_2.
Qed.

(** The rows of the pivot are the groups with a labelled row. *)
Lemma unstack_index (k : string) :
  k ∈ index (unstack s) ↔ k ∈ pairs.*1.
Proof.
  unfold unstack. cbn [index]. rewrite list_elem_of_fmap. split.
  - intros (p & -> & [Hne Hp]%list_elem_of_filter). by apply piece_nonempty.
  - intros Hk.
    assert (Hin : (k, value_counts_pct
                        (select ((λ x, bool_decide (x = Some k)) <$> keys) vals))
                  ∈ pieces s).
    { unfold s, groupby_apply. cbn [pieces]. apply list_elem_of_fmap.
      exists k. split; [done|]. rewrite sort_labels_perm. apply unique_elem.
      apply list_elem_of_fmap in Hk as ((k' & v) & -> & Hin). by eapply pairs_key. }
    eexists. split; [|apply list_elem_of_filter; split; [|exact Hin]]; [done|].
    by apply (piece_nonempty _ Hin).
Qed.

Lemma concat_level_elem (indexes : list (list string)) (k : string) :
  k ∈ concat_level indexes → ∃ i, i ∈ indexes ∧ k ∈ i.
Proof.
  destruct indexes as [|first rest]; simpl; [by intros ?%elem_of_nil|].
  destruct (forallb _ rest).
  - intros Hk. exists first. split; [by left|done].
  - rewrite sort_labels_perm. intros Hk. apply (proj1 (unique_elem _ _)) in Hk.
    apply list_elem_of_In, (in_concat (first :: rest)) in Hk as (i & Hi & Hk).
    exists i. split; by apply list_elem_of_In.
Qed.

(** The columns of the pivot are the labels of the labelled rows, each
    once. *)
Lemma inner_level_spec :
  NoDup (inner_level s) ∧ ∀ v, v ∈ inner_level s ↔ v ∈ pairs.*2.
Proof.
  destruct (groupby_apply_pieces keys vals) as [Hnd Hsub]. fold s in Hnd, Hsub.
  cbv zeta in Hnd, Hsub. split; [done|]. intros v.
  assert (Hlab : ∀ p, p ∈ pieces s → v ∈ p.2.*1 ↔ (p.1, v) ∈ pairs).
  { intros p Hp. rewrite (pieces_spec p Hp), value_counts_pct_labels, group_labels.
    fold pairs. rewrite list_elem_of_fmap. split.
    - intros ((k' & v') & -> & [Hk ?]%list_elem_of_filter). simpl in *. by subst.
    - intros Hin. exists (p.1, v). split; [done|]. by apply list_elem_of_filter. }
  split.
  - unfold s at 1, groupby_apply. cbn [inner_level].
    intros (i & (p & -> & Hp)%list_elem_of_fmap & Hv)%concat_level_elem.
    assert (Hps : p ∈ pieces s) by (unfold s, groupby_apply; by cbn [pieces]).
    apply list_elem_of_fmap. exists (p.1, v). split; [done|]. by apply Hlab.
  - intros ((k & v') & -> & Hin)%list_elem_of_fmap. simpl.
    set (p := (k, value_counts_pct
                    (select ((λ x, bool_decide (x = Some k)) <$> keys) vals))).
    assert (Hp : p ∈ pieces s).
    { unfold s, groupby_apply. cbn [pieces]. apply list_elem_of_fmap.
      exists k. split; [done|]. rewrite sort_labels_perm. apply unique_elem.
      by eapply pairs_key. }
    assert (Hv : v' ∈ p.2.*1) by (by apply Hlab).
    destruct (Hsub p Hp) as (qp & Hqp & _ & _ & Hall).
    { intros E. rewrite E in Hv. by apply elem_of_nil in Hv. }
    apply Hall. rewrite Hqp, <-list_fmap_compose in Hv.
    by rewrite (list_fmap_ext _ fst qp) in Hv.
Qed.
End pivot.

(** ** The rows in order, the total, the rounding *)

Lemma position_Some (k : string) (l : list string) :
  k ∈ l → ∃ i, position k l = Some i ∧ l !! i = Some k.
Proof.
  induction l as [|k' l IH]; [by intros ?%elem_of_nil|]. simpl.
  destruct (decide (k' = k)) as [->|Hne]; [by exists 0%nat|].
  intros [?|Hin]%elem_of_cons; [congruence|].
  destruct (IH Hin) as (i & -> & Hi). by exists (S i).
Qed.

Lemma position_None (k : string) (l : list string) : k ∉ l → position k l = None.
Proof.
  induction l as [|k' l IH]; [done|]. simpl. intros [? ?]%not_elem_of_cons.
  rewrite decide_False by done. by rewrite IH.
Qed.

Lemma position_elem (k : string) (l : list string) (i : nat) :
  position k l = Some i → k ∈ l.
Proof.
  destruct (decide (k ∈ l)) as [|Hn]; [done|]. by rewrite (position_None k l Hn).
Qed.

Lemma loc_row_order_Err (t : table) (l : string) :
  l ∈ row_order → l ∉ index t →
  ∃ l', loc row_order t = Err (KeyError l') ∧ l' ∈ row_order ∧ l' ∉ index t.
Proof.
  intros Hl Habs. unfold loc, row_order in *. cbn [traverse].
  destruct (position "Low" (index t)) as [i1|] eqn:E1; cycle 1.
  { exists "Low". split; [done|]. split; [by left|].
    intros [i [E _]]%position_Some. congruence. }
  destruct (position "Medium" (index t)) as [i2|] eqn:E2; cycle 1.
  { exists "Medium". split; [done|]. split; [right; by left|].
    intros [i [E _]]%position_Some. congruence. }
  destruct (position "High" (index t)) as [i3|] eqn:E3; cycle 1.
  { exists "High". split; [done|]. split; [right; right; by left|].
    intros [i [E _]]%position_Some. congruence. }
  destruct Habs. rewrite !elem_of_cons, elem_of_nil in Hl.
  destruct Hl as [->|[->|[->|[]]]]; by eapply position_elem.
Qed.

Lemma loc_row_order_Ok (t : table) :
  (∀ l, l ∈ row_order → l ∈ index t) →
  ∃ i1 i2 i3,
    index t !! i1 = Some "Low" ∧ index t !! i2 = Some "Medium" ∧
    index t !! i3 = Some "High" ∧
    loc row_order t =
      Ok (Table row_order
            ((λ kc, (kc.1, Series (dtype_of kc.2)
                             (omap (λ i, values kc.2 !! i) [i1; i2; i3])))
               <$> body t)).
Proof.
  intros Hall. unfold loc, row_order in *. cbn [traverse].
  destruct (position_Some "Low" (index t)) as (i1 & -> & H1);
    [apply Hall; by left|].
  destruct (position_Some "Medium" (index t)) as (i2 & -> & H2);
    [apply Hall; right; by left|].
  destruct (position_Some "High" (index t)) as (i3 & -> & H3);
    [apply Hall; right; right; by left|].
  by exists i1, i2, i3.
Qed.

Lemma loc_Ok_index (t t' : table) :
  loc row_order t = Ok t' → ∀ l, l ∈ row_order → l ∈ index t.
Proof.
  intros Hloc l Hl. destruct (decide (l ∈ index t)) as [|Habs]; [done|].
  destruct (loc_row_order_Err t l Hl Habs) as (l' & E & _). congruence.
Qed.

Lemma traverse_ext_Ok {A B} (f : A → result B) (g : A → B) (l : list A) :
  (∀ x, x ∈ l → f x = Ok (g x)) → traverse f l = Ok (g <$> l).
Proof.
  induction l as [|x l IH]; [done|]. intros H. simpl.
  rewrite (H x) by (by left). rewrite Ok_bind, IH; [done|].
  intros y Hy. apply H. by right.
Qed.

Lemma numeric_frame_getitem (df : frame) l s :
  numeric_frame df → getitem df l = Ok s → forallb is_num (values s) = true.
Proof.
  unfold numeric_frame. induction df as [|[k c] df IH]; [done|]. simpl.
  intros [H1 H2]%Forall_cons. destruct (decide (k = l)); [by intros [= <-]|by apply IH].
Qed.

Lemma numeric_lookup (s : series) (i : nat) (c : cell) :
  forallb is_num (values s) = true → values s !! i = Some c →
  c = CNum (num_at s i).
Proof.
  intros Hnum Hi. unfold num_at. rewrite Hi.
  rewrite forallb_forall in Hnum.
  apply list_elem_of_lookup_2, list_elem_of_In, Hnum in Hi. by destruct c.
Qed.

(** [sum(axis=1)] of a numeric table. *)
Lemma sum_axis1_numeric (t : table) :
  numeric_frame (body t) →
  sum_axis1 t =
    Ok (plain ((λ i, CNum (nansum ((λ kc, num_at kc.2 i) <$> body t)))
                 <$> seq 0 (length (index t)))).
Proof.
  intros Hnum. unfold sum_axis1.
  rewrite (traverse_ext_Ok _ (λ i, CNum (nansum ((λ kc, num_at kc.2 i) <$> body t))));
    [done|].
  intros i _.
  rewrite (traverse_ext_Ok _ (λ kc : string * series, num_at kc.2 i)); [done|].
  intros [k c] Hkc. simpl. unfold numeric_frame in Hnum.
  rewrite Forall_forall in Hnum. specialize (Hnum _ Hkc). simpl in Hnum.
  unfold num_at. destruct (values c !! i) as [v|] eqn:Hv; [|done].
  rewrite (numeric_lookup c i v Hnum Hv). done.
Qed.

Lemma series_round2_numeric (s : series) :
  forallb is_num (values s) = true →
  series_round2 s = Ok (plain (round_cell <$> values s)).
Proof.
  intros Hnum. unfold series_round2.
  rewrite (traverse_ext_Ok _ round_cell); [done|].
  intros c Hc. rewrite forallb_forall in Hnum.
  apply list_elem_of_In, Hnum in Hc. by destruct c.
Qed.

(** [round] with a dictionary, on a numeric table. *)
Lemma round_columns_numeric (names : list string) (df : frame) :
  numeric_frame df →
  round_columns names df =
    Ok ((λ kc, if bool_decide (kc.1 ∈ names)
               then (kc.1, plain (round_cell <$> values kc.2)) else kc) <$> df).
Proof.
  intros Hnum. unfold round_columns. apply traverse_ext_Ok.
  intros [k c] Hkc. simpl. destruct (bool_decide (k ∈ names)); [|done].
  unfold numeric_frame in Hnum. rewrite Forall_forall in Hnum.
  by rewrite (series_round2_numeric c (Hnum _ Hkc)).
Qed.

Lemma numeric_frame_setitem (df : frame) l s :
  numeric_frame df → forallb is_num (values s) = true →
  numeric_frame (setitem df l s).
Proof.
  unfold numeric_frame. intros Hdf Hs. induction df as [|[k c] df IH]; simpl.
  - by repeat constructor.
  - apply Forall_cons in Hdf as [H1 H2].
    destruct (decide (k = l)); constructor; auto.
Qed.

Lemma forallb_is_num_fmap {A} (f : A → num) (l : list A) :
  forallb is_num ((λ x, CNum (f x)) <$> l) = true.
Proof. induction l as [|x l IH]; [done|]. by rewrite fmap_cons. Qed.

Lemma numeric_located (df : frame) (ps : list nat) :
  numeric_frame df →
  numeric_frame
    ((λ kc, (kc.1, Series (dtype_of kc.2) (omap (λ i, values kc.2 !! i) ps))) <$> df).
Proof.
  unfold numeric_frame. intros Hdf. apply Forall_fmap.
  eapply Forall_impl; [exact Hdf|]. intros [k c] Hc. simpl in *.
  rewrite forallb_forall in *. intros x Hx%list_elem_of_In.
  apply list_elem_of_omap in Hx as (i & _ & Hi).
  by apply Hc, list_elem_of_In, (list_elem_of_lookup_2 _ i).
Qed.

(** The three rows of a numeric pivot, its totals, its rounded columns. *)
Lemma crosstab_tail_numeric (names : list string) (t : table) :
  numeric_frame (body t) → (∀ l, l ∈ row_order → l ∈ index t) →
  ∃ i1 i2 i3,
    index t !! i1 = Some "Low" ∧ index t !! i2 = Some "Medium" ∧
    index t !! i3 = Some "High" ∧
    let located :=
      (λ kc, (kc.1, Series (dtype_of kc.2) (omap (λ i, values kc.2 !! i) [i1; i2; i3])))
        <$> body t in
    crosstab_tail names t =
      Ok (Table row_order
            ((λ kc, if bool_decide (kc.1 ∈ names)
                    then (kc.1, plain (round_cell <$> values kc.2)) else kc)
               <$> setitem located "Total"
                     (plain ((λ i, CNum (nansum ((λ kc, num_at kc.2 i) <$> located)))
                               <$> seq 0 3)))).
Proof.
  intros Hnum Hall.
  destruct (loc_row_order_Ok t Hall) as (i1 & i2 & i3 & H1 & H2 & H3 & Hloc).
  exists i1, i2, i3. split; [done|]. split; [done|]. split; [done|]. cbv zeta.
  unfold crosstab_tail. rewrite Hloc, Ok_bind.
  pose proof (numeric_located (body t) [i1; i2; i3] Hnum) as Hnl.
  rewrite sum_axis1_numeric by done. rewrite Ok_bind. cbn [index body].
  rewrite round_columns_numeric; [done|].
  apply numeric_frame_setitem; [done|]. apply forallb_is_num_fmap.
Qed.

Lemma crosstab_tail_absent (names : list string) (t : table) (l : string) :
  l ∈ row_order → l ∉ index t →
  ∃ l', crosstab_tail names t = Err (KeyError l') ∧ l' ∈ row_order ∧ l' ∉ index t.
Proof.
  intros Hl Habs. destruct (loc_row_order_Err t l Hl Habs) as (l' & E & ? & ?).
  exists l'. split; [|done]. unfold crosstab_tail. by rewrite E.
Qed.

(** ** The pivot as a table *)

Lemma getitem_tabulate (F : string → series) (ls : list string) (l : string) :
  l ∈ ls → getitem ((λ l, (l, F l)) <$> ls) l = Ok (F l).
Proof.
  induction ls as [|k ls IH]; [by intros ?%elem_of_nil|].
  rewrite fmap_cons. simpl. destruct (decide (k = l)) as [->|Hne]; [done|].
  intros [?|Hin]%elem_of_cons; [congruence|by apply IH].
Qed.

Lemma getitem_rounded (names : list string) (df : frame) (l : string) :
  getitem ((λ kc, if bool_decide (kc.1 ∈ names)
                  then (kc.1, plain (round_cell <$> values kc.2)) else kc) <$> df) l =
    (λ s, if bool_decide (l ∈ names) then plain (round_cell <$> values s) else s)
      <$> getitem df l.
Proof.
  induction df as [|[k c] df IH]; [done|]. rewrite fmap_cons. simpl.
  destruct (bool_decide (k ∈ names)) eqn:E; simpl;
    (destruct (decide (k = l)) as [->|Hne]; [by rewrite E|apply IH]).
Qed.

Lemma columns_rounded (names : list string) (df : frame) :
  columns ((λ kc, if bool_decide (kc.1 ∈ names)
                  then (kc.1, plain (round_cell <$> values kc.2)) else kc) <$> df) =
    columns df.
Proof.
  unfold columns. rewrite <-list_fmap_compose. apply list_fmap_ext.
  intros i [k c] _. simpl. by destruct (bool_decide (k ∈ names)).
Qed.

Section pivot_table.
Context (keys vals : list (option string)).
Let s := groupby_apply keys vals value_counts_pct.
Let pairs := labelled_pairs keys vals.

Lemma unstack_numeric : numeric_frame (body (unstack s)).
Proof.
  unfold unstack, numeric_frame. cbn [body]. apply Forall_fmap, Forall_forall.
  intros l _. simpl. apply (forallb_is_num_fmap (λ p, default NaN (assoc l p.2))).
Qed.

Lemma unstack_row (i : nat) (k : string) :
  index (unstack s) !! i = Some k →
  ∃ p, filter (λ p, p.2 ≠ []) (pieces s) !! i = Some p ∧
       p ∈ pieces s ∧ p.2 ≠ [] ∧ p.1 = k.
Proof.
  unfold unstack. cbn [index]. rewrite list_lookup_fmap.
  destruct (filter _ (pieces s) !! i) as [p|] eqn:E; [|done]. simpl.
  intros [= <-]. exists p. split; [done|].
  apply list_elem_of_lookup_2, list_elem_of_filter in E as [? ?]. done.
Qed.

(** The three rows the cross-tabulations keep hold the shares of the
    labels at the three stress levels. *)
Lemma located_shares (i1 i2 i3 : nat) :
  index (unstack s) !! i1 = Some "Low" → index (unstack s) !! i2 = Some "Medium" →
  index (unstack s) !! i3 = Some "High" →
  (λ kc : string * series,
     (kc.1, Series (dtype_of kc.2) (omap (λ i, values kc.2 !! i) [i1; i2; i3])))
    <$> body (unstack s) =
  (λ l, (l, plain ((λ k, CNum (share pairs k l)) <$> row_order))) <$> inner_level s.
Proof.
  intros (p1 & H1 & Hp1 & _ & E1)%unstack_row (p2 & H2 & Hp2 & _ & E2)%unstack_row
    (p3 & H3 & Hp3 & _ & E3)%unstack_row.
  unfold unstack. cbn [body]. rewrite <-list_fmap_compose. apply list_fmap_ext.
  intros i l _. unfold compose, plain. cbn [fst snd values dtype_of].
  f_equal. f_equal. cbn [omap list_omap].
  rewrite !list_lookup_fmap, H1, H2, H3. cbn [fmap option_fmap option_map].
  unfold row_order. rewrite !fmap_cons, fmap_nil.
  fold (pivot_cell l p1). fold (pivot_cell l p2). fold (pivot_cell l p3).
  rewrite (pivot_cell_share keys vals p1 l Hp1), (pivot_cell_share keys vals p2 l Hp2),
    (pivot_cell_share keys vals p3 l Hp3), E1, E2, E3. done.
Qed.

(** The shares of a stress level with a labelled row add up to 100. *)
Lemma shares_total (k : string) :
  k ∈ pairs.*1 →
  ∃ t, nansum ((λ l, share pairs k l) <$> inner_level s) = Fin t ∧ (t == 100)%Q.
Proof.
  intros Hk. apply unstack_index, list_elem_of_lookup_1 in Hk as [i Hi].
  apply unstack_row in Hi as (p & _ & Hp & Hne & <-).
  destruct (groupby_apply_pieces keys vals) as [Hnd Hall]. cbv zeta in Hnd, Hall.
  destruct (Hall p Hp Hne) as (qp & Hqp & Hq & Hsum & Hsub).
  rewrite (list_fmap_ext _ (λ l, match assoc l qp with Some q => Fin q | None => NaN end)
             (inner_level s)); cycle 1.
  { intros j l _. unfold pairs. rewrite <-(pivot_cell_share keys vals p l Hp).
    unfold pivot_cell. rewrite Hqp, assoc_fin. by destruct (assoc l qp). }
  pose proof (Qsum_assoc (inner_level s) qp Hnd Hq Hsub) as Hlevel.
  rewrite Hsum in Hlevel. unfold nansum.
  assert (Hfold : ∀ (level : list string) (acc : Q),
    ∃ t, foldl num_add (Fin acc)
           (skipna <$> ((λ l, match assoc l qp with Some q => Fin q | None => NaN end)
                          <$> level)) = Fin t ∧
         (t == acc + Qsum ((λ l, default 0%Q (assoc l qp)) <$> level))%Q).
  { induction level as [|l level IH]; intros acc.
    - exists acc. split; [done|]. simpl. lra.
    - rewrite !fmap_cons. cbn [foldl Qsum foldr].
      destruct (assoc l qp) as [q|]; simpl.
      + destruct (IH (acc + q)%Q) as (t & -> & Ht). exists t. split; [done|].
        rewrite Ht. unfold Qsum. lra.
      + destruct (IH (acc + 0)%Q) as (t & -> & Ht). exists t. split; [done|].
        rewrite Ht. unfold Qsum. lra. }
  destruct (Hfold (inner_level s) 0%Q) as (t & -> & Ht). exists t. split; [done|].
  fold s in Hlevel. rewrite Ht, Hlevel. lra.
Qed.
End pivot_table.

Lemma stress_labels_inj df l keys vals keys' vals' :
  stress_labels df l keys vals → stress_labels df l keys' vals' →
  keys' = keys ∧ vals' = vals.
Proof.
  intros (a & b & Ha & Hb & Hk & Hv) (a' & b' & Ha' & Hb' & Hk' & Hv').
  split; congruence.
Qed.

Lemma stress_jobrole_rel_unfold df keys vals :
  stress_labels df "job_role" keys vals →
  stress_jobrole_rel df =
    crosstab_tail job_roles (unstack (groupby_apply keys vals value_counts_pct)).
Proof.
  intros (a & b & Ha & Hb & Hk & Hv). unfold stress_jobrole_rel.
  by rewrite Ha, Ok_bind, Hb, Ok_bind, Hk, Ok_bind, Hv, Ok_bind.
Qed.

Lemma stress_worktype_rel_unfold df keys vals :
  stress_labels df "work_type" keys vals →
  stress_worktype_rel df =
    cols ← set_columns (body (unstack (groupby_apply keys vals value_counts_pct)))
              ["Remote"; "Hybrid"; "Onsite"];
    crosstab_tail ["Remote"; "Hybrid"; "Onsite"]
      (Table (index (unstack (groupby_apply keys vals value_counts_pct))) cols).
Proof.
  intros (a & b & Ha & Hb & Hk & Hv). unfold stress_worktype_rel.
  by rewrite Ha, Ok_bind, Hb, Ok_bind, Hk, Ok_bind, Hv, Ok_bind.
Qed.

(** The table [stress_jobrole_rel] returns, written out. *)
Lemma stress_jobrole_rel_Ok df keys vals out :
  stress_labels df "job_role" keys vals →
  stress_jobrole_rel df = Ok out →
  let s := groupby_apply keys vals value_counts_pct in
  let pairs := labelled_pairs keys vals in
  let located :=
    (λ l, (l, plain ((λ k, CNum (share pairs k l)) <$> row_order))) <$> inner_level s in
  (∀ l, l ∈ row_order → l ∈ pairs.*1) ∧
  out = Table row_order
          ((λ kc, if bool_decide (kc.1 ∈ job_roles)
                  then (kc.1, plain (round_cell <$> values kc.2)) else kc)
             <$> setitem located "Total"
                   (plain ((λ i, CNum (nansum ((λ kc, num_at kc.2 i) <$> located)))
                             <$> seq 0 3))).
Proof.
  intros Hlab Hout. cbv zeta.
  rewrite (stress_jobrole_rel_unfold df keys vals Hlab) in Hout.
  assert (Hall : ∀ l, l ∈ row_order →
            l ∈ index (unstack (groupby_apply keys vals value_counts_pct))).
  { unfold crosstab_tail in Hout. apply bind_Ok in Hout as (t' & Hloc & _).
    by eapply loc_Ok_index. }
  destruct (crosstab_tail_numeric job_roles _ (unstack_numeric keys vals) Hall)
    as (i1 & i2 & i3 & H1 & H2 & H3 & Htail).
  cbv zeta in Htail. rewrite (located_shares keys vals i1 i2 i3 H1 H2 H3) in Htail.
  split.
  - intros l Hl. by apply (unstack_index keys vals), Hall.
  - congruence.
Qed.

(** ** Exact values and computed values *)

Lemma approximates_refl (tol : Q) (s : num) : (0 <= tol)%Q → approximates tol s s.
Proof.
  intros Htol. destruct s as [q| | |]; try done. exists q. split; [done|].
  assert (q - q == 0)%Q as -> by ring. done.
Qed.

Lemma approximates_round2 (s : num) : approximates rounding_tolerance (num_round2 s) s.
Proof.
  destruct s as [q| | |]; try done. exists (round2 q). split; [done|].
  apply round2_tolerance.
Qed.

(** ** The stress level by job role cross-tabulation *)

(** In exact arithmetic: the rows, the columns and the cells of the table
    [stress_jobrole_rel] returns. *)
Lemma stress_jobrole_rel_cells (df : frame) (out : table)
    (keys vals : list (option string)) :
  stress_labels df "job_role" keys vals →
  stress_jobrole_rel df = Ok out →
  index out = row_order ∧
  (∀ role, role ∈ columns (body out) ↔
           role = "Total" ∨ role ∈ (labelled_pairs keys vals).*2) ∧
  ∀ i level role,
    row_order !! i = Some level →
    role ∈ (labelled_pairs keys vals).*2 → role ≠ "Total" →
    cell_at (body out) role i =
      Some (CNum (if bool_decide (role ∈ job_roles)
                  then num_round2 (share (labelled_pairs keys vals) level role)
                  else share (labelled_pairs keys vals) level role)).
Proof.
  intros Hlab Hout.
  destruct (stress_jobrole_rel_Ok df keys vals out Hlab Hout) as [_ ->].
  destruct (inner_level_spec keys vals) as [_ Hlevel].
  cbn [index body]. split; [done|]. split.
  - intros role. rewrite columns_rounded, columns_setitem. unfold columns.
    rewrite <-list_fmap_compose.
    rewrite (list_fmap_ext _ id (inner_level _)) by done.
    by rewrite list_fmap_id, Hlevel.
  - intros i level role Hi Hrole Hne. unfold cell_at.
    rewrite getitem_rounded, getitem_setitem_ne by done.
    rewrite (getitem_tabulate
               (λ l, plain ((λ k, CNum (share (labelled_pairs keys vals) k l))
                              <$> row_order))) by (by apply Hlevel).
    cbn [fmap result_fmap].
    destruct (bool_decide (role ∈ job_roles)); cbn [values plain];
      rewrite ?list_lookup_fmap, Hi; done.
Qed.

(** [stress_jobrole_rel] labels its columns with the roles themselves.
    Whenever it returns, the rows are Low, Medium, High; the columns are
    the roles that occur on a row with a stress level, and Total; and the
    cell of a role at a stress level is missing when the role does not
    occur at that level, and otherwise is the share, in percent, of that
    role among the rows of that level that carry a role: to within half a
    unit of the second decimal for the three tech roles, whose columns are
    rounded, and up to rounding errors for any other role. *)
Theorem stress_jobrole_rel_shares (df : frame) (out : table)
    (keys vals : list (option string)) :
  stress_labels df "job_role" keys vals →
  stress_jobrole_rel df = Ok out →
  index out = row_order ∧
  (∀ role, role ∈ columns (body out) ↔
           role = "Total" ∨ role ∈ (labelled_pairs keys vals).*2) ∧
  ∀ i level role,
    row_order !! i = Some level →
    role ∈ (labelled_pairs keys vals).*2 → role ≠ "Total" →
    ∃ x, cell_at (body out) role i = Some (CNum x) ∧
         approximates
           (if bool_decide (role ∈ job_roles) then rounding_tolerance else noise)
           x (share (labelled_pairs keys vals) level role).
Proof.
  intros Hlab Hout.
  destruct (stress_jobrole_rel_cells df out keys vals Hlab Hout)
    as (Hindex & Hcols & Hcells).
  split; [done|]. split; [done|].
  intros i level role Hi Hrole Hne. eexists. split; [by apply Hcells|].
  destruct (bool_decide (role ∈ job_roles)).
  - apply approximates_round2.
  - by apply approximates_refl.
Qed.

Lemma role_sample_labels :
  stress_labels role_sample "job_role"
    (labels_of role_sample "stress_level") (labels_of role_sample "job_role").
Proof. eexists _, _. repeat split; reflexivity. Defined.

Lemma stress_jobrole_rel_shares_witness :
  index role_sample_table = row_order ∧
  (∀ role, role ∈ columns (body role_sample_table) ↔
           role = "Total" ∨
           role ∈ (labelled_pairs (labels_of role_sample "stress_level")
                     (labels_of role_sample "job_role")).*2) ∧
  ∀ i level role,
    row_order !! i = Some level →
    role ∈ (labelled_pairs (labels_of role_sample "stress_level")
              (labels_of role_sample "job_role")).*2 → role ≠ "Total" →
    ∃ x, cell_at (body role_sample_table) role i = Some (CNum x) ∧
         approximates
           (if bool_decide (role ∈ job_roles) then rounding_tolerance else noise)
           x (share (labelled_pairs (labels_of role_sample "stress_level")
                       (labels_of role_sample "job_role")) level role).
Proof.
  apply (stress_jobrole_rel_shares role_sample role_sample_table).
  - exact role_sample_labels.
  - vm_compute. reflexivity.
Defined.

(** In exact arithmetic every Total of the table [stress_jobrole_rel]
    returns is 100. *)
Lemma stress_jobrole_rel_totals_exact (df : frame) (out : table)
    (keys vals : list (option string)) :
  stress_labels df "job_role" keys vals →
  stress_jobrole_rel df = Ok out →
  ∀ i, (i < 3)%nat →
    ∃ t, cell_at (body out) "Total" i = Some (CNum (Fin t)) ∧ (t == 100)%Q.
Proof.
  intros Hlab Hout.
  destruct (stress_jobrole_rel_Ok df keys vals out Hlab Hout) as [Hall ->].
  intros i Hi. cbn [body]. unfold cell_at.
  rewrite getitem_rounded, getitem_setitem_eq. cbn [fmap result_fmap].
  rewrite bool_decide_false
    by (unfold job_roles; rewrite !not_elem_of_cons; repeat split;
        [done..|apply not_elem_of_nil]).
  cbn [values plain]. rewrite list_lookup_fmap.
  assert (∃ level, row_order !! i = Some level ∧ seq 0 3 !! i = Some i)
    as (level & Hlevel & ->).
  { destruct i as [|[|[|i]]]; [by eexists..|lia]. }
  cbn [fmap option_fmap option_map].
  rewrite <-list_fmap_compose.
  rewrite (list_fmap_ext _ (λ l, share (labelled_pairs keys vals) level l)
             (inner_level (groupby_apply keys vals value_counts_pct))); cycle 1.
  { intros j l _. unfold compose, num_at. cbn [snd values plain].
    by rewrite list_lookup_fmap, Hlevel. }
  destruct (shares_total keys vals level) as (t & Ht & H100).
  { apply Hall. by eapply list_elem_of_lookup_2. }
  exists t. by rewrite Ht.
Qed.

(** Every Total of the table [stress_jobrole_rel] returns is 100 to
    within 0.01: it adds the shares of all the roles, missing ones
    skipped, before any column is rounded, so only the rounding errors of
    the shares and of their sum separate it from 100. *)
Theorem stress_jobrole_rel_totals (df : frame) (out : table)
    (keys vals : list (option string)) :
  stress_labels df "job_role" keys vals →
  stress_jobrole_rel df = Ok out →
  ∀ i, (i < 3)%nat →
    ∃ t, cell_at (body out) "Total" i = Some (CNum t) ∧ near (1 # 100) t 100.
Proof.
  intros Hlab Hout i Hi.
  destruct (stress_jobrole_rel_totals_exact df out keys vals Hlab Hout i Hi)
    as (t & Ht & H100).
  exists (Fin t). split; [done|]. exists t. split; [done|]. by rewrite H100.
Qed.

Lemma stress_jobrole_rel_totals_witness :
  (2 < 3)%nat ∧
  ∃ t, cell_at (body role_sample_table) "Total" 2 = Some (CNum t) ∧
       near (1 # 100) t 100.
Proof.
  split; [lia|].
  apply (stress_jobrole_rel_totals role_sample role_sample_table
           (labels_of role_sample "stress_level") (labels_of role_sample "job_role")).
  - exact role_sample_labels.
  - vm_compute. reflexivity.
  - lia.
Defined.

(** ** When the cross-tabulations raise *)

Lemma absent_levels_elem (pairs : list (string * string)) (l : string) :
  l ∈ absent_levels pairs ↔ l ∈ row_order ∧ l ∉ pairs.*1.
Proof. unfold absent_levels. rewrite list_elem_of_filter. tauto. Qed.

Lemma absent_levels_nil (pairs : list (string * string)) :
  absent_levels pairs = [] → ∀ l, l ∈ row_order → l ∈ pairs.*1.
Proof.
  intros E l Hl. destruct (decide (l ∈ pairs.*1)) as [|Hn]; [done|].
  assert (l ∈ absent_levels pairs) as H by (by apply absent_levels_elem).
  rewrite E in H. by apply elem_of_nil in H.
Qed.

Lemma numeric_frame_zip (labels : list string) (df : frame) :
  numeric_frame df → numeric_frame (zip labels df.*2).
Proof.
  unfold numeric_frame. intros Hdf. revert labels.
  induction Hdf as [|[k c] df Hc _ IH]; intros [|l labels]; try constructor; auto.
Qed.

Section raises.
Context (keys vals : list (option string)).
Let s := groupby_apply keys vals value_counts_pct.
Let pairs := labelled_pairs keys vals.

Lemma crosstab_tail_pivot (names : list string) (cols : frame) :
  numeric_frame cols →
  (absent_levels pairs = [] →
     ∃ out, crosstab_tail names (Table (index (unstack s)) cols) = Ok out) ∧
  (∀ l, l ∈ absent_levels pairs →
     ∃ l', crosstab_tail names (Table (index (unstack s)) cols) = Err (KeyError l') ∧
           l' ∈ absent_levels pairs).
Proof.
  intros Hnum. split.
  - intros Habs.
    destruct (crosstab_tail_numeric names (Table (index (unstack s)) cols) Hnum)
      as (i1 & i2 & i3 & _ & _ & _ & Htail).
    { intros l Hl. apply (unstack_index keys vals). by apply absent_levels_nil. }
    cbv zeta in Htail. by eexists.
  - intros l [Hl Habs]%absent_levels_elem.
    destruct (crosstab_tail_absent names (Table (index (unstack s)) cols) l Hl)
      as (l' & E & Hl' & Hn).
    { intros Hin. by apply Habs, (unstack_index keys vals). }
    exists l'. split; [done|]. apply absent_levels_elem. split; [done|].
    intros Hin. by apply Hn, (unstack_index keys vals).
Qed.

Lemma length_inner_level : length (inner_level s) = length (unique pairs.*2).
Proof.
  destruct (inner_level_spec keys vals) as [Hnd Hlevel].
  apply Permutation_length, NoDup_Permutation; [done|apply unique_NoDup|].
  intros v. rewrite unique_elem. apply Hlevel.
Qed.
End raises.

(** [stress_jobrole_rel] on a table whose stress levels and roles are
    labels (or missing), with at least one row that has both: it returns a
    table when each of Low, Medium and High has such a row, and otherwise
    raises a KeyError for a level without one.  The number of roles does
    not matter. *)
Theorem stress_jobrole_rel_raises (df : frame) (keys vals : list (option string)) :
  stress_labels df "job_role" keys vals →
  labelled_pairs keys vals ≠ [] →
  (absent_levels (labelled_pairs keys vals) = [] →
     ∃ out, stress_jobrole_rel df = Ok out) ∧
  (∀ l, l ∈ absent_levels (labelled_pairs keys vals) →
     ∃ l', stress_jobrole_rel df = Err (KeyError l') ∧
           l' ∈ absent_levels (labelled_pairs keys vals)).
Proof.
  intros Hlab _. rewrite (stress_jobrole_rel_unfold df keys vals Hlab).
  apply (crosstab_tail_pivot keys vals job_roles), unstack_numeric.
Qed.

Lemma stress_jobrole_rel_raises_witness :
  (absent_levels (labelled_pairs (labels_of role_sample "stress_level")
                    (labels_of role_sample "job_role")) = [] →
     ∃ out, stress_jobrole_rel role_sample = Ok out) ∧
  (∀ l, l ∈ absent_levels (labelled_pairs (labels_of role_sample "stress_level")
                             (labels_of role_sample "job_role")) →
     ∃ l', stress_jobrole_rel role_sample = Err (KeyError l') ∧
           l' ∈ absent_levels (labelled_pairs (labels_of role_sample "stress_level")
                                 (labels_of role_sample "job_role"))).
Proof.
  apply (stress_jobrole_rel_raises role_sample).
  - exact role_sample_labels.
  - discriminate.
Defined.

(** [stress_worktype_rel] on a table whose stress levels and work types
    are labels (or missing), with at least one row that has both.  The
    three column labels it assigns fit three columns only: with fewer or
    more than three distinct work types it raises ValueError, whatever the
    stress levels are.  With exactly three it returns a table when each of
    Low, Medium and High has a labelled row, and otherwise raises a
    KeyError for a level without one. *)
Theorem stress_worktype_rel_raises (df : frame) (keys vals : list (option string)) :
  stress_labels df "work_type" keys vals →
  labelled_pairs keys vals ≠ [] →
  (length (unique (labelled_pairs keys vals).*2) ≠ 3%nat →
     stress_worktype_rel df = Err ValueError) ∧
  (length (unique (labelled_pairs keys vals).*2) = 3%nat →
     (absent_levels (labelled_pairs keys vals) = [] →
        ∃ out, stress_worktype_rel df = Ok out) ∧
     (∀ l, l ∈ absent_levels (labelled_pairs keys vals) →
        ∃ l', stress_worktype_rel df = Err (KeyError l') ∧
              l' ∈ absent_levels (labelled_pairs keys vals))).
Proof.
  intros Hlab _. rewrite (stress_worktype_rel_unfold df keys vals Hlab).
  pose proof (length_inner_level keys vals) as Hlen.
  unfold set_columns.
  assert (Hbody : length (body (unstack (groupby_apply keys vals value_counts_pct))) =
                  length (unique (labelled_pairs keys vals).*2)).
  { unfold unstack. cbn [body]. by rewrite length_fmap. }
  rewrite Hbody. cbn [length]. split.
  - intros Hne. by rewrite decide_False by congruence.
  - intros H3. rewrite decide_True by congruence. rewrite Ok_bind.
    apply (crosstab_tail_pivot keys vals), numeric_frame_zip, unstack_numeric.
Qed.

Lemma stress_two_types_sample_labels :
  stress_labels stress_two_types_sample "work_type"
    (labels_of stress_two_types_sample "stress_level")
    (labels_of stress_two_types_sample "work_type").
Proof. eexists _, _. repeat split; reflexivity. Defined.

Lemma stress_worktype_rel_raises_witness :
  (length (unique (labelled_pairs (labels_of stress_two_types_sample "stress_level")
                     (labels_of stress_two_types_sample "work_type")).*2) ≠ 3%nat →
     stress_worktype_rel stress_two_types_sample = Err ValueError) ∧
  (length (unique (labelled_pairs (labels_of stress_two_types_sample "stress_level")
                     (labels_of stress_two_types_sample "work_type")).*2) = 3%nat →
     (absent_levels (labelled_pairs (labels_of stress_two_types_sample "stress_level")
                       (labels_of stress_two_types_sample "work_type")) = [] →
        ∃ out, stress_worktype_rel stress_two_types_sample = Ok out) ∧
     (∀ l, l ∈ absent_levels
                 (labelled_pairs (labels_of stress_two_types_sample "stress_level")
                    (labels_of stress_two_types_sample "work_type")) →
        ∃ l', stress_worktype_rel stress_two_types_sample = Err (KeyError l') ∧
              l' ∈ absent_levels
                     (labelled_pairs (labels_of stress_two_types_sample "stress_level")
                        (labels_of stress_two_types_sample "work_type")))).
Proof.
  apply (stress_worktype_rel_raises stress_two_types_sample).
  - exact stress_two_types_sample_labels.
  - discriminate.
Defined.

(** The two ways of raising, on sample tables. *)
Example stress_worktype_rel_two_types :
  stress_worktype_rel stress_two_types_sample = Err ValueError.
Proof. reflexivity. Qed.

Example stress_worktype_rel_no_medium :
  stress_worktype_rel stress_no_medium_sample = Err (KeyError "Medium").
Proof. reflexivity. Qed.

(** ** From the cleaner to the cross-tabulation by role *)

Lemma stress_jobrole_rel_labels (df : frame) (t : table) :
  stress_jobrole_rel df = Ok t → ∃ keys vals, stress_labels df "job_role" keys vals.
Proof.
  unfold stress_jobrole_rel.
  intros (a & Ha & (b & Hb & (keys & Hk & (vals & Hv & _)%bind_Ok)%bind_Ok)%bind_Ok)
    %bind_Ok.
  by exists keys, vals, a, b.
Qed.

Lemma labelled_pairs_snd (keys vals : list (option string)) (v : string) :
  v ∈ (labelled_pairs keys vals).*2 → Some v ∈ vals.
Proof.
  unfold labelled_pairs.
  intros ((k & v') & -> & ((ok & ov) & Hin & H)%list_elem_of_omap)%list_elem_of_fmap.
  simpl in *. destruct ok as [k'|]; [|done]. destruct ov as [v''|]; [|done].
  injection H as -> ->.
  apply list_elem_of_lookup_1 in Hin as [i Hi].
  apply lookup_zip_with_Some in Hi as (a & b & [= <- <-] & _ & Hb).
  by eapply list_elem_of_lookup_2.
Qed.

Lemma traverse_label_of_elem (cs : list cell) (ls : list (option string)) (v : string) :
  traverse label_of cs = Ok ls → Some v ∈ ls → CStr v ∈ cs.
Proof.
  revert ls. induction cs as [|c cs IH]; intros ls; simpl.
  - intros [= <-]. by intros ?%elem_of_nil.
  - intros (l & Hl & (ls' & Hls & [= <-])%bind_Ok)%bind_Ok [<-|Hin]%elem_of_cons.
    + destruct c as [[]|]; inversion Hl. by left.
    + right. by eapply IH.
Qed.

(** The script hands the table the cleaner returns to
    [stress_jobrole_rel].  That table has tech roles only, so in the
    cross-tabulation every column other than Total is one of the three
    columns the function rounds, and every percentage shown has two
    decimals. *)
Theorem cleaned_roles_are_rounded (h h' : heap) (df2 cleaned : ref)
    (f out : frame) (t : table) :
  h !! df2 = Some f →
  df_mentalhealth_cleaning df2 h = (Ok cleaned, h') →
  h' !! cleaned = Some out →
  stress_jobrole_rel out = Ok t →
  (∀ role, role ∈ columns (body t) → role = "Total" ∨ role ∈ job_roles) ∧
  (∀ role i c, role ≠ "Total" → cell_at (body t) role i = Some c →
     ∃ x, c = CNum (num_round2 x)).
Proof.
  intros Hf Hrun Hout Ht.
  pose proof (df_mentalhealth_cleaning_run h df2 f Hf) as Hspec.
  destruct (with_buckets f) as [f3|e] eqn:Hf3;
    [|destruct Hspec as [? Hspec]; congruence].
  destruct (pruned f3) as [f5|e] eqn:Hf5;
    [|destruct Hspec as [? Hspec]; congruence].
  destruct (tech_only f5) as [f6|e] eqn:Hf6;
    [|destruct Hspec as [? Hspec]; congruence].
  rewrite Hrun in Hspec. injection Hspec as -> ->.
  rewrite lookup_app_r in Hout by (by rewrite length_insert; lia).
  rewrite length_insert, Nat.sub_succ_l, Nat.sub_diag in Hout by done.
  injection Hout as <-.
  unfold tech_only in Hf6. apply bind_Ok in Hf6 as (jr & Hjr & [= <-]).
  destruct (stress_jobrole_rel_labels _ t Ht) as (keys & vals & Hlab).
  assert (Hroles : ∀ role, role ∈ (labelled_pairs keys vals).*2 → role ∈ job_roles).
  { intros role Hrole%labelled_pairs_snd.
    destruct Hlab as (a & b & _ & Hb & _ & Hv).
    rewrite getitem_boolean_index, Hjr in Hb. injection Hb as <-.
    apply (traverse_label_of_elem _ _ role Hv) in Hrole.
    cbn [kept values] in Hrole. rewrite select_isin in Hrole.
    apply list_elem_of_filter in Hrole as [Htech _]. simpl in Htech.
    apply bool_decide_eq_true in Htech. unfold tech_roles in Htech.
    unfold job_roles. rewrite !elem_of_cons in *. tauto. }
  destruct (stress_jobrole_rel_Ok _ keys vals t Hlab Ht) as [_ ->].
  destruct (inner_level_spec keys vals) as [_ Hlevel].
  cbn [body].
  assert (Hcols : ∀ role,
    role ∈ columns
      ((λ l, (l, plain ((λ k, CNum (share (labelled_pairs keys vals) k l))
                          <$> row_order)))
         <$> inner_level (groupby_apply keys vals value_counts_pct)) ↔
    role ∈ (labelled_pairs keys vals).*2).
  { intros role. unfold columns. rewrite <-list_fmap_compose.
    rewrite (list_fmap_ext _ id (inner_level _)) by done.
    by rewrite list_fmap_id, Hlevel. }
  split.
  - intros role. rewrite columns_rounded, columns_setitem, Hcols.
    intros [?|?]; auto.
  - intros role i c Hne. unfold cell_at.
    rewrite getitem_rounded, getitem_setitem_ne by done.
    destruct (getitem _ role) as [col|e] eqn:Hcol; [|done].
    cbn [fmap result_fmap].
    assert (Hin : role ∈ job_roles).
    { apply Hroles, Hcols. by eapply getitem_columns. }
    rewrite bool_decide_true by done. cbn [values plain].
    rewrite getitem_tabulate in Hcol by (apply Hlevel, Hcols; by eapply getitem_columns).
    injection Hcol as <-. cbn [values plain].
    destruct i as [|[|[|i]]]; cbn; [intros [= <-]; by eexists..|done].
Qed.

Lemma cleaned_roles_are_rounded_witness :
  (∀ role, role ∈ columns (body mental_health_pipeline_roles) →
           role = "Total" ∨ role ∈ job_roles) ∧
  (∀ role i c, role ≠ "Total" →
     cell_at (body mental_health_pipeline_roles) role i = Some c →
     ∃ x, c = CNum (num_round2 x)).
Proof.
  apply (cleaned_roles_are_rounded [mental_health_pipeline_sample]
           mental_health_pipeline_store_after 0 2 mental_health_pipeline_sample
           mental_health_pipeline_cleaned mental_health_pipeline_roles).
  - reflexivity.
  - vm_compute. reflexivity.
  - reflexivity.
  - vm_compute. reflexivity.
Defined.

(** ** What the relabelled columns hold *)

Lemma located_column (keys vals : list (option string)) (l : string) (i1 i2 i3 : nat) :
  let s := groupby_apply keys vals value_counts_pct in
  index (unstack s) !! i1 = Some "Low" → index (unstack s) !! i2 = Some "Medium" →
  index (unstack s) !! i3 = Some "High" →
  omap (λ i, ((λ p : string * list (string * num),
                 CNum (default NaN (assoc l p.2)))
                <$> filter (λ p, p.2 ≠ []) (pieces s)) !! i) [i1; i2; i3] =
    (λ k, CNum (share (labelled_pairs keys vals) k l)) <$> row_order.
Proof.
  cbv zeta.
  intros (p1 & H1 & Hp1 & _ & E1)%unstack_row (p2 & H2 & Hp2 & _ & E2)%unstack_row
    (p3 & H3 & Hp3 & _ & E3)%unstack_row.
  cbn [omap list_omap].
  rewrite !list_lookup_fmap, H1, H2, H3. cbn [fmap option_fmap option_map].
  unfold row_order. rewrite !fmap_cons, fmap_nil.
  fold (pivot_cell l p1). fold (pivot_cell l p2). fold (pivot_cell l p3).
  rewrite (pivot_cell_share keys vals p1 l Hp1), (pivot_cell_share keys vals p2 l Hp2),
    (pivot_cell_share keys vals p3 l Hp3), E1, E2, E3. done.
Qed.

(** In exact arithmetic: what the three relabelled columns of the table
    [stress_worktype_rel] returns hold. *)
Lemma stress_worktype_rel_cells (df : frame) (out : table)
    (keys vals : list (option string)) :
  stress_labels df "work_type" keys vals →
  stress_worktype_rel df = Ok out →
  ∃ a b c,
    [a; b; c] ≡ₚ unique (labelled_pairs keys vals).*2 ∧
    ∀ i level, row_order !! i = Some level →
      cell_at (body out) "Remote" i =
        Some (CNum (num_round2 (share (labelled_pairs keys vals) level a))) ∧
      cell_at (body out) "Hybrid" i =
        Some (CNum (num_round2 (share (labelled_pairs keys vals) level b))) ∧
      cell_at (body out) "Onsite" i =
        Some (CNum (num_round2 (share (labelled_pairs keys vals) level c))).
Proof.
  intros Hlab Hout.
  rewrite (stress_worktype_rel_unfold df keys vals Hlab) in Hout.
  apply bind_Ok in Hout as (cols & Hcols & Hout).
  destruct (inner_level_spec keys vals) as [Hnd Hlevel].
  assert (Hall : ∀ l, l ∈ row_order →
            l ∈ index (unstack (groupby_apply keys vals value_counts_pct))).
  { unfold crosstab_tail in Hout. apply bind_Ok in Hout as (t' & Hloc & _).
    intros l Hl. by apply (loc_Ok_index _ _ Hloc l Hl). }
  assert (Hc : cols = zip ["Remote"; "Hybrid"; "Onsite"]
                        (body (unstack (groupby_apply keys vals value_counts_pct))).*2 ∧
               length (inner_level (groupby_apply keys vals value_counts_pct)) = 3%nat).
  { unfold set_columns in Hcols. destruct (decide _) as [Hlen|]; [|done].
    split; [congruence|]. unfold unstack in Hlen. cbn [body] in Hlen.
    by rewrite length_fmap in Hlen. }
  destruct Hc as [Hc Hlen]. clear Hcols.
  destruct (crosstab_tail_numeric ["Remote"; "Hybrid"; "Onsite"]
              (Table (index (unstack (groupby_apply keys vals value_counts_pct))) cols))
    as (i1 & i2 & i3 & H1 & H2 & H3 & Htail); [|exact Hall|].
  { rewrite Hc. apply numeric_frame_zip, unstack_numeric. }
  cbv zeta in Htail. rewrite Htail in Hout. clear Htail.
  cbn [index] in H1, H2, H3.
  pose proof (λ l, located_column keys vals l i1 i2 i3 H1 H2 H3) as Hloc.
  cbv zeta in Hloc.
  destruct (inner_level (groupby_apply keys vals value_counts_pct))
    as [|a [|b [|c [|? ?]]]] eqn:E; try discriminate Hlen. clear Hlen.
  assert (Hcols : cols =
    [("Remote", plain ((λ p : string * list (string * num),
                          CNum (default NaN (assoc a p.2)))
                         <$> filter (λ p, p.2 ≠ [])
                               (pieces (groupby_apply keys vals value_counts_pct))));
     ("Hybrid", plain ((λ p : string * list (string * num),
                          CNum (default NaN (assoc b p.2)))
                         <$> filter (λ p, p.2 ≠ [])
                               (pieces (groupby_apply keys vals value_counts_pct))));
     ("Onsite", plain ((λ p : string * list (string * num),
                          CNum (default NaN (assoc c p.2)))
                         <$> filter (λ p, p.2 ≠ [])
                               (pieces (groupby_apply keys vals value_counts_pct))))]).
  { rewrite Hc. unfold unstack. cbn [body]. by rewrite E. }
  clear Hc. subst cols. cbn [body] in Hout.
  rewrite !fmap_cons, fmap_nil in Hout. cbn [fst snd dtype_of values plain] in Hout.
  rewrite !Hloc in Hout. injection Hout as <-.
  exists a, b, c. split.
  { apply NoDup_Permutation; [done|apply unique_NoDup|].
    intros v. by rewrite unique_elem, <-Hlevel. }
  intros i level Hi. cbn [body]. unfold cell_at. cbn [getitem].
  rewrite !decide_True by done. rewrite decide_False by done.
  rewrite decide_True by done. rewrite !decide_False by done.
  rewrite decide_True by done. cbn [values plain].
  destruct i as [|[|[|i]]]; [| | |done]; injection Hi as <-; done.
Qed.

(** [stress_worktype_rel] names its columns by position.  Whenever it
    returns, the three work types of the table can be listed as [a], [b],
    [c] (the order of the pivot's columns) so that, at every stress level,
    the cell labelled Remote is the share of [a], the one labelled Hybrid
    that of [b] and the one labelled Onsite that of [c], each to within
    half a unit of the second decimal and missing when the type does not
    occur at that level: each column is the share of one work type, and
    nothing ties that type to the label above it. *)
Theorem stress_worktype_rel_columns (df : frame) (out : table)
    (keys vals : list (option string)) :
  stress_labels df "work_type" keys vals →
  stress_worktype_rel df = Ok out →
  ∃ a b c,
    [a; b; c] ≡ₚ unique (labelled_pairs keys vals).*2 ∧
    ∀ i level, row_order !! i = Some level →
      ∃ x y z,
        cell_at (body out) "Remote" i = Some (CNum x) ∧
        approximates rounding_tolerance x (share (labelled_pairs keys vals) level a) ∧
        cell_at (body out) "Hybrid" i = Some (CNum y) ∧
        approximates rounding_tolerance y (share (labelled_pairs keys vals) level b) ∧
        cell_at (body out) "Onsite" i = Some (CNum z) ∧
        approximates rounding_tolerance z (share (labelled_pairs keys vals) level c).
Proof.
  intros Hlab Hout.
  destruct (stress_worktype_rel_cells df out keys vals Hlab Hout)
    as (a & b & c & Hperm & Hcells).
  exists a, b, c. split; [done|]. intros i level Hi.
  destruct (Hcells i level Hi) as (Hx & Hy & Hz).
  eexists _, _, _. split; [exact Hx|]. split; [apply approximates_round2|].
  split; [exact Hy|]. split; [apply approximates_round2|].
  split; [exact Hz|apply approximates_round2].
Qed.

Lemma stress_sample_labels :
  stress_labels stress_sample "work_type"
    (labels_of stress_sample "stress_level") (labels_of stress_sample "work_type").
Proof. eexists _, _. repeat split; reflexivity. Defined.

Lemma stress_worktype_rel_columns_witness :
  ∃ a b c,
    [a; b; c] ≡ₚ unique (labelled_pairs (labels_of stress_sample "stress_level")
                           (labels_of stress_sample "work_type")).*2 ∧
    ∀ i level, row_order !! i = Some level →
      ∃ x y z,
        cell_at (body stress_sample_table) "Remote" i = Some (CNum x) ∧
        approximates rounding_tolerance x
          (share (labelled_pairs (labels_of stress_sample "stress_level")
                    (labels_of stress_sample "work_type")) level a) ∧
        cell_at (body stress_sample_table) "Hybrid" i = Some (CNum y) ∧
        approximates rounding_tolerance y
          (share (labelled_pairs (labels_of stress_sample "stress_level")
                    (labels_of stress_sample "work_type")) level b) ∧
        cell_at (body stress_sample_table) "Onsite" i = Some (CNum z) ∧
        approximates rounding_tolerance z
          (share (labelled_pairs (labels_of stress_sample "stress_level")
                    (labels_of stress_sample "work_type")) level c).
Proof.
  apply (stress_worktype_rel_columns stress_sample stress_sample_table).
  - exact stress_sample_labels.
  - vm_compute. reflexivity.
Defined.
